(** * Tein_Brouwer_System: the React front end, embedded

    A shallow embedding of [frontend/src/App.js],
    [frontend/src/components/LocalRankingGrid.js] and the signup, pricing
    and login pages.

    - JavaScript values are an inductive type [JsVal]; numbers are IEEE
      binary64 floats, as in the language.
    - A handler is a computation in a small state-and-completion monad:
      it reads the variables its closure captured at render time, writes
      React state through the setters, talks to the browser (axios
      defaults, storage, timers, location) and appends every observable
      action to a log.
    - The network is an oracle: the answer to the n-th request.
    - Rendering is a function from the data held to the elements built,
      or to the TypeError that building them throws.

    Definitions come first (values, effects, axios, the components, a
    sample host and sample situations, the observations the statements
    use), then the properties. *)

From Stdlib Require Import String Ascii List Bool Arith ZArith Lia DecimalString.
From Stdlib Require Import Floats.PrimFloat Floats.SpecFloat Floats.FloatOps Numbers.Cyclic.Int63.Uint63.
Import ListNotations.
Local Open Scope string_scope.
Local Open Scope list_scope.

Set Implicit Arguments.
Set Warnings "-register-all,-inexact-float".

(** ** JavaScript values *)

Module Js.

Inductive JsVal : Type :=
| JUndefined
| JNull
| JBool (b : bool)
| JNum (x : float)
| JStr (s : string)
| JArr (items : list JsVal)
| JObj (props : list (string * JsVal)).

(** What the host gives and the repository does not define: the string
    forms of numbers ([parseFloat], [parseInt] and [Number] on a string,
    [String] on a number). *)
Class JsRuntime : Type := {
  parseFloat_string : string -> float;
  parseInt_string : string -> float;
  toNumber_string : string -> float;
  number_toString : float -> string
}.

Definition is_empty (s : string) : bool :=
  match s with EmptyString => true | _ => false end.

(** ToBoolean *)
Definition truthy (v : JsVal) : bool :=
  match v with
  | JUndefined | JNull => false
  | JBool b => b
  | JNum x => negb (PrimFloat.is_zero x || PrimFloat.is_nan x)
  | JStr s => negb (is_empty s)
  | JArr _ | JObj _ => true
  end.

Definition nullish (v : JsVal) : bool :=
  match v with JUndefined | JNull => true | _ => false end.

(** [a || b] *)
Definition or_else (a b : JsVal) : JsVal := if truthy a then a else b.

(** [a ?? b] *)
Definition coalesce (a b : JsVal) : JsVal := if nullish a then b else a.

(** [v === 'lit'] *)
Definition is_string (lit : string) (v : JsVal) : bool :=
  match v with JStr s => String.eqb s lit | _ => false end.

Fixpoint lookup (k : string) (o : list (string * JsVal)) : JsVal :=
  match o with
  | [] => JUndefined
  | (k', v) :: rest => if String.eqb k k' then v else lookup k rest
  end.

(** [v.k] on a value that is not null or undefined, for the property
    names the code reads from data: own properties of an object,
    [undefined] on anything else. ([length] is read through
    [has_positive_length].) *)
Definition get (v : JsVal) (k : string) : JsVal :=
  match v with
  | JObj o => lookup k o
  | _ => JUndefined
  end.

(** [v?.k] *)
Definition get_opt (v : JsVal) (k : string) : JsVal :=
  if nullish v then JUndefined else get v k.

Section WithRuntime.
Context {rt : JsRuntime}.

(** ToString *)
Fixpoint to_string (v : JsVal) : string :=
  match v with
  | JUndefined => "undefined"
  | JNull => "null"
  | JBool true => "true"
  | JBool false => "false"
  | JNum x => number_toString x
  | JStr s => s
  | JArr l =>
      (fix join (l : list JsVal) : string :=
         match l with
         | [] => ""
         | x :: rest =>
             let here := if nullish x then "" else to_string x in
             match rest with
             | [] => here
             | _ => (here ++ "," ++ join rest)%string
             end
         end) l
  | JObj _ => "[object Object]"
  end.

(** [parseFloat(v)]: the argument is converted to a string and the
    string is parsed; a number survives the round trip, except that
    minus zero prints as "0". *)
Definition parseFloat (v : JsVal) : float :=
  match v with
  | JNum x => if PrimFloat.is_zero x then PrimFloat.zero else x
  | _ => parseFloat_string (to_string v)
  end.

(** [parseInt(v)] *)
Definition parseInt (v : JsVal) : float :=
  parseInt_string (to_string v).

(** ToNumber *)
Definition to_number (v : JsVal) : float :=
  match v with
  | JUndefined => PrimFloat.nan
  | JNull => PrimFloat.zero
  | JBool b => if b then PrimFloat.one else PrimFloat.zero
  | JNum x => x
  | JStr s => toNumber_string s
  | JArr _ | JObj _ => toNumber_string (to_string v)
  end.

(** [v.length > 0] for a value that is not null or undefined: an array
    or a string has a positive length when it is not empty; an object
    has the [length] it holds, if any; a number or a boolean has none. *)
Definition has_positive_length (v : JsVal) : bool :=
  match v with
  | JArr l => match l with [] => false | _ => true end
  | JStr s => negb (is_empty s)
  | JObj o => PrimFloat.ltb PrimFloat.zero (to_number (lookup "length" o))
  | _ => false
  end.
End WithRuntime.

(** What [JSON.stringify] keeps of a value inside a request body:
    properties holding [undefined] are dropped, [undefined] inside an
    array and numbers that are not finite become [null]. *)
Fixpoint json_wire (v : JsVal) : JsVal :=
  match v with
  | JUndefined => JNull
  | JNum x => if PrimFloat.is_nan x || PrimFloat.is_infinity x then JNull else JNum x
  | JArr l => JArr (List.map json_wire l)
  | JObj o =>
      JObj ((fix props (o : list (string * JsVal)) : list (string * JsVal) :=
               match o with
               | [] => []
               | (k, JUndefined) :: rest => props rest
               | (k, x) :: rest => (k, json_wire x) :: props rest
               end) o)
  | _ => v
  end.

(** The property names of a serialized object. *)
Definition keys (v : JsVal) : list string :=
  match v with JObj o => List.map fst o | _ => [] end.

End Js.
Export Js.

(** ** Conversions that can throw *)

Module Coercion.

(** Whether a value can be turned into a string or a number without a
    TypeError. A property list stands for a plain object: a [toString]
    of its own, which is never a function, leaves the conversion without
    a method that gives a primitive; an own [valueOf] alone does no harm.
    An array is joined, which converts its elements; null and undefined
    among them count as empty strings. *)
Fixpoint converts (v : JsVal) : bool :=
  match v with
  | JObj o => negb (existsb (fun kv => String.eqb (fst kv) "toString") o)
  | JArr items =>
      (fix all (items : list JsVal) : bool :=
         match items with
         | [] => true
         | x :: rest => converts x && all rest
         end) items
  | _ => true
  end.

(** Whether [v.length > 0] can be evaluated, for a value that is not
    null or undefined: the length of an array or a string is a number,
    an object has the [length] it holds. *)
Definition length_converts (v : JsVal) : bool :=
  match v with
  | JObj o => converts (lookup "length" o)
  | _ => true
  end.

Definition conversion_error : string := "Cannot convert object to primitive value".

End Coercion.
Export Coercion.

(** ** Effects: the browser, the network and the completion monad *)

Module Eff.

Inductive Method : Type := GET | POST.

(** The config object a call site hands to axios. *)
Record Config : Type := {
  cfg_withCredentials : option bool;
  cfg_headers : list (string * JsVal);
  cfg_params : list (string * JsVal)
}.

Definition no_config : Config :=
  {| cfg_withCredentials := None; cfg_headers := []; cfg_params := [] |}.

(** The request as it leaves the browser. *)
Record Outgoing : Type := {
  method : Method;
  url : string;
  params : list (string * JsVal);
  body : option JsVal;
  withCredentials : bool;
  headers : list (string * JsVal)
}.

Inductive Storage : Type := LocalStorage | SessionStorage.

(** The functions the code hands to [setTimeout]. *)
Inductive Callback : Type :=
| AllowAuthCheck.  (* App.js: () => { setLogoutInProgress(false) } *)

Inductive Event : Type :=
| EvPreventDefault
| EvSetState (name : string) (v : JsVal)
| EvRequest (r : Outgoing)
| EvNavigate (to : string)
| EvAxiosDefaultHeader (name : string) (v : JsVal)
| EvStorageClear (which : Storage)
| EvSetTimeout (ms : nat) (cb : Callback).

Record Browser : Type := {
  axios_common : list (string * JsVal);   (* axios.defaults.headers.common *)
  cookies : list (string * string);       (* document.cookie *)
  localStorage : list (string * string);
  sessionStorage : list (string * string);
  now : nat;                              (* milliseconds *)
  timers : list (nat * Callback);         (* due time, callback *)
  location : string
}.

Definition with_common (v : list (string * JsVal)) (b : Browser) : Browser :=
  {| axios_common := v; cookies := cookies b; localStorage := localStorage b;
     sessionStorage := sessionStorage b; now := now b; timers := timers b;
     location := location b |}.

Definition with_localStorage (v : list (string * string)) (b : Browser) : Browser :=
  {| axios_common := axios_common b; cookies := cookies b; localStorage := v;
     sessionStorage := sessionStorage b; now := now b; timers := timers b;
     location := location b |}.

Definition with_sessionStorage (v : list (string * string)) (b : Browser) : Browser :=
  {| axios_common := axios_common b; cookies := cookies b;
     localStorage := localStorage b; sessionStorage := v; now := now b;
     timers := timers b; location := location b |}.

Definition with_clock (t : nat) (due : list (nat * Callback)) (b : Browser) : Browser :=
  {| axios_common := axios_common b; cookies := cookies b;
     localStorage := localStorage b; sessionStorage := sessionStorage b;
     now := t; timers := due; location := location b |}.

Definition with_location (v : string) (b : Browser) : Browser :=
  {| axios_common := axios_common b; cookies := cookies b;
     localStorage := localStorage b; sessionStorage := sessionStorage b;
     now := now b; timers := timers b; location := v |}.

(** The world a component lives in: its React state [S], the browser and
    the log of what has been done, newest first. *)
Record World (S : Type) : Type := {
  comp : S;
  browser : Browser;
  log : list Event
}.

Definition trace {S} (w : World S) : list Event := rev (log w).

Fixpoint requests (evs : list Event) : list Outgoing :=
  match evs with
  | [] => []
  | EvRequest r :: rest => r :: requests rest
  | _ :: rest => requests rest
  end.

(** A caught or uncaught JavaScript error: [message], and
    [response.data] when the server answered. *)
Record JsError : Type := {
  err_message : string;
  err_response : option JsVal
}.

Inductive HttpResult : Type :=
| Resolved (data : JsVal)
| Rejected (e : JsError).

(** The network: the result of the request that is sent after [n]
    earlier ones. *)
Definition Env : Type := nat -> Outgoing -> HttpResult.

(** How a block of statements ends. *)
Inductive Completion (A : Type) : Type :=
| Normal (a : A)
| Returned            (* [return;] *)
| Throw (e : JsError).
Arguments Returned {A}.
Arguments Throw {A} e.

Definition M (S A : Type) : Type := World S -> Completion A * World S.

Definition ret {S A} (a : A) : M S A := fun w => (Normal a, w).

Definition bind {S A B} (m : M S A) (k : A -> M S B) : M S B :=
  fun w =>
    match m w with
    | (Normal a, w') => k a w'
    | (Returned, w') => (Returned, w')
    | (Throw e, w') => (Throw e, w')
    end.

Definition returned {S A} : M S A := fun w => (Returned, w).

Definition throw {S A} (e : JsError) : M S A := fun w => (Throw e, w).

(** [try { body } catch (e) { handler }] *)
Definition try_catch {S A} (body : M S A) (handler : JsError -> M S A) : M S A :=
  fun w =>
    match body w with
    | (Throw e, w') => handler e w'
    | r => r
    end.

(** [try { body } finally { final }], for a [final] that completes normally. *)
Definition try_finally {S A} (body : M S A) (final : M S unit) : M S A :=
  fun w =>
    match body w with
    | (c, w') =>
        match final w' with
        | (Normal _, w'') => (c, w'')
        | (Returned, w'') => (Returned, w'')
        | (Throw e, w'') => (Throw e, w'')
        end
    end.

(** Calling an async function without awaiting it: whatever it ends
    with, the caller goes on. *)
Definition fire_and_forget {S A} (m : M S A) : M S unit :=
  fun w => (Normal tt, snd (m w)).

Definition emit {S} (ev : Event) : M S unit :=
  fun w => (Normal tt, {| comp := comp w; browser := browser w; log := ev :: log w |}).

Definition modify_comp {S} (f : S -> S) : M S unit :=
  fun w => (Normal tt, {| comp := f (comp w); browser := browser w; log := log w |}).

Definition modify_browser {S} (f : Browser -> Browser) : M S unit :=
  fun w => (Normal tt, {| comp := comp w; browser := f (browser w); log := log w |}).

Definition read_comp {S} : M S S := fun w => (Normal (comp w), w).

Definition read_browser {S} : M S Browser := fun w => (Normal (browser w), w).

End Eff.
Export Eff.

Declare Scope eff_scope.
Delimit Scope eff_scope with eff.
Notation "x <- c1 ;; c2" := (bind c1 (fun x => c2))
  (at level 61, c1 at next level, right associativity) : eff_scope.
Notation "c1 ;; c2" := (bind c1 (fun _ => c2))
  (at level 61, right associativity) : eff_scope.
Local Open Scope eff_scope.

(** ** axios *)

Module Axios.

(** App.js, lines 13-15: the defaults every request starts from. *)
Definition defaults_withCredentials : bool := true.
Definition xsrfCookieName : string := "csrftoken".
Definition xsrfHeaderName : string := "X-CSRFToken".

Fixpoint set_header (k : string) (v : JsVal) (h : list (string * JsVal))
  : list (string * JsVal) :=
  match h with
  | [] => [(k, v)]
  | (k', v') :: rest =>
      if String.eqb k k' then (k, v) :: rest else (k', v') :: set_header k v rest
  end.

(** The headers of the config win over the common defaults. *)
Definition merge_headers (common cfg : list (string * JsVal)) : list (string * JsVal) :=
  fold_left (fun acc kv => set_header (fst kv) (snd kv) acc) cfg common.

Fixpoint read_cookie (name : string) (jar : list (string * string)) : option string :=
  match jar with
  | [] => None
  | (k, v) :: rest => if String.eqb name k then Some v else read_cookie name rest
  end.

(** A header whose value is null, undefined or false is not sent. *)
Definition sendable (kv : string * JsVal) : bool :=
  match snd kv with
  | JUndefined | JNull | JBool false => false
  | _ => true
  end.

(** The request axios sends for a call: defaults merged with the call's
    config, the XSRF cookie (when the browser holds one) copied into the
    XSRF header, the body serialized. *)
Definition outgoing (b : Browser) (m : Method) (u : string)
    (data : option JsVal) (cfg : Config) : Outgoing :=
  let merged := merge_headers (axios_common b) (cfg_headers cfg) in
  let with_xsrf :=
    match read_cookie xsrfCookieName (cookies b) with
    | Some v => if is_empty v then merged else set_header xsrfHeaderName (JStr v) merged
    | None => merged
    end in
  {| method := m;
     url := u;
     params := cfg_params cfg;
     body := option_map json_wire data;
     withCredentials :=
       match cfg_withCredentials cfg with
       | Some c => c
       | None => defaults_withCredentials
       end;
     headers := filter sendable with_xsrf |}.

(** Send a request and wait for the answer: the promise resolves with
    [response.data] in hand or rejects. *)
Definition send {S} (env : Env) (r : Outgoing) : M S JsVal :=
  fun w =>
    let w' := {| comp := comp w; browser := browser w; log := EvRequest r :: log w |} in
    match env (List.length (requests (log w))) r with
    | Resolved d => (Normal d, w')
    | Rejected e => (Throw e, w')
    end.

(** [await axios.get(url, config)], giving [response.data] *)
Definition get {S} (env : Env) (u : string) (cfg : Config) : M S JsVal :=
  b <- read_browser ;; send env (outgoing b GET u None cfg).

(** [await axios.post(url, data, config)], giving [response.data] *)
Definition post {S} (env : Env) (u : string) (data : option JsVal) (cfg : Config)
  : M S JsVal :=
  b <- read_browser ;; send env (outgoing b POST u data cfg).

(** [axios.defaults.headers.common[name] = v] *)
Definition set_default_header {S} (name : string) (v : JsVal) : M S unit :=
  modify_browser (fun b => with_common (set_header name v (axios_common b)) b) ;;
  emit (EvAxiosDefaultHeader name v).

End Axios.

(** [v.k] where [v] may be null or undefined: a TypeError then. *)
Definition member {S} (v : JsVal) (k : string) : M S JsVal :=
  if nullish v
  then throw {| err_message := "Cannot read properties of " ++ (match v with JNull => "null" | _ => "undefined" end);
                err_response := None |}
  else ret (Js.get v k).

(** [err.response?.data?.k] *)
Definition response_data (err : JsError) (k : string) : JsVal :=
  match err_response err with
  | Some d => get_opt d k
  | None => JUndefined
  end.

(** [navigate(to)] of react-router *)
Definition navigate {S} (to : string) : M S unit :=
  modify_browser (with_location to) ;;
  emit (EvNavigate to).

(** ** components/LocalRankingGrid.js *)

Module LocalRankingGrid.

Record FormData : Type := {
  businessName : JsVal;
  businessLat : JsVal;
  businessLng : JsVal;
  gridSize : JsVal;
  radiusKm : JsVal;
  languageCode : JsVal;
  device : JsVal;
  targetDomain : JsVal
}.

(** The [useState] cells of the component. *)
Record State : Type := {
  csrfToken : JsVal;
  formData : FormData;
  loading : bool;
  results : JsVal;
  history : JsVal;
  error : JsVal;
  activeTab : string
}.

Record Props : Type := {
  isAuthenticated : bool;
  user : JsVal
}.

(** Lines 7 and 42-57: the state a fresh component starts with. *)
Definition initial_formData : FormData :=
  {| businessName := JStr "";
     businessLat := JStr "";
     businessLng := JStr "";
     gridSize := JNum 3;
     radiusKm := JNum 5;
     languageCode := JStr "en";
     device := JStr "desktop";
     targetDomain := JStr "" |}.

Definition initial_state : State :=
  {| csrfToken := JNull;
     formData := initial_formData;
     loading := false;
     results := JNull;
     history := JArr [];
     error := JStr "";
     activeTab := "quick" |}.

Definition formData_object (fd : FormData) : JsVal :=
  JObj [("businessName", businessName fd); ("businessLat", businessLat fd);
        ("businessLng", businessLng fd); ("gridSize", gridSize fd);
        ("radiusKm", radiusKm fd); ("languageCode", languageCode fd);
        ("device", device fd); ("targetDomain", targetDomain fd)].

(** [{...prev, [name]: v}] for the names the form's inputs carry. *)
Definition set_field (name : string) (v : JsVal) (fd : FormData) : FormData :=
  let pick (k : string) (old : JsVal) := if String.eqb name k then v else old in
  {| businessName := pick "businessName" (businessName fd);
     businessLat := pick "businessLat" (businessLat fd);
     businessLng := pick "businessLng" (businessLng fd);
     gridSize := pick "gridSize" (gridSize fd);
     radiusKm := pick "radiusKm" (radiusKm fd);
     languageCode := pick "languageCode" (languageCode fd);
     device := pick "device" (device fd);
     targetDomain := pick "targetDomain" (targetDomain fd) |}.

(** The endpoints. *)
Definition csrf_url : string := "http://localhost:8000/api/get-csrf-token/".
Definition history_url : string := "http://localhost:8000/api/ranking/history/".
Definition quick_check_url : string := "http://localhost:8000/api/ranking/quick-check/".
Definition grid_check_url : string := "http://localhost:8000/api/ranking/grid-check/".

(** One cell of the state replaced. *)
Definition with_csrfToken (v : JsVal) (s : State) : State :=
  {| csrfToken := v; formData := formData s; loading := loading s;
     results := results s; history := history s; error := error s;
     activeTab := activeTab s |}.

Definition with_formData (v : FormData) (s : State) : State :=
  {| csrfToken := csrfToken s; formData := v; loading := loading s;
     results := results s; history := history s; error := error s;
     activeTab := activeTab s |}.

Definition with_loading (v : bool) (s : State) : State :=
  {| csrfToken := csrfToken s; formData := formData s; loading := v;
     results := results s; history := history s; error := error s;
     activeTab := activeTab s |}.

Definition with_results (v : JsVal) (s : State) : State :=
  {| csrfToken := csrfToken s; formData := formData s; loading := loading s;
     results := v; history := history s; error := error s;
     activeTab := activeTab s |}.

Definition with_history (v : JsVal) (s : State) : State :=
  {| csrfToken := csrfToken s; formData := formData s; loading := loading s;
     results := results s; history := v; error := error s;
     activeTab := activeTab s |}.

Definition with_error (v : JsVal) (s : State) : State :=
  {| csrfToken := csrfToken s; formData := formData s; loading := loading s;
     results := results s; history := history s; error := v;
     activeTab := activeTab s |}.

(** The setters [useState] returns: the new value is pending for the
    next render; the running closure keeps the values it captured. *)
Definition setCsrfToken (v : JsVal) : M State unit :=
  emit (EvSetState "csrfToken" v) ;; modify_comp (with_csrfToken v).

Definition setFormData (f : FormData -> FormData) : M State unit :=
  s <- read_comp ;;
  emit (EvSetState "formData" (formData_object (f (formData s)))) ;;
  modify_comp (with_formData (f (formData s))).

Definition setLoading (v : bool) : M State unit :=
  emit (EvSetState "loading" (JBool v)) ;; modify_comp (with_loading v).

Definition setResults (v : JsVal) : M State unit :=
  emit (EvSetState "results" v) ;; modify_comp (with_results v).

Definition setHistory (v : JsVal) : M State unit :=
  emit (EvSetState "history" v) ;; modify_comp (with_history v).

Definition setError (v : JsVal) : M State unit :=
  emit (EvSetState "error" v) ;; modify_comp (with_error v).

(** The config both token requests are made with. *)
Definition token_config : Config :=
  {| cfg_withCredentials := Some true; cfg_headers := []; cfg_params := [] |}.

(** Lines 161-168: [config] of [handleQuickCheck]; [s] is the state the
    closure captured, [b] the browser when the object is built. *)
Definition quick_check_config (s : State) (b : Browser) : Config :=
  {| cfg_withCredentials := Some true;
     cfg_headers :=
       [("Content-Type", JStr "application/json");
        ("X-CSRFToken", or_else (csrfToken s) (lookup "X-CSRFToken" (axios_common b)));
        ("X-Requested-With", JStr "XMLHttpRequest")];
     cfg_params := [] |}.

(** Lines 241-246 *)
Definition grid_check_config : Config :=
  {| cfg_withCredentials := Some true;
     cfg_headers := [("Content-Type", JStr "application/json")];
     cfg_params := [] |}.

Section Component.
Context {rt : JsRuntime}.
Variable env : Env.

(** Lines 176-181: the object [handleQuickCheck] posts. *)
Definition quick_check_data (fd : FormData) : JsVal :=
  JObj [("business_name", businessName fd);
        ("business_lat", JNum (parseFloat (businessLat fd)));
        ("business_lng", JNum (parseFloat (businessLng fd)));
        ("target_domain", or_else (targetDomain fd) JUndefined)].

(** Lines 231-240: the object [handleAdvancedCheck] posts. *)
Definition grid_check_data (fd : FormData) : JsVal :=
  JObj [("business_name", businessName fd);
        ("business_lat", JNum (parseFloat (businessLat fd)));
        ("business_lng", JNum (parseFloat (businessLng fd)));
        ("grid_size", JNum (parseInt (gridSize fd)));
        ("radius_km", JNum (parseFloat (radiusKm fd)));
        ("language_code", languageCode fd);
        ("device", device fd);
        ("target_domain", or_else (targetDomain fd) JUndefined)].

(** Lines 200-204: the message [handleQuickCheck] shows for a caught
    error. *)
Definition quick_check_failure (err : JsError) : JsVal :=
  let errorMessage :=
    or_else
      (or_else
         (or_else (response_data err "message") (response_data err "error"))
         (JStr (err_message err)))
      (JStr "Failed to perform quick check") in
  JStr ("Error: " ++ to_string errorMessage).

(** Line 251: the message [handleAdvancedCheck] shows for a caught
    error. *)
Definition grid_check_failure (err : JsError) : JsVal :=
  or_else (response_data err "message") (JStr "Failed to perform grid check").

(** Lines 11-38, run by the effect of lines 9-41 when the component
    mounts. *)
Definition getCsrfToken : M State unit :=
  try_catch
    (data <- Axios.get env csrf_url token_config ;;
     token <- member data "csrfToken" ;;
     if truthy token
     then setCsrfToken token ;;
          Axios.set_default_header "X-CSRFToken" token
     else ret tt)
    (fun _ => ret tt).

(** Lines 59-65; [value] is the string the input element holds, [type]
    the element's type. *)
Definition handleInputChange (name value type : string) : M State unit :=
  setFormData
    (set_field name
       (if String.eqb type "number"
        then or_else (JNum (parseFloat (JStr value))) (JStr "")
        else JStr value)).

(** Lines 69-80; [p] and [s] are the props and state of the render that
    created the closure. *)
Definition fetchHistory (p : Props) (s : State) : M State unit :=
  if negb (isAuthenticated p) then returned
  else
    try_catch
      (data <- Axios.get env history_url
                 {| cfg_withCredentials := Some true;
                    cfg_headers := [];
                    cfg_params :=
                      if truthy (businessName (formData s))
                      then [("business_name", businessName (formData s))]
                      else [] |} ;;
       setHistory (or_else (get_opt data "results") (JArr [])))
      (fun _ => ret tt).

(** Lines 86-97 *)
Definition fetchHistoryByName (p : Props) (s : State) : M State unit :=
  if negb (isAuthenticated p) || negb (truthy (businessName (formData s))) then returned
  else
    try_catch
      (data <- Axios.get env history_url
                 {| cfg_withCredentials := Some true;
                    cfg_headers := [];
                    cfg_params := [("business_name", businessName (formData s))] |} ;;
       setHistory (or_else (get_opt data "results") (JArr [])))
      (fun _ => ret tt).

(** Lines 101-208 *)
Definition handleQuickCheck (p : Props) (s : State) : M State unit :=
  let fd := formData s in
  emit EvPreventDefault ;;
  if negb (truthy (businessName fd)) || negb (truthy (businessLat fd))
     || negb (truthy (businessLng fd))
  then setError (JStr "Please fill in all required fields") ;;
       returned
  else
    setLoading true ;;
    setError (JStr "") ;;
    setResults JNull ;;
    try_finally
      (try_catch
         ((if negb (isAuthenticated p)
           then setError (JStr "Please log in first") ;;
                navigate "/login" ;;
                returned
           else ret tt) ;;
          (if negb (truthy (csrfToken s))
           then
             try_catch
               (data <- Axios.get env csrf_url token_config ;;
                token <- member data "csrfToken" ;;
                if truthy token
                then setCsrfToken token ;;
                     Axios.set_default_header "X-CSRFToken" token
                else setError (JStr "Failed to get security token. Please try refreshing the page.") ;;
                     returned)
               (fun _ =>
                  setError (JStr "Failed to get security token. Please try refreshing the page.") ;;
                  returned)
           else ret tt) ;;
          b <- read_browser ;;
          let config := quick_check_config s b in
          data <- Axios.post env quick_check_url (Some (quick_check_data fd)) config ;;
          setResults data)
         (fun err => setError (quick_check_failure err)))
      (setLoading false).

(** Lines 210-256 *)
Definition handleAdvancedCheck (p : Props) (s : State) : M State unit :=
  let fd := formData s in
  emit EvPreventDefault ;;
  if negb (truthy (businessName fd)) || negb (truthy (businessLat fd))
     || negb (truthy (businessLng fd))
  then setError (JStr "Please fill in all required fields") ;;
       returned
  else
    setLoading true ;;
    setError (JStr "") ;;
    setResults JNull ;;
    try_finally
      (try_catch
         ((if negb (isAuthenticated p)
           then setError (JStr "Please log in first") ;;
                navigate "/login" ;;
                returned
           else ret tt) ;;
          data <- Axios.post env grid_check_url (Some (grid_check_data fd))
                    grid_check_config ;;
          setResults data)
         (fun err => setError (grid_check_failure err)))
      (setLoading false).

End Component.

(** *** Effects after a render *)

(** [Object.is] on the values the dependency arrays hold; two objects or
    arrays are never taken to be the same reference. *)
Definition same_value (a b : JsVal) : bool :=
  match a, b with
  | JUndefined, JUndefined => true
  | JNull, JNull => true
  | JBool x, JBool y => Bool.eqb x y
  | JNum x, JNum y => PrimFloat.Leibniz.eqb x y
  | JStr x, JStr y => String.eqb x y
  | _, _ => false
  end.

Fixpoint same_deps (a b : list JsVal) : bool :=
  match a, b with
  | [], [] => true
  | x :: a', y :: b' => same_value x y && same_deps a' b'
  | _, _ => false
  end.

(** The props and state one render saw. *)
Record Render : Type := {
  props : Props;
  state : State
}.

(** An effect runs after the first render, and after a later one when a
    dependency differs from the render before. *)
Definition effect_due (deps : Render -> list JsVal) (prev : option Render) (cur : Render)
  : bool :=
  match prev with
  | None => true
  | Some r => negb (same_deps (deps r) (deps cur))
  end.

Section Effects.
Variable env : Env.

(** Lines 68-82 and 85-99: the two history effects, in the order the
    component declares them. Each calls its async function and does not
    wait for it. (Here the first runs to its end before the second
    starts; in the browser the requests leave in this order and the two
    answers may come back in either.) *)
Definition history_effects (prev : option Render) (cur : Render) : M State unit :=
  (if effect_due (fun r => [JBool (isAuthenticated (props r))]) prev cur
   then fire_and_forget (fetchHistory env (props cur) (state cur))
   else ret tt) ;;
  (if effect_due (fun r => [JBool (isAuthenticated (props r));
                            businessName (formData (state r))]) prev cur
   then fire_and_forget (fetchHistoryByName env (props cur) (state cur))
   else ret tt).

(** Lines 9-41: the token effect has no dependency, it runs on mount
    only. *)
Definition token_effect (prev : option Render) (cur : Render) : M State unit :=
  if effect_due (fun _ => []) prev cur
  then fire_and_forget (getCsrfToken env)
  else ret tt.

End Effects.

(** *** The cells of a rank grid *)

(** What evaluating a piece of JSX gives: the element, or a TypeError. *)
Inductive Outcome (A : Type) : Type :=
| Ok (a : A)
| TypeError (msg : string).
Arguments TypeError {A} msg.

(** Lines 312-321: one [div.rank-cell]; the two inner [div]s hold the
    values [cell_rank] and [cell_status] as their children. *)
Record RankCell : Type := {
  cell_key : JsVal;
  cell_background : string;
  cell_rank : JsVal;
  cell_status : JsVal
}.

(** Lines 305-323: the [div.rank-grid]: [grid_columns] is the count in
    [gridTemplateColumns: repeat(count, 1fr)]. *)
Record RankGrid : Type := {
  grid_columns : JsVal;
  grid_cells : list RankCell
}.

(** The element built for a cell that can be read. *)
Definition cell_view (cell : JsVal) : RankCell :=
  {| cell_key := Js.get cell "task_id";
     cell_background :=
       if truthy (Js.get cell "rank") then "#eef2ff"
       else if is_string "failed" (Js.get cell "status") then "#fee2e2"
       else "#f9fafb";
     cell_rank := coalesce (Js.get cell "rank") (JStr "—");
     cell_status := Js.get cell "status" |}.

(** Lines 312-321. When the element is made, React turns a key that is
    not undefined into a string. *)
Definition render_cell (cell : JsVal) : Outcome RankCell :=
  if nullish cell
  then TypeError "Cannot read properties of a null or undefined cell"
  else if negb (converts (Js.get cell "task_id"))
  then TypeError conversion_error
  else Ok (cell_view cell).

(** [cells.map(cell => ...)] *)
Fixpoint render_cells (cells : list JsVal) : Outcome (list RankCell) :=
  match cells with
  | [] => Ok []
  | c :: rest =>
      match render_cell c with
      | TypeError m => TypeError m
      | Ok rc =>
          match render_cells rest with
          | TypeError m => TypeError m
          | Ok rcs => Ok (rc :: rcs)
          end
      end
  end.

End LocalRankingGrid.

(** ** App.js *)

Module App.

Record State : Type := {
  isAuthenticated : bool;
  user : JsVal;
  loading : bool;
  logoutInProgress : bool
}.

(** Lines 18-21 *)
Definition initial_state : State :=
  {| isAuthenticated := false; user := JNull; loading := true; logoutInProgress := false |}.

Definition check_auth_url : string := "http://localhost:8000/api/accounts/check-auth/".
Definition logout_url : string := "http://localhost:8000/api/accounts/logout/".

Definition with_isAuthenticated (v : bool) (s : State) : State :=
  {| isAuthenticated := v; user := user s; loading := loading s;
     logoutInProgress := logoutInProgress s |}.

Definition with_user (v : JsVal) (s : State) : State :=
  {| isAuthenticated := isAuthenticated s; user := v; loading := loading s;
     logoutInProgress := logoutInProgress s |}.

Definition with_loading (v : bool) (s : State) : State :=
  {| isAuthenticated := isAuthenticated s; user := user s; loading := v;
     logoutInProgress := logoutInProgress s |}.

Definition with_logoutInProgress (v : bool) (s : State) : State :=
  {| isAuthenticated := isAuthenticated s; user := user s; loading := loading s;
     logoutInProgress := v |}.

Definition setIsAuthenticated (v : bool) : M State unit :=
  emit (EvSetState "isAuthenticated" (JBool v)) ;; modify_comp (with_isAuthenticated v).

Definition setUser (v : JsVal) : M State unit :=
  emit (EvSetState "user" v) ;; modify_comp (with_user v).

Definition setLoading (v : bool) : M State unit :=
  emit (EvSetState "loading" (JBool v)) ;; modify_comp (with_loading v).

Definition setLogoutInProgress (v : bool) : M State unit :=
  emit (EvSetState "logoutInProgress" (JBool v)) ;; modify_comp (with_logoutInProgress v).

(** [localStorage.clear()] and [sessionStorage.clear()] *)
Definition storage_clear (which : Storage) : M State unit :=
  modify_browser
    (match which with
     | LocalStorage => with_localStorage []
     | SessionStorage => with_sessionStorage []
     end) ;;
  emit (EvStorageClear which).

(** [setTimeout(cb, ms)] *)
Definition setTimeout (cb : Callback) (ms : nat) : M State unit :=
  modify_browser (fun b => with_clock (now b) (timers b ++ [(now b + ms, cb)]) b) ;;
  emit (EvSetTimeout ms cb).

(** An [await]: the request is on its way, and until it is answered the
    event loop runs [during] (React commits the pending state and runs
    the effects that are due). *)
Definition await_while {A} (during : M State unit) (m : M State A) : M State A :=
  fun w =>
    match m w with
    | (c, w') => (c, snd (during w'))
    end.

Section Component.
Variable env : Env.

(** Lines 27-58; [flag] is the [logoutInProgress] of the render that
    created the closure. *)
Definition checkAuthStatus (flag : bool) : M State unit :=
  if flag
  then setIsAuthenticated false ;;
       setUser JNull ;;
       setLoading false ;;
       returned
  else
    try_finally
      (try_catch
         (data <- Axios.get env check_auth_url no_config ;;
          authenticated <- member data "authenticated" ;;
          if truthy authenticated
          then setIsAuthenticated true ;;
               setUser (Js.get data "user")
          else setIsAuthenticated false ;;
               setUser JNull)
         (fun _ =>
            setIsAuthenticated false ;;
            setUser JNull))
      (setLoading false).

(** Lines 23-25: the effect on [logoutInProgress]; [prev] is the flag of
    the render before ([None] on mount). *)
Definition auth_effect (prev : option bool) : M State unit :=
  s <- read_comp ;;
  if match prev with
     | None => true
     | Some f => negb (Bool.eqb f (logoutInProgress s))
     end
  then fire_and_forget (checkAuthStatus (logoutInProgress s))
  else ret tt.

(** Lines 60-63 *)
Definition handleLogin (userData : JsVal) : M State unit :=
  setIsAuthenticated true ;;
  setUser userData.

(** Lines 65-93; what happens while the logout request is in flight is
    [during]. *)
Definition handleLogout (during : M State unit) : M State unit :=
  setLogoutInProgress true ;;
  setIsAuthenticated false ;;
  setUser JNull ;;
  try_catch
    (await_while during (Axios.post env logout_url None no_config) ;; ret tt)
    (fun _ => ret tt) ;;
  storage_clear LocalStorage ;;
  storage_clear SessionStorage ;;
  setTimeout AllowAuthCheck 1000.

(** Lines 89-92: the function given to [setTimeout]. *)
Definition run_callback (cb : Callback) : M State unit :=
  match cb with
  | AllowAuthCheck => setLogoutInProgress false
  end.

Fixpoint run_callbacks (cbs : list Callback) : M State unit :=
  match cbs with
  | [] => ret tt
  | cb :: rest => run_callback cb ;; run_callbacks rest
  end.

(** [dt] milliseconds pass: the timers that are due fire in the order
    they were set; React then commits and runs the effect. *)
Definition elapse (dt : nat) : M State unit :=
  s <- read_comp ;;
  b <- read_browser ;;
  let t := now b + dt in
  modify_browser (with_clock t (filter (fun d => negb (Nat.leb (fst d) t)) (timers b))) ;;
  run_callbacks (List.map snd (filter (fun d => Nat.leb (fst d) t) (timers b))) ;;
  auth_effect (Some (logoutInProgress s)).

(** Time passes in steps. *)
Fixpoint elapse_all (dts : list nat) : M State unit :=
  match dts with
  | [] => ret tt
  | dt :: rest => elapse dt ;; elapse_all rest
  end.

(** The user logs out; the effect of the render that follows runs while
    the logout request is in flight; then time passes. *)
Definition logout_then_wait (dts : list nat) : M State unit :=
  s <- read_comp ;;
  handleLogout (auth_effect (Some (logoutInProgress s))) ;;
  elapse_all dts.

End Component.

(** Lines 95-178: what the router shows. *)
Inductive Element : Type :=
| LoadingScreen
| Navigate (to : string)
| SignupEmail
| SignupPassword
| PricingPage
| Login
| Dashboard
| LocalRankingGridPage
| NoMatch.

Definition render (s : State) (path : string) : Element :=
  if loading s then LoadingScreen
  else if String.eqb path "/" then
    if logoutInProgress s then Navigate "/login"
    else if isAuthenticated s then Navigate "/dashboard" else Navigate "/login"
  else if String.eqb path "/signup/email" then
    if isAuthenticated s then Navigate "/dashboard" else SignupEmail
  else if String.eqb path "/signup/password" then
    if isAuthenticated s then Navigate "/dashboard" else SignupPassword
  else if String.eqb path "/signup/pricing" then
    if isAuthenticated s then Navigate "/dashboard" else PricingPage
  else if String.eqb path "/login" then
    if isAuthenticated s then Navigate "/dashboard" else Login
  else if String.eqb path "/dashboard" then
    if logoutInProgress s then Navigate "/login"
    else if isAuthenticated s then Dashboard else Navigate "/login"
  else if String.eqb path "/local-ranking-grid" then
    if logoutInProgress s then Navigate "/login"
    else if isAuthenticated s then LocalRankingGridPage else Navigate "/login"
  else NoMatch.

End App.

(** ** A host and a few situations to run the code in *)

Module Samples.

(** Decimal digits, most significant first. *)
Fixpoint digits_value (acc : Z) (s : string) : option Z :=
  match s with
  | EmptyString => Some acc
  | String c rest =>
      let n := Z.of_nat (Ascii.nat_of_ascii c) in
      if (48 <=? n)%Z && (n <=? 57)%Z
      then digits_value (10 * acc + (n - 48))%Z rest
      else None
  end.

Fixpoint split_at_dot (s : string) : string * option string :=
  match s with
  | EmptyString => (EmptyString, None)
  | String c rest =>
      if Ascii.eqb c "."%char then (EmptyString, Some rest)
      else let (a, b) := split_at_dot rest in (String c a, b)
  end.

Definition float_of_Z (z : Z) : float :=
  if (z <? 0)%Z
  then PrimFloat.opp (PrimFloat.of_uint63 (Uint63.of_Z (- z)))
  else PrimFloat.of_uint63 (Uint63.of_Z z).

Definition unsigned_decimal (s : string) : float :=
  let (whole, frac) := split_at_dot s in
  if is_empty whole then PrimFloat.nan
  else
    match digits_value 0 whole, frac with
    | Some w, None => float_of_Z w
    | Some w, Some f =>
        match digits_value w f with
        | Some n =>
            PrimFloat.div (float_of_Z n) (float_of_Z (10 ^ Z.of_nat (String.length f)))
        | None => PrimFloat.nan
        end
    | None, _ => PrimFloat.nan
    end.

Definition signed (parse : string -> float) (s : string) : float :=
  match s with
  | String "-"%char rest => PrimFloat.opp (parse rest)
  | _ => parse s
  end.

Definition print_Z (z : Z) : string :=
  DecimalString.NilZero.string_of_int (Z.to_int z).

(** A host for the examples. It reads decimal literals of up to fifteen
    digits (both the digits and the power of ten are then exact, and the
    quotient rounds once); it prints whole numbers. *)
#[export] Instance host : JsRuntime := {
  parseFloat_string := signed unsigned_decimal;
  parseInt_string := signed (fun s => unsigned_decimal (fst (split_at_dot s)));
  toNumber_string := fun s => if is_empty s then PrimFloat.zero else signed unsigned_decimal s;
  number_toString := fun x =>
    match FloatOps.Prim2SF x with
    | SpecFloat.S754_zero _ => "0"
    | SpecFloat.S754_infinity false => "Infinity"
    | SpecFloat.S754_infinity true => "-Infinity"
    | SpecFloat.S754_nan => "NaN"
    | SpecFloat.S754_finite neg m e =>
        let z := if (0 <=? e)%Z then (Z.pos m * 2 ^ e)%Z else (Z.pos m / 2 ^ (- e))%Z in
        print_Z (if neg then (- z)%Z else z)
    end
}.

(** The form of the spec's example. *)
Definition pizza_form : LocalRankingGrid.FormData :=
  {| LocalRankingGrid.businessName := JStr "Pizza Place";
     LocalRankingGrid.businessLat := JNum 40.689199;
     LocalRankingGrid.businessLng := JNum (-73.975035);
     LocalRankingGrid.gridSize := JStr "4";
     LocalRankingGrid.radiusKm := JNum 5;
     LocalRankingGrid.languageCode := JStr "en";
     LocalRankingGrid.device := JStr "desktop";
     LocalRankingGrid.targetDomain := JStr "" |}.

Definition with_form (fd : LocalRankingGrid.FormData) (token : JsVal)
  : LocalRankingGrid.State :=
  {| LocalRankingGrid.csrfToken := token;
     LocalRankingGrid.formData := fd;
     LocalRankingGrid.loading := false;
     LocalRankingGrid.results := JNull;
     LocalRankingGrid.history := JArr [];
     LocalRankingGrid.error := JStr "";
     LocalRankingGrid.activeTab := "quick" |}.

Definition logged_in : LocalRankingGrid.Props :=
  {| LocalRankingGrid.isAuthenticated := true;
     LocalRankingGrid.user := JObj [("email", JStr "owner@example.com")] |}.

Definition logged_out : LocalRankingGrid.Props :=
  {| LocalRankingGrid.isAuthenticated := false; LocalRankingGrid.user := JNull |}.

(** A browser that holds no token, no cookie and no timer. *)
Definition fresh_browser (path : string) : Browser :=
  {| axios_common := [];
     cookies := [];
     localStorage := [];
     sessionStorage := [];
     now := 0;
     timers := [];
     location := path |}.

Definition world_of {S} (s : S) (b : Browser) : World S :=
  {| comp := s; browser := b; log := [] |}.

Definition network_error : JsError :=
  {| err_message := "Network Error"; err_response := None |}.

(** A rank result: a 4x4 grid announced, three cells delivered, two of
    them pending. *)
Definition three_entries : list JsVal :=
  [JObj [("task_id", JStr "t-1"); ("rank", JNum 2); ("status", JStr "completed")];
   JObj [("task_id", JStr "t-2"); ("rank", JNull); ("status", JStr "pending")];
   JObj [("task_id", JStr "t-3"); ("status", JStr "pending")]].

Definition three_cells_props : list (string * JsVal) :=
  [("business_name", JStr "Pizza Place");
   ("grid_parameters", JObj [("size", JNum 4); ("radius_km", JNum 5)]);
   ("results", JObj [("summary", JObj [("completed_count", JNum 1);
                                       ("failed_count", JNum 0);
                                       ("pending_count", JNum 2)])]);
   ("rank_map", JArr three_entries)].

Definition three_cells : JsVal := JObj three_cells_props.

(** The render in which the pizza form is on screen, and the one after
    the user has emptied the business name. *)
Definition pizza_render : LocalRankingGrid.Render :=
  {| LocalRankingGrid.props := logged_in;
     LocalRankingGrid.state := with_form pizza_form (JStr "tok-0") |}.

Definition cleared_render : LocalRankingGrid.Render :=
  {| LocalRankingGrid.props := logged_in;
     LocalRankingGrid.state :=
       with_form (LocalRankingGrid.set_field "businessName" (JStr "") pizza_form)
         (JStr "tok-0") |}.

Definition renamed_render : LocalRankingGrid.Render :=
  {| LocalRankingGrid.props := logged_in;
     LocalRankingGrid.state :=
       with_form (LocalRankingGrid.set_field "businessName" (JStr "Pizza Palace") pizza_form)
         (JStr "tok-0") |}.

(** A server that hands out the token and answers every ranking request
    with [three_cells]. *)
Definition friendly : Env :=
  fun _ r =>
    if String.eqb (url r) LocalRankingGrid.csrf_url
    then Resolved (JObj [("csrfToken", JStr "tok-1")])
    else if String.eqb (url r) LocalRankingGrid.history_url
    then Resolved (JObj [("results", JArr [three_cells])])
    else if String.eqb (url r) App.check_auth_url
    then Resolved (JObj [("authenticated", JBool true); ("user", JObj [("email", JStr "owner@example.com")])])
    else Resolved three_cells.

(** A server that answers the token request without a token. *)
Definition tokenless : Env :=
  fun _ r =>
    if String.eqb (url r) LocalRankingGrid.csrf_url
    then Resolved (JObj [])
    else Resolved three_cells.

(** No server at all. *)
Definition offline : Env := fun _ _ => Rejected network_error.

(** The pizza form with the latitude left empty. *)
Definition no_latitude : LocalRankingGrid.FormData :=
  LocalRankingGrid.set_field "businessLat" (JStr "") pizza_form.

(** The ranking page, freshly opened, the form filled in; [token] is
    what the closure holds as [csrfToken]. *)
Definition at_grid (fd : LocalRankingGrid.FormData) (token : JsVal)
  : World LocalRankingGrid.State :=
  world_of (with_form fd token) (fresh_browser "/local-ranking-grid").

End Samples.

(** ** What a run is observed by *)

Module Obs.

Import LocalRankingGrid.

(** Lines 405 and 484: the form of the active tab submits to its own
    handler. *)
Inductive Tab : Type := QuickTab | AdvancedTab.

Definition onSubmit {rt : JsRuntime} (env : Env) (tab : Tab)
  : Props -> State -> M State unit :=
  match tab with
  | QuickTab => handleQuickCheck env
  | AdvancedTab => handleAdvancedCheck env
  end.

(** The test both handlers open with, passed. *)
Definition required_filled (fd : FormData) : bool :=
  truthy (businessName fd) && truthy (businessLat fd) && truthy (businessLng fd).

(** The world a computation leaves, and the events it adds to the log,
    oldest first. *)
Definition after {S A} (m : M S A) (w : World S) : World S := snd (m w).

Definition issued {S A} (m : M S A) (w : World S) : list Event :=
  skipn (List.length (log w)) (trace (after m w)).

(** How many requests have been sent in a world. *)
Definition sent {S} (w : World S) : nat := List.length (requests (log w)).

Definition is_post (r : Outgoing) : bool :=
  match method r with POST => true | GET => false end.

Definition posts (evs : list Event) : list Outgoing := filter is_post (requests evs).

Definition is_token_fetch (r : Outgoing) : bool :=
  match method r with GET => String.eqb (url r) csrf_url | POST => false end.

Definition token_fetches (evs : list Event) : list Outgoing :=
  filter is_token_fetch (requests evs).

Definition header (name : string) (r : Outgoing) : JsVal := lookup name (headers r).

(** The token request [handleQuickCheck] sends from a browser, and the
    token a response carries, if any. *)
Definition token_request (b : Browser) : Outgoing :=
  Axios.outgoing b GET csrf_url None token_config.

(** The ranking requests the handlers send from a browser. *)
Definition quick_post {rt : JsRuntime} (s : State) (b : Browser) : Outgoing :=
  Axios.outgoing b POST quick_check_url (Some (quick_check_data (formData s)))
    (quick_check_config s b).

Definition grid_post {rt : JsRuntime} (s : State) (b : Browser) : Outgoing :=
  Axios.outgoing b POST grid_check_url (Some (grid_check_data (formData s)))
    grid_check_config.

Definition token_of (answer : HttpResult) : JsVal :=
  match answer with
  | Resolved data => get_opt data "csrfToken"
  | Rejected _ => JUndefined
  end.

(** How a handler settles the answer to its ranking request: the events,
    and the state. *)
Definition settle (failure : JsError -> JsVal) (answer : HttpResult) : list Event :=
  match answer with
  | Resolved data => [EvSetState "results" data]
  | Rejected e => [EvSetState "error" (failure e)]
  end.

Definition settled (failure : JsError -> JsVal) (answer : HttpResult) (s : State) : State :=
  match answer with
  | Resolved data => with_results data s
  | Rejected e => with_error (failure e) s
  end.

(** The state once a handler has passed validation. *)
Definition opened (s : State) : State :=
  with_results JNull (with_error (JStr "") (with_loading true s)).

(** The browser once a token has been stored in the axios defaults. *)
Definition keeping (token : JsVal) (b : Browser) : Browser :=
  with_common (Axios.set_header "X-CSRFToken" token (axios_common b)) b.

(** Cells the renderer can read: anything but null and undefined, with
    a [task_id] that can be turned into a key. *)
Definition readable (cells : list JsVal) : bool :=
  forallb (fun cell => negb (nullish cell) && converts (Js.get cell "task_id")) cells.

(** The column count of the grid: [grid_parameters?.size || 3]. *)
Definition columns_of (results : JsVal) : JsVal :=
  or_else (get_opt (Js.get results "grid_parameters") "size") (JNum 3).

(** The request [fetchHistoryByName] sends for a business name. *)
Definition history_request (name : JsVal) (b : Browser) : Outgoing :=
  Axios.outgoing b GET history_url None
    {| cfg_withCredentials := Some true;
       cfg_headers := [];
       cfg_params := [("business_name", name)] |}.

(** The business name a render shows. *)
Definition name_in (r : Render) : JsVal := businessName (formData (state r)).

(** The two requests of App.js, sent from a browser. *)
Definition logout_request (b : Browser) : Outgoing :=
  Axios.outgoing b POST App.logout_url None no_config.

Definition check_auth_request (b : Browser) : Outgoing :=
  Axios.outgoing b GET App.check_auth_url None no_config.

(** During the quiet window that opened at [t0]: the flag is up, nobody
    is authenticated, and the one timer that will lower the flag is due
    a second after [t0]. *)
Definition quiet (t0 : nat) (w : World App.State) : Prop :=
  App.logoutInProgress (comp w) = true
  /\ App.isAuthenticated (comp w) = false
  /\ timers (browser w) = [(t0 + 1000, AllowAuthCheck)]
  /\ localStorage (browser w) = []
  /\ sessionStorage (browser w) = [].

(** The two messages the handlers set before they give up. *)
Definition fill_in_message : JsVal := JStr "Please fill in all required fields".
Definition refresh_message : JsVal :=
  JStr "Failed to get security token. Please try refreshing the page.".

(** The events every handler opens with once the fields are there. *)
Definition opening : list Event :=
  [EvPreventDefault; EvSetState "loading" (JBool true);
   EvSetState "error" (JStr ""); EvSetState "results" JNull].

(** What a handler adds to the log when the user is not logged in. *)
Definition turned_away : list Event :=
  opening ++ [EvSetState "error" (JStr "Please log in first");
              EvNavigate "/login";
              EvSetState "loading" (JBool false)].

(** The serialized body of the quick request: three properties, and
    [target_domain] when the field holds something. *)
Definition quick_check_wire {rt : JsRuntime} (fd : FormData) : JsVal :=
  JObj ([("business_name", json_wire (businessName fd));
         ("business_lat", json_wire (JNum (parseFloat (businessLat fd))));
         ("business_lng", json_wire (JNum (parseFloat (businessLng fd))))]
        ++ (if truthy (targetDomain fd)
            then [("target_domain", json_wire (targetDomain fd))]
            else [])).

(** The four ways a validated submission of the quick form can go. *)
Inductive QuickPath {rt : JsRuntime} (env : Env) (p : Props) (s : State) (w : World State)
  : Prop :=
| TurnedAway : isAuthenticated p = false -> QuickPath env p s w
| TokenCached : isAuthenticated p = true -> truthy (csrfToken s) = true -> QuickPath env p s w
| TokenRefused :
    isAuthenticated p = true -> truthy (csrfToken s) = false ->
    truthy (token_of (env (sent w) (token_request (browser w)))) = false ->
    QuickPath env p s w
| TokenFetched :
    isAuthenticated p = true -> truthy (csrfToken s) = false ->
    truthy (token_of (env (sent w) (token_request (browser w)))) = true ->
    QuickPath env p s w.

(** What the render during the logout request does: the effect runs if
    the flag was down before, and then it is the suppressed check. *)
Definition meanwhile (flag_before : bool) : list Event :=
  if flag_before then []
  else [EvSetState "isAuthenticated" (JBool false); EvSetState "user" JNull;
        EvSetState "loading" (JBool false)].

End Obs.

(** ** Further observations *)

Module ObsMore.

Import LocalRankingGrid.
Import Obs.

(** A property as [JSON.stringify] writes it: nothing for [undefined]. *)
Definition kept (k : string) (v : JsVal) : list (string * JsVal) :=
  match v with
  | JUndefined => []
  | _ => [(k, json_wire v)]
  end.

(** The serialized body of the advanced request. *)
Definition grid_check_wire {rt : JsRuntime} (fd : FormData) : JsVal :=
  JObj (kept "business_name" (businessName fd)
        ++ [("business_lat", json_wire (JNum (parseFloat (businessLat fd))));
            ("business_lng", json_wire (JNum (parseFloat (businessLng fd))));
            ("grid_size", json_wire (JNum (parseInt (gridSize fd))));
            ("radius_km", json_wire (JNum (parseFloat (radiusKm fd))))]
        ++ kept "language_code" (languageCode fd)
        ++ kept "device" (device fd)
        ++ (if truthy (targetDomain fd)
            then [("target_domain", json_wire (targetDomain fd))]
            else [])).

(** The history request [fetchHistory] sends when no name is typed. *)
Definition history_all_request (b : Browser) : Outgoing :=
  Axios.outgoing b GET history_url None
    {| cfg_withCredentials := Some true; cfg_headers := []; cfg_params := [] |}.

End ObsMore.

(** ** Following redirects *)

Module Router.

(** react-router renders [<Navigate to=... />] by moving to that
    location, where App.js is rendered again; [fuel] bounds the number
    of moves followed. *)
Fixpoint follow (fuel : nat) (s : App.State) (path : string) : App.Element :=
  match App.render s path with
  | App.Navigate to =>
      match fuel with
      | 0 => App.Navigate to
      | Datatypes.S rest => follow rest s to
      end
  | el => el
  end.

Definition is_redirect (el : App.Element) : bool :=
  match el with App.Navigate _ => true | _ => false end.

(** The pages only a logged-in user may see, and the pages only a
    logged-out user is shown. *)
Definition is_protected (el : App.Element) : bool :=
  match el with App.Dashboard | App.LocalRankingGridPage => true | _ => false end.

Definition is_public_only (el : App.Element) : bool :=
  match el with
  | App.Login | App.SignupEmail | App.SignupPassword | App.PricingPage => true
  | _ => false
  end.

End Router.

(** ** A second logout inside the window of the first *)

Module Scenes.

(** The user logs out, [d1] milliseconds pass, the user is logged in
    again ([handleLogin], as the login page calls it) and logs out a
    second time. *)
Definition logout_login_logout (env : Env) (d1 : nat) (userData : JsVal)
  : M App.State unit :=
  App.logout_then_wait env [d1] ;;
  App.handleLogin userData ;;
  App.logout_then_wait env [].

(** A server that knows no saved grid. *)
Definition no_saved_grid : Env := fun _ _ => Resolved (JObj [("results", JArr [])]).

End Scenes.

(** ** LocalRankingGrid.js: the latest saved grid *)

Module RankingHistory.

Import LocalRankingGrid.

(** [v[0]] on a value that is not null or undefined. *)
Definition first_of (v : JsVal) : JsVal :=
  match v with
  | JArr (x :: _) => x
  | JStr (String c _) => JStr (String c EmptyString)
  | JObj o => lookup "0" o
  | _ => JUndefined
  end.

(** Lines 650-674: the section under the results. [saved_cells] is
    [None] when [rank_map] is null or undefined: the grid is then empty.
    [saved_created_at] is the value handed to [new Date(...)]; how the
    host prints the date is not modelled. *)
Record SavedGrid : Type := {
  saved_columns : JsVal;
  saved_cells : option (list RankCell);
  saved_created_at : JsVal
}.

(** Lines 649-675; [history] is the state, which is never null or
    undefined. [Ok None]: the section is not rendered. The column count
    is written into a template literal and [created_at] is handed to
    [new Date], which both convert. *)
Definition render_history {rt : JsRuntime} (history : JsVal) : Outcome (option SavedGrid) :=
  if negb (length_converts history) then TypeError conversion_error
  else if has_positive_length history
  then
    let latest := first_of history in
    let rank_map := get_opt latest "rank_map" in
    let columns := or_else (get_opt (get_opt latest "grid_parameters") "size") (JNum 3) in
    let created := get_opt latest "created_at" in
    if negb (converts columns) then TypeError conversion_error
    else if nullish rank_map
    then
      if negb (converts created) then TypeError conversion_error
      else Ok (Some {| saved_columns := columns; saved_cells := None;
                       saved_created_at := created |})
    else
      match rank_map with
      | JArr cells =>
          match render_cells cells with
          | TypeError m => TypeError m
          | Ok rcs =>
              if negb (converts created) then TypeError conversion_error
              else Ok (Some {| saved_columns := columns; saved_cells := Some rcs;
                               saved_created_at := created |})
          end
      | _ => TypeError "rank_map.map is not a function"
      end
  else Ok None.

End RankingHistory.

(** ** localStorage *)

Module WebStorage.

(** [localStorage.getItem(k)]: the string stored, or null. *)
Fixpoint getItem (k : string) (jar : list (string * string)) : JsVal :=
  match jar with
  | [] => JNull
  | (k', v) :: rest => if String.eqb k k' then JStr v else getItem k rest
  end.

(** [localStorage.setItem(k, v)] *)
Fixpoint setItem (k v : string) (jar : list (string * string)) : list (string * string) :=
  match jar with
  | [] => [(k, v)]
  | (k', v') :: rest =>
      if String.eqb k k' then (k, v) :: rest else (k', v') :: setItem k v rest
  end.

(** [localStorage.removeItem(k)] *)
Definition removeItem (k : string) (jar : list (string * string)) : list (string * string) :=
  filter (fun kv => negb (String.eqb k (fst kv))) jar.

Definition store {S} (k v : string) : M S unit :=
  modify_browser (fun b => with_localStorage (setItem k v (localStorage b)) b).

Definition remove {S} (k : string) : M S unit :=
  modify_browser (fun b => with_localStorage (removeItem k (localStorage b)) b).

Definition read {S} (k : string) : M S JsVal :=
  b <- read_browser ;; ret (getItem k (localStorage b)).

End WebStorage.

(** ** Regular expressions, as far as the code uses them *)

Module Regex.

Inductive re : Type :=
| Never
| Eps
| Class (f : ascii -> bool)
| Cat (r1 r2 : re)
| Alt (r1 r2 : re)
| Star (r : re).

(** [r+] *)
Definition Plus (r : re) : re := Cat r (Star r).

Fixpoint nullable (r : re) : bool :=
  match r with
  | Never => false
  | Eps => true
  | Class _ => false
  | Cat r1 r2 => nullable r1 && nullable r2
  | Alt r1 r2 => nullable r1 || nullable r2
  | Star _ => true
  end.

(** What is left of [r] once [c] has been read. *)
Fixpoint deriv (c : ascii) (r : re) : re :=
  match r with
  | Never => Never
  | Eps => Never
  | Class f => if f c then Eps else Never
  | Cat r1 r2 =>
      if nullable r1
      then Alt (Cat (deriv c r1) r2) (deriv c r2)
      else Cat (deriv c r1) r2
  | Alt r1 r2 => Alt (deriv c r1) (deriv c r2)
  | Star r1 => Cat (deriv c r1) (Star r1)
  end.

(** [/^r$/.test(s)] *)
Fixpoint test (r : re) (s : string) : bool :=
  match s with
  | EmptyString => nullable r
  | String c rest => test (deriv c r) rest
  end.

(** The strings a pattern stands for. *)
Inductive Matches : re -> string -> Prop :=
| MEps : Matches Eps EmptyString
| MClass (f : ascii -> bool) (c : ascii) :
    f c = true -> Matches (Class f) (String c EmptyString)
| MCat (r1 r2 : re) (s1 s2 : string) :
    Matches r1 s1 -> Matches r2 s2 -> Matches (Cat r1 r2) (s1 ++ s2)%string
| MAltL (r1 r2 : re) (s : string) : Matches r1 s -> Matches (Alt r1 r2) s
| MAltR (r1 r2 : re) (s : string) : Matches r2 s -> Matches (Alt r1 r2) s
| MStarNil (r : re) : Matches (Star r) EmptyString
| MStarMore (r : re) (s1 s2 : string) :
    Matches r s1 -> Matches (Star r) s2 -> Matches (Star r) (s1 ++ s2)%string.

(** Every character of a string passes a test. *)
Fixpoint all_chars (f : ascii -> bool) (s : string) : bool :=
  match s with
  | EmptyString => true
  | String c rest => f c && all_chars f rest
  end.

Fixpoint count_char (c : ascii) (s : string) : nat :=
  match s with
  | EmptyString => 0
  | String c' rest => (if Ascii.eqb c c' then 1 else 0) + count_char c rest
  end.

End Regex.

(** ** The signup pages: SignupEmail, SignupPassword, PricingPage

    In these modules a character of a string is one UTF-16 code unit
    below 256: a string holds what the user typed, as far as it stays in
    that range. *)

Module SignupEmail.

Record State : Type := {
  email : string;
  error : string
}.

Definition initial_state : State := {| email := ""; error := "" |}.

Definition setEmail (v : string) : M State unit :=
  emit (EvSetState "email" (JStr v)) ;;
  modify_comp (fun s => {| email := v; error := error s |}).

Definition setError (v : string) : M State unit :=
  emit (EvSetState "error" (JStr v)) ;;
  modify_comp (fun s => {| email := email s; error := v |}).

(** [\s] among the code units below 256: tab, line feed, vertical tab,
    form feed, carriage return, space, no-break space. *)
Definition is_space (c : ascii) : bool :=
  let n := Ascii.nat_of_ascii c in
  (Nat.leb 9 n && Nat.leb n 13) || Nat.eqb n 32 || Nat.eqb n 160.

(** [[^\s@]] *)
Definition plain (c : ascii) : bool := negb (is_space c || Ascii.eqb c "@"%char).

(** [/^[^\s@]+@[^\s@]+\.[^\s@]+$/] *)
Definition emailRegex : Regex.re :=
  Regex.Cat (Regex.Plus (Regex.Class plain))
    (Regex.Cat (Regex.Class (Ascii.eqb "@"%char))
       (Regex.Cat (Regex.Plus (Regex.Class plain))
          (Regex.Cat (Regex.Class (Ascii.eqb "."%char))
             (Regex.Plus (Regex.Class plain))))).

Definition validateEmail (email : string) : bool := Regex.test emailRegex email.

(** [handleSubmit]; [s] is the state the closure captured. *)
Definition handleSubmit (s : State) : M State unit :=
  emit EvPreventDefault ;;
  setError "" ;;
  if is_empty (email s)
  then setError "Email is required" ;; returned
  else if negb (validateEmail (email s))
  then setError "Please enter a valid email address" ;; returned
  else WebStorage.store "signupEmail" (email s) ;;
       navigate "/signup/password".

End SignupEmail.

Module SignupPassword.

Record State : Type := {
  password : string;
  confirmPassword : string;
  error : string;
  email : string
}.

Definition initial_state : State :=
  {| password := ""; confirmPassword := ""; error := ""; email := "" |}.

Definition setPassword (v : string) : M State unit :=
  emit (EvSetState "password" (JStr v)) ;;
  modify_comp (fun s => {| password := v; confirmPassword := confirmPassword s;
                           error := error s; email := email s |}).

Definition setConfirmPassword (v : string) : M State unit :=
  emit (EvSetState "confirmPassword" (JStr v)) ;;
  modify_comp (fun s => {| password := password s; confirmPassword := v;
                           error := error s; email := email s |}).

Definition setError (v : string) : M State unit :=
  emit (EvSetState "error" (JStr v)) ;;
  modify_comp (fun s => {| password := password s; confirmPassword := confirmPassword s;
                           error := v; email := email s |}).

Definition setEmail (v : string) : M State unit :=
  emit (EvSetState "email" (JStr v)) ;;
  modify_comp (fun s => {| password := password s; confirmPassword := confirmPassword s;
                           error := error s; email := v |}).

(** Lines 11-18: the effect run on mount. *)
Definition on_mount : M State unit :=
  storedEmail <- WebStorage.read "signupEmail" ;;
  match storedEmail with
  | JStr v =>
      if is_empty v
      then navigate "/signup/email" ;; returned
      else setEmail v
  | _ => navigate "/signup/email" ;; returned
  end.

(** Lines 20-22 *)
Definition validatePassword (password : string) : bool :=
  Nat.leb 6 (String.length password).

(** Lines 24-45; [s] is the state the closure captured. *)
Definition handleSubmit (s : State) : M State unit :=
  emit EvPreventDefault ;;
  setError "" ;;
  if is_empty (password s)
  then setError "Password is required" ;; returned
  else if negb (validatePassword (password s))
  then setError "Password must be at least 6 characters long" ;; returned
  else if negb (String.eqb (password s) (confirmPassword s))
  then setError "Passwords do not match" ;; returned
  else WebStorage.store "signupPassword" (password s) ;;
       navigate "/signup/pricing".

(** Lines 47-49 *)
Definition handleBack : M State unit := navigate "/signup/email".

End SignupPassword.

(** ** A page next to the state of App.js

    [PricingPage] and [Login] receive [handleLogin] of App.js as a prop:
    their handlers change the state of the page and, through the prop,
    the state of the application. *)

Module Shell.

Record State (P : Type) : Type := {
  page : P;
  app : App.State
}.

Definition on_page {P A} (m : M P A) : M (State P) A :=
  fun w =>
    match m {| comp := page (comp w); browser := browser w; log := log w |} with
    | (c, w') =>
        (c, {| comp := {| page := comp w'; app := app (comp w) |};
               browser := browser w'; log := log w' |})
    end.

Definition on_app {P A} (m : M App.State A) : M (State P) A :=
  fun w =>
    match m {| comp := app (comp w); browser := browser w; log := log w |} with
    | (c, w') =>
        (c, {| comp := {| page := page (comp w); app := comp w' |};
               browser := browser w'; log := log w' |})
    end.

(** [handleLogin] as App.js hands it down. *)
Definition handleLogin {P} (userData : JsVal) : M (State P) unit :=
  on_app (App.handleLogin userData).

End Shell.

(** ** components/PricingPage.js *)

Module PricingPage.

Record State : Type := {
  plans : JsVal;
  selectedPlan : JsVal;
  loading : bool;
  error : JsVal;
  email : JsVal;
  password : JsVal
}.

(** Lines 6-11 *)
Definition initial_state : State :=
  {| plans := JArr []; selectedPlan := JStr ""; loading := false;
     error := JStr ""; email := JStr ""; password := JStr "" |}.

Definition pricing_url : string := "http://localhost:8000/api/accounts/pricing/".
Definition signup_url : string := "http://localhost:8000/api/accounts/signup/".

Definition with_plans (v : JsVal) (s : State) : State :=
  {| plans := v; selectedPlan := selectedPlan s; loading := loading s;
     error := error s; email := email s; password := password s |}.

Definition with_selectedPlan (v : JsVal) (s : State) : State :=
  {| plans := plans s; selectedPlan := v; loading := loading s;
     error := error s; email := email s; password := password s |}.

Definition with_loading (v : bool) (s : State) : State :=
  {| plans := plans s; selectedPlan := selectedPlan s; loading := v;
     error := error s; email := email s; password := password s |}.

Definition with_error (v : JsVal) (s : State) : State :=
  {| plans := plans s; selectedPlan := selectedPlan s; loading := loading s;
     error := v; email := email s; password := password s |}.

Definition with_email (v : JsVal) (s : State) : State :=
  {| plans := plans s; selectedPlan := selectedPlan s; loading := loading s;
     error := error s; email := v; password := password s |}.

Definition with_password (v : JsVal) (s : State) : State :=
  {| plans := plans s; selectedPlan := selectedPlan s; loading := loading s;
     error := error s; email := email s; password := v |}.

Definition W : Type := Shell.State State.

Definition setPlans (v : JsVal) : M W unit :=
  Shell.on_page (emit (EvSetState "plans" v) ;; modify_comp (with_plans v)).

Definition setSelectedPlan (v : JsVal) : M W unit :=
  Shell.on_page (emit (EvSetState "selectedPlan" v) ;; modify_comp (with_selectedPlan v)).

Definition setLoading (v : bool) : M W unit :=
  Shell.on_page (emit (EvSetState "loading" (JBool v)) ;; modify_comp (with_loading v)).

Definition setError (v : JsVal) : M W unit :=
  Shell.on_page (emit (EvSetState "error" v) ;; modify_comp (with_error v)).

Definition setEmail (v : JsVal) : M W unit :=
  Shell.on_page (emit (EvSetState "email" v) ;; modify_comp (with_email v)).

Definition setPassword (v : JsVal) : M W unit :=
  Shell.on_page (emit (EvSetState "password" v) ;; modify_comp (with_password v)).

(** The body of the signup request. *)
Definition signup_data (s : State) (planId : JsVal) : JsVal :=
  JObj [("email", email s); ("password", password s); ("pricing_plan", planId)].

(** [error.response?.data?.error || 'Signup failed. Please try again.'] *)
Definition signup_failure (e : JsError) : JsVal :=
  or_else (response_data e "error") (JStr "Signup failed. Please try again.").

Section Component.
Context {rt : JsRuntime}.
Variable env : Env.
Variable onSignupComplete : JsVal -> M W unit.

(** Lines 28-39 *)
Definition fetchPricingPlans : M W unit :=
  try_catch
    (data <- Axios.get env pricing_url no_config ;;
     fetched <- member data "plans" ;;
     setPlans fetched ;;
     _ <- member fetched "length" ;;
     if has_positive_length fetched
     then id <- member (RankingHistory.first_of fetched) "id" ;;
          setSelectedPlan id
     else ret tt)
    (fun _ => setError (JStr "Failed to load pricing plans")).

(** Lines 14-26: the effect run on mount. *)
Definition on_mount : M W unit :=
  storedEmail <- WebStorage.read "signupEmail" ;;
  storedPassword <- WebStorage.read "signupPassword" ;;
  if negb (truthy storedEmail) || negb (truthy storedPassword)
  then navigate "/signup/email" ;; returned
  else setEmail storedEmail ;;
       setPassword storedPassword ;;
       fire_and_forget fetchPricingPlans.

(** Lines 41-43 *)
Definition handlePlanSelect (planId : JsVal) : M W unit := setSelectedPlan planId.

(** Lines 45-66; [s] is the state the closure captured. *)
Definition handleQuickSignup (s : State) (planId : JsVal) : M W unit :=
  setSelectedPlan planId ;;
  setLoading true ;;
  setError (JStr "") ;;
  try_catch
    (data <- Axios.post env signup_url (Some (signup_data s planId)) no_config ;;
     WebStorage.remove "signupEmail" ;;
     WebStorage.remove "signupPassword" ;;
     u <- member data "user" ;;
     onSignupComplete u ;;
     navigate "/dashboard")
    (fun e =>
       setError (signup_failure e) ;;
       setLoading false).

(** Lines 68-94; [s] is the state the closure captured. *)
Definition handleSignup (s : State) : M W unit :=
  if negb (truthy (selectedPlan s))
  then setError (JStr "Please select a pricing plan") ;; returned
  else
    setLoading true ;;
    setError (JStr "") ;;
    try_finally
      (try_catch
         (data <- Axios.post env signup_url (Some (signup_data s (selectedPlan s))) no_config ;;
          WebStorage.remove "signupEmail" ;;
          WebStorage.remove "signupPassword" ;;
          u <- member data "user" ;;
          onSignupComplete u ;;
          navigate "/dashboard")
         (fun e => setError (signup_failure e)))
      (setLoading false).

(** Lines 96-98 *)
Definition handleBack : M W unit := navigate "/signup/password".

End Component.

End PricingPage.

(** ** components/Login.js *)

Module Login.

Record State : Type := {
  email : string;
  password : string;
  loading : bool;
  error : JsVal
}.

(** Lines 6-9 *)
Definition initial_state : State :=
  {| email := ""; password := ""; loading := false; error := JStr "" |}.

Definition login_url : string := "http://localhost:8000/api/accounts/login/".

Definition with_loading (v : bool) (s : State) : State :=
  {| email := email s; password := password s; loading := v; error := error s |}.

Definition with_error (v : JsVal) (s : State) : State :=
  {| email := email s; password := password s; loading := loading s; error := v |}.

Definition W : Type := Shell.State State.

Definition setLoading (v : bool) : M W unit :=
  Shell.on_page (emit (EvSetState "loading" (JBool v)) ;; modify_comp (with_loading v)).

Definition setError (v : JsVal) : M W unit :=
  Shell.on_page (emit (EvSetState "error" v) ;; modify_comp (with_error v)).

(** The body of the login request. *)
Definition login_data (s : State) : JsVal :=
  JObj [("email", JStr (email s)); ("password", JStr (password s))].

(** [v?.[0]] *)
Definition first_opt (v : JsVal) : JsVal :=
  if nullish v then JUndefined else RankingHistory.first_of v.

(** Lines 25-30: the message for a failed login. *)
Definition login_failure (e : JsError) : JsVal :=
  if truthy (response_data e "email") || truthy (response_data e "password")
  then JStr "Invalid email or password"
  else or_else (first_opt (response_data e "non_field_errors"))
               (JStr "Login failed. Please try again.").

Section Component.
Variable env : Env.
Variable onLogin : JsVal -> M W unit.

(** Lines 12-34; [s] is the state the closure captured. *)
Definition handleSubmit (s : State) : M W unit :=
  emit EvPreventDefault ;;
  setLoading true ;;
  setError (JStr "") ;;
  try_finally
    (try_catch
       (data <- Axios.post env login_url (Some (login_data s)) no_config ;;
        u <- member data "user" ;;
        onLogin u ;;
        navigate "/dashboard")
       (fun e => setError (login_failure e)))
    (setLoading false).

End Component.

End Login.

(** ** Signing up, step by step *)

Module SignupFlow.

(** The world of one page, seen from another page: the browser and the
    log are shared, the state is the page's own. *)
Definition enter {S T} (s : T) (w : World S) : World T :=
  {| comp := s; browser := browser w; log := log w |}.

(** The user submits [typedEmail] on the first page, opens the second and
    submits [typedPassword] (typed twice) there, and opens the third:
    the world after the third page is mounted. [a] is the state of
    App.js meanwhile. *)
Definition reach_pricing {rt : JsRuntime} (env : Env) (a : App.State)
    (typedEmail typedPassword : string) (b : Browser) : World PricingPage.W :=
  let w0 : World SignupEmail.State :=
    {| comp := SignupEmail.initial_state; browser := b; log := [] |} in
  let w1 := snd (SignupEmail.handleSubmit
                   {| SignupEmail.email := typedEmail; SignupEmail.error := "" |} w0) in
  let w2 := snd (SignupPassword.on_mount (enter SignupPassword.initial_state w1)) in
  let w3 := snd (SignupPassword.handleSubmit
                   {| SignupPassword.password := typedPassword;
                      SignupPassword.confirmPassword := typedPassword;
                      SignupPassword.error := "";
                      SignupPassword.email := SignupPassword.email (comp w2) |} w2) in
  snd (PricingPage.on_mount env
         (enter {| Shell.page := PricingPage.initial_state; Shell.app := a |} w3)).

End SignupFlow.

(** ** What the signup and login pages send *)

Module ObsSignup.

(** The requests the pages send from a browser. *)
Definition pricing_request (b : Browser) : Outgoing :=
  Axios.outgoing b GET PricingPage.pricing_url None no_config.

Definition signup_request (s : PricingPage.State) (planId : JsVal) (b : Browser) : Outgoing :=
  Axios.outgoing b POST PricingPage.signup_url (Some (PricingPage.signup_data s planId))
    no_config.

Definition login_request (s : Login.State) (b : Browser) : Outgoing :=
  Axios.outgoing b POST Login.login_url (Some (Login.login_data s)) no_config.

(** What localStorage holds of the signup. *)
Definition stored (k : string) (b : Browser) : JsVal :=
  WebStorage.getItem k (localStorage b).

(** A signup or login answer the page can use: [response.data] is not
    null or undefined. *)
Definition accepted (r : HttpResult) : bool :=
  match r with
  | Resolved data => negb (nullish data)
  | Rejected _ => false
  end.

Definition user_of (r : HttpResult) : JsVal :=
  match r with
  | Resolved data => Js.get data "user"
  | Rejected _ => JUndefined
  end.

(** A property of the body a request carries. *)
Definition wire_field (k : string) (r : Outgoing) : JsVal :=
  match body r with
  | Some d => Js.get d k
  | None => JUndefined
  end.

End ObsSignup.

(** ** A visitor who signs up or logs in *)

Module SignupScenes.

(** App.js once the authentication check has found nobody logged in. *)
Definition visitor : App.State :=
  {| App.isAuthenticated := false; App.user := JNull; App.loading := false;
     App.logoutInProgress := false |}.

(** A server that offers two plans and accepts every signup and login. *)
Definition welcoming : Env :=
  fun _ r =>
    if String.eqb (url r) PricingPage.pricing_url
    then Resolved (JObj [("plans", JArr [JObj [("id", JStr "basic")];
                                         JObj [("id", JStr "pro")]])])
    else Resolved (JObj [("user", JObj [("email", JStr "ann@example.com")])]).

(** The pricing page as Ann sees it. *)
Definition ann_at_pricing : PricingPage.State :=
  {| PricingPage.plans := JArr [JObj [("id", JStr "basic")]; JObj [("id", JStr "pro")]];
     PricingPage.selectedPlan := JStr "basic";
     PricingPage.loading := false;
     PricingPage.error := JStr "";
     PricingPage.email := JStr "ann@example.com";
     PricingPage.password := JStr "secret1" |}.

Definition pricing_world : World PricingPage.W :=
  {| comp := {| Shell.page := ann_at_pricing; Shell.app := visitor |};
     browser := Samples.fresh_browser "/signup/pricing";
     log := [] |}.

(** The login form, filled in. *)
Definition ann_at_login : Login.State :=
  {| Login.email := "ann@example.com"; Login.password := "secret1";
     Login.loading := false; Login.error := JStr "" |}.

Definition login_world : World Login.W :=
  {| comp := {| Shell.page := ann_at_login; Shell.app := visitor |};
     browser := Samples.fresh_browser "/login";
     log := [] |}.

End SignupScenes.

(** ** components/LocalRankingGrid.js: [renderResults]

    The whole function, lines 258-375: what it returns is the element
    tree, held here as a record of the values the elements show. A task
    id is read as a sequence of UTF-16 code units below 256, one per
    character. Whether React can later show a value it was given as a
    child is not part of the function and is not modelled. *)

Module Results.

Import LocalRankingGrid.

(** [Math.round], which the host gives. *)
Class JsMath : Type := {
  math_round : float -> float
}.

(** A child written [cond && <element>]: the element, or the falsy
    value the condition came to (React shows nothing for false, null,
    undefined and the empty string). *)
Inductive Slot (A : Type) : Type :=
| Shown (a : A)
| Bare (v : JsVal).
Arguments Bare {A} v.

(** [o >>= k] on outcomes: the first TypeError ends the evaluation. *)
Definition and_then {A B} (o : Outcome A) (k : A -> Outcome B) : Outcome B :=
  match o with
  | Ok a => k a
  | TypeError m => TypeError m
  end.

(** [items.map(f)] *)
Fixpoint map_each {A B} (f : A -> Outcome B) (items : list A) : Outcome (list B) :=
  match items with
  | [] => Ok []
  | x :: rest =>
      and_then (f x) (fun y => and_then (map_each f rest) (fun ys => Ok (y :: ys)))
  end.

(** *** [Object.entries] *)

Fixpoint digits_value (acc : N) (s : string) : option N :=
  match s with
  | EmptyString => Some acc
  | String c rest =>
      let n := N_of_ascii c in
      if (48 <=? n)%N && (n <=? 57)%N
      then digits_value (10 * acc + (n - 48))%N rest
      else None
  end.

(** The array index a property name stands for, if any: a decimal
    numeral without leading zero, below 2^32 - 1. *)
Definition array_index (k : string) : option N :=
  match k with
  | EmptyString => None
  | String "0"%char EmptyString => Some 0%N
  | String "0"%char _ => None
  | _ =>
      match digits_value 0 k with
      | Some n => if (n <? 4294967295)%N then Some n else None
      | None => None
      end
  end.

(** A property list names a property once; where a name comes twice the
    first binding counts, as for [lookup]. *)
Fixpoint first_bindings (seen : list string) (o : list (string * JsVal))
  : list (string * JsVal) :=
  match o with
  | [] => []
  | (k, v) :: rest =>
      if existsb (String.eqb k) seen
      then first_bindings seen rest
      else (k, v) :: first_bindings (k :: seen) rest
  end.

Fixpoint insert_index (e : N * (string * JsVal)) (l : list (N * (string * JsVal)))
  : list (N * (string * JsVal)) :=
  match l with
  | [] => [e]
  | x :: rest => if (fst e <? fst x)%N then e :: l else x :: insert_index e rest
  end.

(** The own properties of an object in the order the language lists
    them: array indices first, ascending, then the other names in the
    order they were added. *)
Fixpoint own_properties (o : list (string * JsVal))
  : list (N * (string * JsVal)) * list (string * JsVal) :=
  match o with
  | [] => ([], [])
  | (k, v) :: rest =>
      let (indexed, named) := own_properties rest in
      match array_index k with
      | Some i => (insert_index (i, (k, v)) indexed, named)
      | None => (indexed, (k, v) :: named)
      end
  end.

Definition index_name (i : nat) : string :=
  DecimalString.NilZero.string_of_uint (Nat.to_uint i).

Fixpoint indexed_from {A} (i : nat) (wrap : A -> JsVal) (items : list A)
  : list (string * JsVal) :=
  match items with
  | [] => []
  | x :: rest => (index_name i, wrap x) :: indexed_from (Datatypes.S i) wrap rest
  end.

(** [Object.entries(v)] for a value that is not null or undefined. *)
Definition entries (v : JsVal) : list (string * JsVal) :=
  match v with
  | JObj o =>
      let (indexed, named) := own_properties (first_bindings [] o) in
      List.map snd indexed ++ named
  | JArr items => indexed_from 0 (fun x => x) items
  | JStr s => indexed_from 0 (fun c => JStr (String c EmptyString)) (list_ascii_of_string s)
  | _ => []
  end.

Definition number_of_nat (n : nat) : float :=
  PrimFloat.of_uint63 (Uint63.of_Z (Z.of_nat n)).

(** [v.length] for a value that is not null or undefined. *)
Definition length_of (v : JsVal) : JsVal :=
  match v with
  | JArr items => JNum (number_of_nat (List.length items))
  | JStr s => JNum (number_of_nat (String.length s))
  | JObj o => lookup "length" o
  | _ => JUndefined
  end.

(** *** The element tree *)

(** Lines 270-274 *)
Record LocationCard : Type := {
  location_lat : JsVal;
  location_lng : JsVal
}.

(** Lines 277-281: [card_size] is shown twice, around an "x". *)
Record GridCard : Type := {
  card_size : JsVal;
  card_radius_km : JsVal
}.

(** Lines 285-290 *)
Record SummaryCard : Type := {
  summary_completed : JsVal;
  summary_failed : JsVal;
  summary_pending : JsVal
}.

(** Lines 294-298 *)
Record TimingCard : Type := {
  timing_duration : float;
  timing_status : string
}.

(** Lines 333-339: [completed_items] is the count in "Results: count
    items found", when there are items. *)
Record CompletedTask : Type := {
  completed_key : string;
  completed_heading : string;
  completed_items : Slot JsVal
}.

(** Lines 351-355 *)
Record FailedTask : Type := {
  failed_key : string;
  failed_heading : string;
  failed_reason : JsVal
}.

(** Lines 367-370 *)
Record PendingTask : Type := {
  pending_key : JsVal;
  pending_heading : string
}.

(** Lines 265-373: the [div.results-section]. *)
Record ResultsSection : Type := {
  section_business_name : JsVal;
  location_card : LocationCard;
  grid_card : Slot GridCard;
  summary_card : Slot SummaryCard;
  timing_card : Slot TimingCard;
  rank_grid : Slot RankGrid;
  completed_tasks : Slot (list CompletedTask);
  failed_tasks : Slot (list FailedTask);
  pending_tasks : Slot (list PendingTask)
}.

(** [taskId.substring(0, 8)] on a string *)
Definition heading_of (taskId : string) : string := String.substring 0 8 taskId.

(** Lines 332-340: the card of one entry of [completed]. *)
Definition completed_task (entry : string * JsVal) : Outcome CompletedTask :=
  let (taskId, data) := entry in
  if nullish data
  then TypeError "Cannot read properties of null or undefined (reading 'tasks')"
  else
    let items :=
      get_opt (Login.first_opt (get_opt (Login.first_opt (Js.get data "tasks")) "result"))
        "items" in
    Ok {| completed_key := taskId;
          completed_heading := heading_of taskId;
          completed_items := if truthy items then Shown (length_of items) else Bare items |}.

(** Lines 350-356: the card of one entry of [failed]. *)
Definition failed_task (entry : string * JsVal) : Outcome FailedTask :=
  let (taskId, data) := entry in
  if nullish data
  then TypeError "Cannot read properties of null or undefined (reading 'tasks')"
  else
    Ok {| failed_key := taskId;
          failed_heading := heading_of taskId;
          failed_reason :=
            or_else (get_opt (Login.first_opt (Js.get data "tasks")) "status_message")
              (JStr "Unknown error") |}.

(** Lines 366-371: the card of one element of [pending]. *)
Definition pending_task (taskId : JsVal) : Outcome PendingTask :=
  match taskId with
  | JStr id => Ok {| pending_key := taskId; pending_heading := heading_of id |}
  | JUndefined | JNull =>
      TypeError "Cannot read properties of null or undefined (reading 'substring')"
  | _ => TypeError "taskId.substring is not a function"
  end.

Section Render.
Context {rt : JsRuntime} {mt : JsMath}.

(** Lines 302-325: [rank_map && rank_map.length > 0 && (...)]. The
    column count is written into a template literal, which converts it,
    before the cells are built. *)
Definition rank_grid_slot (grid_parameters rank_map : JsVal) : Outcome (Slot RankGrid) :=
  if negb (truthy rank_map) then Ok (Bare rank_map)
  else if negb (length_converts rank_map) then TypeError conversion_error
  else if negb (has_positive_length rank_map) then Ok (Bare (JBool false))
  else
    let columns := or_else (get_opt grid_parameters "size") (JNum 3) in
    if negb (converts columns) then TypeError conversion_error
    else
      match rank_map with
      | JArr cells =>
          and_then (render_cells cells)
            (fun rcs => Ok (Shown {| grid_columns := columns; grid_cells := rcs |}))
      | _ => TypeError "rank_map.map is not a function"
      end.

(** Lines 328-343 and 345-359:
    [tasks && Object.keys(tasks).length > 0 && (... Object.entries(tasks).map(card) ...)] *)
Definition entries_slot {A} (card : string * JsVal -> Outcome A) (tasks : JsVal)
  : Outcome (Slot (list A)) :=
  if negb (truthy tasks) then Ok (Bare tasks)
  else
    match entries tasks with
    | [] => Ok (Bare (JBool false))
    | listed => and_then (map_each card listed) (fun cards => Ok (Shown cards))
    end.

(** Lines 361-373: [pending && pending.length > 0 && (... pending.map(card) ...)] *)
Definition pending_slot (pending : JsVal) : Outcome (Slot (list PendingTask)) :=
  if negb (truthy pending) then Ok (Bare pending)
  else if negb (length_converts pending) then TypeError conversion_error
  else if negb (has_positive_length pending) then Ok (Bare (JBool false))
  else
    match pending with
    | JArr ids => and_then (map_each pending_task ids) (fun cards => Ok (Shown cards))
    | _ => TypeError "taskResults.pending.map is not a function"
    end.

(** Lines 292-299: [metadata && (...)]; [Math.round] converts what it
    is given to a number. *)
Definition timing_slot (metadata : JsVal) : Outcome (Slot TimingCard) :=
  if negb (truthy metadata) then Ok (Bare metadata)
  else if negb (converts (Js.get metadata "total_duration_seconds"))
  then TypeError conversion_error
  else
    Ok (Shown {| timing_duration :=
                   math_round (to_number (Js.get metadata "total_duration_seconds"));
                 timing_status :=
                   if truthy (Js.get metadata "success") then "✅ Success" else "❌ Failed" |}).

(** Lines 258-375. [Ok None]: the function returns null. The children
    are evaluated in the order they are written; of the header only the
    timing card can throw. *)
Definition renderResults (results : JsVal) : Outcome (option ResultsSection) :=
  if negb (truthy results) then Ok None
  else
    let business_name := Js.get results "business_name" in
    let center_coordinates := Js.get results "center_coordinates" in
    let grid_parameters := Js.get results "grid_parameters" in
    let taskResults := Js.get results "results" in
    let metadata := Js.get results "metadata" in
    let rank_map := Js.get results "rank_map" in
    let summary := Js.get (or_else taskResults (JObj [])) "summary" in
    let location :=
      {| location_lat := get_opt center_coordinates "lat";
         location_lng := get_opt center_coordinates "lng" |} in
    let grid :=
      if truthy grid_parameters
      then Shown {| card_size := Js.get grid_parameters "size";
                    card_radius_km := Js.get grid_parameters "radius_km" |}
      else Bare grid_parameters in
    let counts :=
      if truthy summary
      then Shown {| summary_completed := Js.get summary "completed_count";
                    summary_failed := Js.get summary "failed_count";
                    summary_pending := Js.get summary "pending_count" |}
      else Bare summary in
    and_then (timing_slot metadata) (fun timing =>
    and_then (rank_grid_slot grid_parameters rank_map) (fun cells =>
    and_then (entries_slot completed_task (get_opt taskResults "completed")) (fun completed =>
    and_then (entries_slot failed_task (get_opt taskResults "failed")) (fun failed =>
    and_then (pending_slot (get_opt taskResults "pending")) (fun pending =>
    Ok (Some {| section_business_name := business_name;
                location_card := location;
                grid_card := grid;
                summary_card := counts;
                timing_card := timing;
                rank_grid := cells;
                completed_tasks := completed;
                failed_tasks := failed;
                pending_tasks := pending |})))))).

End Render.

End Results.

(** ** What a rendering of results is observed by *)

Module ObsResults.

Import LocalRankingGrid.
Import Results.

Definition renders {A} (o : Outcome A) : bool :=
  match o with Ok _ => true | TypeError _ => false end.

(** The cells of the rank grid, when one is shown. *)
Definition shown_cells (section : ResultsSection) : option (list RankCell) :=
  match rank_grid section with
  | Shown grid => Some (grid_cells grid)
  | Bare _ => None
  end.

Definition is_text (v : JsVal) : bool :=
  match v with JStr _ => true | _ => false end.

Definition not_nullish (v : JsVal) : bool := negb (nullish v).

(** The metadata the timing card can be built from: falsy, or with a
    duration that converts to a number. *)
Definition timing_readable (results : JsVal) : bool :=
  let metadata := Js.get results "metadata" in
  negb (truthy metadata) || converts (Js.get metadata "total_duration_seconds").

(** A [rank_map] the grid block can be built from: falsy; or with a
    length that can be compared and is not positive (then no grid is
    built); or an array without null and undefined whose keys convert,
    next to a column count that converts. *)
Definition grid_readable {rt : JsRuntime} (results : JsVal) : bool :=
  let rank_map := Js.get results "rank_map" in
  negb (truthy rank_map)
  || (length_converts rank_map
      && (negb (has_positive_length rank_map)
          || (converts (Obs.columns_of results)
              && match rank_map with
                 | JArr cells => Obs.readable cells
                 | _ => false
                 end))).

(** A [completed] or [failed] the task block can be built from: falsy,
    or with no null and no undefined among its values. *)
Definition values_readable (tasks : JsVal) : bool :=
  negb (truthy tasks) || forallb (fun entry => not_nullish (snd entry)) (entries tasks).

(** A [pending] the task block can be built from: falsy; or with a
    length that can be compared and is not positive; or an array of
    strings. *)
Definition ids_readable {rt : JsRuntime} (pending : JsVal) : bool :=
  negb (truthy pending)
  || (length_converts pending
      && (negb (has_positive_length pending)
          || match pending with
             | JArr ids => forallb is_text ids
             | _ => false
             end)).

Definition tasks_readable {rt : JsRuntime} (results : JsVal) : bool :=
  let taskResults := Js.get results "results" in
  values_readable (get_opt taskResults "completed")
  && values_readable (get_opt taskResults "failed")
  && ids_readable (get_opt taskResults "pending").

(** Results the whole section can be built from. *)
Definition results_readable {rt : JsRuntime} (results : JsVal) : bool :=
  timing_readable results && grid_readable results && tasks_readable results.

(** The same results with another [grid_parameters]. *)
Definition with_grid_parameters (grid_parameters : JsVal) (results : JsVal) : JsVal :=
  match results with
  | JObj o => JObj (("grid_parameters", grid_parameters) :: o)
  | _ => results
  end.

End ObsResults.

(** ** The ranking page as App.js mounts it *)

Module Mounting.



(** The owner of the pizza place, logged in. *)
Definition signed_in : App.State :=
  {| App.isAuthenticated := true;
     App.user := JObj [("email", JStr "owner@example.com")];
     App.loading := false;
     App.logoutInProgress := false |}.

(** A server on which the session outlives the logout: the logout
    request fails, the authentication check still finds the user. *)
Definition lingering_session : Env :=
  fun _ r =>
    if String.eqb (url r) App.logout_url
    then Rejected Samples.network_error
    else Resolved (JObj [("authenticated", JBool true);
                         ("user", JObj [("email", JStr "owner@example.com")])]).

End Mounting.

(** ** A host that rounds, and results with task lists *)

Module ResultsSamples.

Definition two52 : float := 4503599627370496%float.

(** The whole number next to a number that is not negative and below
    2^52, halves going up. *)
Definition round_up_half (x : float) : float :=
  let r := PrimFloat.sub (PrimFloat.add x two52) two52 in
  if PrimFloat.eqb (PrimFloat.sub x r) 0.5%float then PrimFloat.add r 1%float else r.

(** The same for the mirror image of a negative number, halves going
    down. *)
Definition round_down_half (y : float) : float :=
  let r := PrimFloat.sub (PrimFloat.add y two52) two52 in
  if PrimFloat.eqb (PrimFloat.sub r y) 0.5%float then PrimFloat.sub r 1%float else r.

#[export] Instance rounding : Results.JsMath := {
  Results.math_round := fun x =>
    if PrimFloat.is_nan x || PrimFloat.is_infinity x || PrimFloat.is_zero x then x
    else if PrimFloat.leb two52 (PrimFloat.abs x) then x
    else if PrimFloat.ltb 0%float x then round_up_half x
    else PrimFloat.opp (round_down_half (PrimFloat.opp x))
}.

(** The three cells again, with the task lists of the answer and the
    timing. *)
Definition three_cells_listed : JsVal :=
  JObj [("business_name", JStr "Pizza Place");
        ("center_coordinates", JObj [("lat", JNum 40.689199); ("lng", JNum (-73.975035))]);
        ("grid_parameters", JObj [("size", JNum 4); ("radius_km", JNum 5)]);
        ("results",
         JObj [("summary", JObj [("completed_count", JNum 1); ("failed_count", JNum 0);
                                 ("pending_count", JNum 2)]);
               ("completed",
                JObj [("11081545-3399-0066", JObj [("tasks", JArr [JObj [("result",
                         JArr [JObj [("items", JArr [JStr "a"; JStr "b"])]])]])])]);
               ("failed", JObj []);
               ("pending", JArr [JStr "11081545-3399-0067"; JStr "t-3"])]);
        ("metadata", JObj [("total_duration_seconds", JNum 12.5); ("success", JBool true)]);
        ("rank_map", JArr Samples.three_entries)].

(** An answer whose pending list holds a number. *)
Definition numbered_pending : JsVal :=
  JObj [("results", JObj [("pending", JArr [JNum 5])]);
        ("rank_map", JArr Samples.three_entries)].

End ResultsSamples.

(** * Properties *)

Import Obs.
Import ObsMore.
Import LocalRankingGrid.
Import Results.
Import ObsResults.
Unset Implicit Arguments.

Section RunFacts.
Context {S A : Type}.

Lemma issued_of_log (m : M S A) (w : World S) (evs : list Event) :
  log (after m w) = rev evs ++ log w -> issued m w = evs.
Proof.
  intros H. unfold issued, trace. rewrite H, rev_app_distr, rev_involutive.
  rewrite <- (length_rev (log w)).
  rewrite skipn_app, Nat.sub_diag, skipn_all. reflexivity.
Qed.

End RunFacts.

(** ** Validation *)

Lemma fields_missing (fd : FormData) :
  required_filled fd = false ->
  negb (truthy (businessName fd)) || negb (truthy (businessLat fd))
  || negb (truthy (businessLng fd)) = true.
Proof.
  unfold required_filled.
  destruct (truthy (businessName fd)), (truthy (businessLat fd)),
    (truthy (businessLng fd)); simpl; congruence.
Qed.

Lemma fields_present (fd : FormData) :
  required_filled fd = true ->
  negb (truthy (businessName fd)) || negb (truthy (businessLat fd))
  || negb (truthy (businessLng fd)) = false.
Proof.
  unfold required_filled.
  destruct (truthy (businessName fd)), (truthy (businessLat fd)),
    (truthy (businessLng fd)); simpl; congruence.
Qed.

(** Either handler with a required field missing. *)
Lemma rejected_run
    {rt : JsRuntime} (env : Env) (tab : Tab) (p : Props) (s : State) (w : World State) :
  required_filled (formData s) = false ->
  onSubmit env tab p s w
  = (Returned,
     {| comp := with_error fill_in_message (comp w);
        browser := browser w;
        log := rev [EvPreventDefault; EvSetState "error" fill_in_message] ++ log w |}).
Proof.
  intros G. apply fields_missing in G.
  destruct tab; unfold onSubmit, handleQuickCheck, handleAdvancedCheck;
    cbn; rewrite G; reflexivity.
Qed.

(** C2. A form submitted with an empty business name, latitude or
    longitude (more generally, with one of the three falsy) is stopped by
    the first test of its handler, quick or advanced: the handler
    returns after [preventDefault] and [setError('Please fill in all
    required fields')]; it sends no request of any kind. *)
Theorem missing_field_stops_before_network
    {rt : JsRuntime} (env : Env) (tab : Tab) (p : Props) (s : State) (w : World State) :
  truthy (businessName (formData s)) = false
  \/ truthy (businessLat (formData s)) = false
  \/ truthy (businessLng (formData s)) = false ->
  fst (onSubmit env tab p s w) = Returned
  /\ issued (onSubmit env tab p s) w = [EvPreventDefault; EvSetState "error" fill_in_message]
  /\ requests (issued (onSubmit env tab p s) w) = []
  /\ error (comp (after (onSubmit env tab p s) w)) = fill_in_message
  /\ results (comp (after (onSubmit env tab p s) w)) = results (comp w)
  /\ loading (comp (after (onSubmit env tab p s) w)) = loading (comp w).
Proof.
  intros H.
  assert (G : required_filled (formData s) = false).
  { unfold required_filled.
    destruct H as [H | [H | H]]; rewrite H;
      repeat rewrite ?andb_false_r, ?andb_false_l; reflexivity. }
  pose proof (rejected_run env tab p s w G) as R.
  assert (L : log (after (onSubmit env tab p s) w)
              = rev [EvPreventDefault; EvSetState "error" fill_in_message] ++ log w)
    by (unfold after; rewrite R; reflexivity).
  rewrite (issued_of_log _ _ _ L).
  unfold after; rewrite R. repeat split.
Qed.

(** ** The authentication guard *)

Lemma turned_away_log
    {rt : JsRuntime} (env : Env) (tab : Tab) (p : Props) (s : State) (w : World State) :
  required_filled (formData s) = true ->
  isAuthenticated p = false ->
  onSubmit env tab p s w
  = (Returned,
     {| comp := with_loading false (with_error (JStr "Please log in first") (opened (comp w)));
        browser := with_location "/login" (browser w);
        log := rev turned_away ++ log w |}).
Proof.
  intros G U. apply fields_present in G.
  destruct tab; unfold onSubmit, handleQuickCheck, handleAdvancedCheck;
    cbn; rewrite G, U; reflexivity.
Qed.

(** C7. A submission that passes validation while the user is not
    authenticated sends no request at all, so no POST to a ranking
    endpoint; it calls [navigate('/login')], and at that location the
    router of App.js shows the login view to an unauthenticated user, not
    the ranking grid whose markup holds the error banner. (The handler
    does call [setError('Please log in first')] on its way out.) *)
Theorem unauthenticated_submission_redirects
    {rt : JsRuntime} (env : Env) (tab : Tab) (p : Props) (s : State) (w : World State) :
  required_filled (formData s) = true ->
  isAuthenticated p = false ->
  issued (onSubmit env tab p s) w = turned_away
  /\ requests (issued (onSubmit env tab p s) w) = []
  /\ In (EvNavigate "/login") (issued (onSubmit env tab p s) w)
  /\ location (browser (after (onSubmit env tab p s) w)) = "/login"
  /\ forall app : App.State,
       App.isAuthenticated app = isAuthenticated p ->
       App.loading app = false ->
       App.render app (location (browser (after (onSubmit env tab p s) w))) = App.Login.
Proof.
  intros G U.
  pose proof (turned_away_log env tab p s w G U) as R.
  assert (L : log (after (onSubmit env tab p s) w) = rev turned_away ++ log w)
    by (unfold after; rewrite R; reflexivity).
  rewrite (issued_of_log _ _ _ L).
  unfold after; rewrite R; cbn.
  repeat split; auto 10.
  intros app Ha Hl. unfold App.render. rewrite Hl, Ha, U. reflexivity.
Qed.

(** ** Symbolic runs of the two handlers *)

Arguments Axios.outgoing : simpl never.
Arguments quick_check_data : simpl never.
Arguments grid_check_data : simpl never.
Arguments quick_check_config : simpl never.
Arguments quick_check_failure : simpl never.
Arguments grid_check_failure : simpl never.

Ltac step_run :=
  unfold try_finally, try_catch, bind, ret, returned, throw, read_browser, read_comp,
    Axios.post, Axios.get, Axios.send, Axios.set_default_header, member,
    setResults, setError, setLoading, setCsrfToken, emit, modify_comp, modify_browser;
  cbn.

(** The advanced handler, logged in: one POST, settled, loading reset. *)
Lemma advanced_run
    {rt : JsRuntime} (env : Env) (p : Props) (s : State) (w : World State) :
  required_filled (formData s) = true ->
  isAuthenticated p = true ->
  handleAdvancedCheck env p s w
  = (Normal tt,
     {| comp := with_loading false
                  (settled grid_check_failure (env (sent w) (grid_post s (browser w)))
                     (opened (comp w)));
        browser := browser w;
        log := rev (opening ++ [EvRequest (grid_post s (browser w))]
                    ++ settle grid_check_failure (env (sent w) (grid_post s (browser w)))
                    ++ [EvSetState "loading" (JBool false)]) ++ log w |}).
Proof.
  intros G U. apply fields_present in G.
  unfold handleAdvancedCheck. cbn. rewrite G, U. cbn.
  unfold sent, grid_post.
  destruct (env _ _) eqn:E; step_run; rewrite E; reflexivity.
Qed.

(** The quick handler, logged in, with a token in its closure. *)
Lemma quick_run_cached
    {rt : JsRuntime} (env : Env) (p : Props) (s : State) (w : World State) :
  required_filled (formData s) = true ->
  isAuthenticated p = true ->
  truthy (csrfToken s) = true ->
  handleQuickCheck env p s w
  = (Normal tt,
     {| comp := with_loading false
                  (settled quick_check_failure (env (sent w) (quick_post s (browser w)))
                     (opened (comp w)));
        browser := browser w;
        log := rev (opening ++ [EvRequest (quick_post s (browser w))]
                    ++ settle quick_check_failure (env (sent w) (quick_post s (browser w)))
                    ++ [EvSetState "loading" (JBool false)]) ++ log w |}).
Proof.
  intros G U T. apply fields_present in G.
  unfold handleQuickCheck. cbn. rewrite G, U, T. cbn.
  unfold sent, quick_post.
  destruct (env _ _) eqn:E; step_run; rewrite E; reflexivity.
Qed.

(** The quick handler, logged in, without a token, the token request
    failing or answered without a token. *)
Lemma quick_run_no_token
    {rt : JsRuntime} (env : Env) (p : Props) (s : State) (w : World State) :
  required_filled (formData s) = true ->
  isAuthenticated p = true ->
  truthy (csrfToken s) = false ->
  truthy (token_of (env (sent w) (token_request (browser w)))) = false ->
  handleQuickCheck env p s w
  = (Returned,
     {| comp := with_loading false (with_error refresh_message (opened (comp w)));
        browser := browser w;
        log := rev (opening ++ [EvRequest (token_request (browser w));
                                EvSetState "error" refresh_message;
                                EvSetState "loading" (JBool false)]) ++ log w |}).
Proof.
  intros G U T F. apply fields_present in G.
  unfold handleQuickCheck. cbn. rewrite G, U, T. cbn.
  unfold sent, token_request, token_of in F.
  destruct (env _ _) eqn:E in F.
  - step_run. rewrite E. unfold get_opt in F.
    destruct (nullish data) eqn:N; cbn.
    + reflexivity.
    + rewrite F. reflexivity.
  - step_run. rewrite E. reflexivity.
Qed.

(** The quick handler, logged in, without a token, the token request
    answered with one. *)
Lemma quick_run_fetched
    {rt : JsRuntime} (env : Env) (p : Props) (s : State) (w : World State) :
  required_filled (formData s) = true ->
  isAuthenticated p = true ->
  truthy (csrfToken s) = false ->
  truthy (token_of (env (sent w) (token_request (browser w)))) = true ->
  let token := token_of (env (sent w) (token_request (browser w))) in
  let b := keeping token (browser w) in
  handleQuickCheck env p s w
  = (Normal tt,
     {| comp := with_loading false
                  (settled quick_check_failure (env (Datatypes.S (sent w)) (quick_post s b))
                     (with_csrfToken token (opened (comp w))));
        browser := b;
        log := rev (opening ++ [EvRequest (token_request (browser w));
                                EvSetState "csrfToken" token;
                                EvAxiosDefaultHeader "X-CSRFToken" token;
                                EvRequest (quick_post s b)]
                    ++ settle quick_check_failure (env (Datatypes.S (sent w)) (quick_post s b))
                    ++ [EvSetState "loading" (JBool false)]) ++ log w |}).
Proof.
  intros G U T F token b. apply fields_present in G.
  unfold handleQuickCheck. cbn. rewrite G, U, T. cbn.
  subst b token.
  unfold sent, token_request, token_of, quick_post, keeping in *.
  destruct (env (Datatypes.length (requests (log w))) _) eqn:E; [ | discriminate F ].
  unfold get_opt in *.
  destruct (nullish data) eqn:N; [ discriminate F | ].
  step_run. rewrite E. cbn. rewrite N. cbn. rewrite F. cbn.
  destruct (env (Datatypes.S _) _) eqn:E2; step_run; reflexivity.
Qed.

Lemma observe {S A : Type} (m : M S A) (w : World S)
    (c : Completion A) (st : S) (b : Browser) (evs : list Event) :
  m w = (c, {| comp := st; browser := b; log := rev evs ++ log w |}) ->
  issued m w = evs /\ comp (after m w) = st /\ browser (after m w) = b /\ fst (m w) = c.
Proof.
  intros R. split; [ | unfold after; rewrite R; auto ].
  apply issued_of_log. unfold after. rewrite R. reflexivity.
Qed.

Lemma quick_paths {rt : JsRuntime} (env : Env) (p : Props) (s : State) (w : World State) :
  QuickPath env p s w.
Proof.
  destruct (isAuthenticated p) eqn:U; [ | now apply TurnedAway ].
  destruct (truthy (csrfToken s)) eqn:T; [ now apply TokenCached | ].
  destruct (truthy (token_of (env (sent w) (token_request (browser w))))) eqn:F.
  - now apply TokenFetched.
  - now apply TokenRefused.
Qed.

(** ** Display state around a submission *)

(** C10. Once the fields pass validation, either handler first calls
    [setLoading(true)], [setError('')] and [setResults(null)], and only
    then anything else: the events it adds start with [opening], which
    holds no request. When it finishes, however it went, [loading] is
    false and resetting it is the last thing done; if an error message
    is then set, [results] is null, and a result that is shown is the
    answer to a request of this very submission. *)
Theorem validated_submission_resets_display
    {rt : JsRuntime} (env : Env) (tab : Tab) (p : Props) (s : State) (w : World State) :
  required_filled (formData s) = true ->
  let m := onSubmit env tab p s in
  (exists rest, issued m w = opening ++ rest)
  /\ requests opening = []
  /\ (exists before, issued m w = before ++ [EvSetState "loading" (JBool false)])
  /\ loading (comp (after m w)) = false
  /\ (truthy (error (comp (after m w))) = true -> results (comp (after m w)) = JNull)
  /\ (results (comp (after m w)) = JNull
      \/ exists n r, In (EvRequest r) (issued m w)
                     /\ env n r = Resolved (results (comp (after m w)))).
Proof.
  intros G m.
  assert (Shape :
    exists c st b rest,
      m w = (c, {| comp := with_loading false st; browser := b;
                   log := rev (opening ++ rest ++ [EvSetState "loading" (JBool false)])
                          ++ log w |})
      /\ ((results st = JNull)
          \/ (error st = JStr ""
              /\ exists n r, In (EvRequest r) rest /\ env n r = Resolved (results st)))).
  { subst m. destruct tab; cbn [onSubmit].
    - destruct (quick_paths env p s w) as [U | U T | U T F | U T F].
      + pose proof (turned_away_log env QuickTab p s w G U) as R. cbn [onSubmit] in R.
        eexists _, _, _, [EvSetState "error" (JStr "Please log in first"); EvNavigate "/login"].
        split; [ exact R | left; reflexivity ].
      + pose proof (quick_run_cached env p s w G U T) as R.
        destruct (env (sent w) (quick_post s (browser w))) as [data | e] eqn:E.
        * eexists _, _, _, [EvRequest (quick_post s (browser w)); EvSetState "results" data].
          split; [ exact R | right ]. split; [ reflexivity | ].
          exists (sent w), (quick_post s (browser w)). rewrite E. cbn. auto.
        * eexists _, _, _, [EvRequest (quick_post s (browser w));
                            EvSetState "error" (quick_check_failure e)].
          split; [ exact R | left; reflexivity ].
      + pose proof (quick_run_no_token env p s w G U T F) as R.
        eexists _, _, _, [EvRequest (token_request (browser w));
                          EvSetState "error" refresh_message].
        split; [ exact R | left; reflexivity ].
      + pose proof (quick_run_fetched env p s w G U T F) as R. cbn zeta in R.
        set (token := token_of _) in R. set (b := keeping _ _) in R.
        destruct (env (Datatypes.S (sent w)) (quick_post s b)) as [data | e] eqn:E.
        * eexists _, _, _, [EvRequest (token_request (browser w));
                            EvSetState "csrfToken" token;
                            EvAxiosDefaultHeader "X-CSRFToken" token;
                            EvRequest (quick_post s b); EvSetState "results" data].
          split; [ exact R | right ]. split; [ reflexivity | ].
          exists (Datatypes.S (sent w)), (quick_post s b). rewrite E. cbn. auto 10.
        * eexists _, _, _, [EvRequest (token_request (browser w));
                            EvSetState "csrfToken" token;
                            EvAxiosDefaultHeader "X-CSRFToken" token;
                            EvRequest (quick_post s b);
                            EvSetState "error" (quick_check_failure e)].
          split; [ exact R | left; reflexivity ].
    - destruct (isAuthenticated p) eqn:U.
      + pose proof (advanced_run env p s w G U) as R.
        destruct (env (sent w) (grid_post s (browser w))) as [data | e] eqn:E.
        * eexists _, _, _, [EvRequest (grid_post s (browser w)); EvSetState "results" data].
          split; [ exact R | right ]. split; [ reflexivity | ].
          exists (sent w), (grid_post s (browser w)). rewrite E. cbn. auto.
        * eexists _, _, _, [EvRequest (grid_post s (browser w));
                            EvSetState "error" (grid_check_failure e)].
          split; [ exact R | left; reflexivity ].
      + pose proof (turned_away_log env AdvancedTab p s w G U) as R. cbn [onSubmit] in R.
        eexists _, _, _, [EvSetState "error" (JStr "Please log in first"); EvNavigate "/login"].
        split; [ exact R | left; reflexivity ]. }
  destruct Shape as (c & st & b & rest & R & Fresh).
  destruct (observe _ _ _ _ _ _ R) as (I & C & _ & _).
  rewrite I, C. cbn [loading with_loading results error].
  repeat split.
  - eauto.
  - exists (opening ++ rest). now rewrite <- app_assoc.
  - intros Err. destruct Fresh as [N | (E & _)]; [ exact N | ].
    rewrite E in Err. discriminate Err.
  - destruct Fresh as [N | (_ & n & r & Hin & Ans)]; [ now left | right ].
    exists n, r. split; [ | exact Ans ].
    apply in_or_app. right. apply in_or_app. now left.
Qed.

(** ** The anti-forgery token *)

Lemma token_request_is_fetch (b : Browser) : is_token_fetch (token_request b) = true.
Proof. reflexivity. Qed.

Lemma quick_post_is_post {rt : JsRuntime} (s : State) (b : Browser) :
  is_post (quick_post s b) = true /\ is_token_fetch (quick_post s b) = false
  /\ url (quick_post s b) = quick_check_url /\ withCredentials (quick_post s b) = true.
Proof. repeat split. Qed.

Lemma requests_settle (failure : JsError -> JsVal) (answer : HttpResult) (evs : list Event) :
  requests (settle failure answer ++ evs) = requests evs.
Proof. destruct answer; reflexivity. Qed.


(** What stays in the axios defaults once a header has been set. *)
Lemma lookup_set_header (k : string) (v : JsVal) (h : list (string * JsVal)) :
  lookup k (Axios.set_header k v h) = v.
Proof.
  induction h as [ | [k' v'] h IH]; cbn.
  - now rewrite String.eqb_refl.
  - destruct (String.eqb k k') eqn:E; cbn.
    + now rewrite String.eqb_refl.
    + now rewrite E.
Qed.




(** ** The ranking requests *)

Lemma quick_post_body {rt : JsRuntime} (s : State) (b : Browser) :
  truthy (businessName (formData s)) = true ->
  body (quick_post s b) = Some (quick_check_wire (formData s)).
Proof.
  intros N. unfold quick_post, Axios.outgoing, quick_check_data, quick_check_wire.
  cbn [body option_map]. f_equal. unfold or_else.
  destruct (businessName (formData s)); try discriminate N;
    destruct (truthy (targetDomain (formData s))) eqn:D;
    try reflexivity;
    destruct (targetDomain (formData s)); try discriminate D; reflexivity.
Qed.

Lemma quick_check_wire_keys {rt : JsRuntime} (fd : FormData) :
  keys (quick_check_wire fd)
  = ["business_name"; "business_lat"; "business_lng"]
    ++ (if truthy (targetDomain fd) then ["target_domain"] else []).
Proof. unfold quick_check_wire. destruct (truthy (targetDomain fd)); reflexivity. Qed.

(** C8, as the code has it. A validated quick-check submission sends the
    ranking POST exactly when the user is authenticated and a token is
    in the closure or is obtained by the token request, and then sends
    it once; otherwise it sends none. The POST goes to the quick-check
    endpoint; its serialized body holds [business_name], [business_lat]
    and [business_lng], the last two being [parseFloat] of the fields,
    and holds [target_domain] if and only if that field is not the empty
    string (not falsy). *)
Theorem quick_check_posts_once
    {rt : JsRuntime} (env : Env) (p : Props) (s : State) (w : World State) :
  required_filled (formData s) = true ->
  let m := handleQuickCheck env p s in
  let token := token_of (env (sent w) (token_request (browser w))) in
  let ready := isAuthenticated p && (truthy (csrfToken s) || truthy token) in
  (ready = false -> posts (issued m w) = [])
  /\ (ready = true ->
      exists post,
        posts (issued m w) = [post]
        /\ url post = quick_check_url
        /\ body post = Some (quick_check_wire (formData s))
        /\ keys (quick_check_wire (formData s))
           = ["business_name"; "business_lat"; "business_lng"]
             ++ (if truthy (targetDomain (formData s)) then ["target_domain"] else [])).
Proof.
  intros G m token ready. subst m ready token.
  assert (N : truthy (businessName (formData s)) = true).
  { unfold required_filled in G. apply andb_prop in G as (G & _).
    apply andb_prop in G as (G & _). exact G. }
  destruct (quick_paths env p s w) as [U | U T | U T F | U T F];
    rewrite U; try rewrite T; try rewrite F; cbn [andb orb].
  - destruct (observe _ _ _ _ _ _ (turned_away_log env QuickTab p s w G U)) as (I & _).
    cbn [onSubmit] in I. rewrite I. split; [ reflexivity | discriminate ].
  - destruct (observe _ _ _ _ _ _ (quick_run_cached env p s w G U T)) as (I & _).
    rewrite I. split; [ discriminate | intros _ ].
    exists (quick_post s (browser w)). unfold posts. cbn. rewrite requests_settle.
    repeat split.
    + apply quick_post_body, N.
    + apply quick_check_wire_keys.
  - destruct (observe _ _ _ _ _ _ (quick_run_no_token env p s w G U T F)) as (I & _).
    rewrite I. split; [ reflexivity | discriminate ].
  - pose proof (quick_run_fetched env p s w G U T F) as R. cbn zeta in R.
    destruct (observe _ _ _ _ _ _ R) as (I & _).
    rewrite I. split; [ discriminate | intros _ ].
    eexists. unfold posts. cbn. rewrite requests_settle.
    repeat split.
    + apply quick_post_body, N.
    + apply quick_check_wire_keys.
Qed.

(** ** Credentials and the anti-forgery header *)

Lemma lookup_set_other (k k' : string) (v : JsVal) (h : list (string * JsVal)) :
  String.eqb k k' = false ->
  lookup k (Axios.set_header k' v h) = lookup k h.
Proof.
  intros D. induction h as [ | [k0 v0] h IH]; cbn.
  - now rewrite D.
  - destruct (String.eqb k' k0) eqn:E; cbn.
    + apply String.eqb_eq in E. subst k0. now rewrite D.
    + destruct (String.eqb k k0); [ reflexivity | exact IH ].
Qed.

Lemma lookup_sendable (k : string) (h : list (string * JsVal)) :
  truthy (lookup k h) = true ->
  lookup k (filter Axios.sendable h) = lookup k h.
Proof.
  induction h as [ | [k0 v0] h IH]; cbn; [ discriminate | ].
  destruct (String.eqb k k0) eqn:E.
  - intros T. assert (Sd : Axios.sendable (k0, v0) = true)
      by (destruct v0 as [ | | [] | | | | ]; try discriminate T; reflexivity).
    rewrite Sd. cbn. now rewrite E.
  - intros T. destruct (Axios.sendable (k0, v0)); cbn; [ rewrite E | ]; auto.
Qed.

Lemma lookup_absent (k : string) (h : list (string * JsVal)) :
  existsb (fun kv => String.eqb k (fst kv)) h = false ->
  lookup k (filter Axios.sendable h) = JUndefined.
Proof.
  induction h as [ | [k0 v0] h IH]; cbn; [ reflexivity | ].
  intros A. apply orb_false_elim in A as (E & A).
  destruct (Axios.sendable (k0, v0)); cbn; [ rewrite E | ]; auto.
Qed.

Lemma existsb_set_other (k k' : string) (v : JsVal) (h : list (string * JsVal)) :
  String.eqb k k' = false ->
  existsb (fun kv => String.eqb k (fst kv)) (Axios.set_header k' v h)
  = existsb (fun kv => String.eqb k (fst kv)) h.
Proof.
  intros D. induction h as [ | [k0 v0] h IH]; cbn.
  - now rewrite D.
  - destruct (String.eqb k' k0) eqn:E; cbn.
    + apply String.eqb_eq in E. subst k0. now rewrite D.
    + now rewrite IH.
Qed.

(** The quick request is sent with credentials, and with a token in its
    [X-CSRFToken] header whenever the closure or the axios defaults hold
    one; it is sent in no other situation (see [quick_run_cached] and
    [quick_run_fetched]). *)
Lemma quick_post_is_signed {rt : JsRuntime} (s : State) (b : Browser) :
  truthy (or_else (csrfToken s) (lookup "X-CSRFToken" (axios_common b))) = true ->
  withCredentials (quick_post s b) = true
  /\ truthy (header "X-CSRFToken" (quick_post s b)) = true.
Proof.
  intros T. split; [ reflexivity | ].
  unfold header, quick_post, Axios.outgoing, quick_check_config.
  cbn [headers cfg_headers Axios.merge_headers fold_left fst snd].
  set (v := or_else _ _) in *.
  set (merged := Axios.set_header "X-Requested-With" _ _).
  assert (M : lookup "X-CSRFToken" merged = v).
  { subst merged. rewrite lookup_set_other by reflexivity. apply lookup_set_header. }
  destruct (Axios.read_cookie Axios.xsrfCookieName (cookies b)) as [c | ].
  - destruct (is_empty c) eqn:Ec.
    + rewrite lookup_sendable; rewrite M; exact T.
    + assert (C : lookup "X-CSRFToken"
                    (Axios.set_header Axios.xsrfHeaderName (JStr c) merged) = JStr c)
        by apply lookup_set_header.
      rewrite lookup_sendable; rewrite C; cbn; now rewrite Ec.
  - rewrite lookup_sendable; rewrite M; exact T.
Qed.

(** The advanced request is sent with credentials; the handler adds no
    token of its own, so the header is there only if the axios defaults
    or the XSRF cookie bring one. *)
Lemma grid_post_is_unsigned {rt : JsRuntime} (s : State) (b : Browser) :
  existsb (fun kv => String.eqb "X-CSRFToken" (fst kv)) (axios_common b) = false ->
  Axios.read_cookie Axios.xsrfCookieName (cookies b) = None ->
  withCredentials (grid_post s b) = true
  /\ header "X-CSRFToken" (grid_post s b) = JUndefined.
Proof.
  intros A C. split; [ reflexivity | ].
  unfold header, grid_post, Axios.outgoing, grid_check_config.
  cbn [headers cfg_headers Axios.merge_headers fold_left fst snd].
  rewrite C. apply lookup_absent.
  rewrite existsb_set_other by reflexivity. exact A.
Qed.

(** C3, at the input where the code departs from it. The user is logged
    in, the form is filled in, and the component holds no token (the
    request made on mount has failed): the browser has no token in the
    axios defaults and no XSRF cookie. The advanced handler sends its
    POST all the same, with credentials and without an [X-CSRFToken]
    header. The quick handler, in the same situation, first fetches a
    token and sends it in the header. *)
Theorem advanced_check_goes_out_unsigned :
  (exists post,
     requests (issued (handleAdvancedCheck (rt := Samples.host) Samples.friendly Samples.logged_in
                         (Samples.with_form Samples.pizza_form JNull))
                 (Samples.at_grid Samples.pizza_form JNull))
     = [post]
     /\ url post = grid_check_url
     /\ withCredentials post = true
     /\ header "X-CSRFToken" post = JUndefined)
  /\ (exists fetch post,
        requests (issued (handleQuickCheck (rt := Samples.host) Samples.friendly Samples.logged_in
                            (Samples.with_form Samples.pizza_form JNull))
                    (Samples.at_grid Samples.pizza_form JNull))
        = [fetch; post]
        /\ url fetch = csrf_url
        /\ url post = quick_check_url
        /\ withCredentials post = true
        /\ header "X-CSRFToken" post = JStr "tok-1").
Proof.
  split.
  - eexists. split; [ vm_compute; reflexivity | ]. repeat split.
  - eexists _, _. split; [ vm_compute; reflexivity | ]. repeat split.
Qed.

(** ** The handlers at work on the pizza form *)

(** C2 at work: the latitude is empty, nothing is sent. *)
Lemma missing_latitude_is_stopped :
  truthy (businessLat (formData (Samples.with_form Samples.no_latitude JNull))) = false
  /\ issued (onSubmit (rt := Samples.host) Samples.friendly QuickTab Samples.logged_in
               (Samples.with_form Samples.no_latitude JNull))
       (Samples.at_grid Samples.no_latitude JNull)
     = [EvPreventDefault; EvSetState "error" fill_in_message].
Proof.
  split; [ reflexivity | ].
  refine (proj1 (proj2 (missing_field_stops_before_network (rt := Samples.host)
            Samples.friendly QuickTab Samples.logged_in
            (Samples.with_form Samples.no_latitude JNull)
            (Samples.at_grid Samples.no_latitude JNull) _))).
  right; left; reflexivity.
Defined.

(** C7 at work: a logged-out user submits the advanced form. *)
Lemma logged_out_user_is_redirected :
  required_filled (formData (Samples.with_form Samples.pizza_form JNull)) = true
  /\ isAuthenticated Samples.logged_out = false
  /\ issued (onSubmit (rt := Samples.host) Samples.friendly AdvancedTab Samples.logged_out
               (Samples.with_form Samples.pizza_form JNull))
       (Samples.at_grid Samples.pizza_form JNull)
     = turned_away.
Proof.
  split; [ reflexivity | ]. split; [ reflexivity | ].
  refine (proj1 (unauthenticated_submission_redirects (rt := Samples.host)
            Samples.friendly AdvancedTab Samples.logged_out
            (Samples.with_form Samples.pizza_form JNull)
            (Samples.at_grid Samples.pizza_form JNull) _ _)); reflexivity.
Defined.

(** C10 at work: the server is away, the quick form is submitted. *)
Lemma failed_submission_ends_idle :
  required_filled (formData (Samples.with_form Samples.pizza_form (JStr "tok-0"))) = true
  /\ loading (comp (after (onSubmit (rt := Samples.host) Samples.offline QuickTab
                             Samples.logged_in
                             (Samples.with_form Samples.pizza_form (JStr "tok-0")))
                      (Samples.at_grid Samples.pizza_form (JStr "tok-0"))))
     = false.
Proof.
  split; [ reflexivity | ].
  refine (proj1 (proj2 (proj2 (proj2 (validated_submission_resets_display
            (rt := Samples.host) Samples.offline QuickTab Samples.logged_in
            (Samples.with_form Samples.pizza_form (JStr "tok-0"))
            (Samples.at_grid Samples.pizza_form (JStr "tok-0")) _))))).
  reflexivity.
Defined.


(** C8 as stated fails: a validated quick-check submission whose token
    request fails issues no POST. *)
Lemma offline_submission_posts_nothing :
  ~ (required_filled (formData (Samples.with_form Samples.pizza_form JNull)) = true ->
     List.length
       (posts
          (issued (handleQuickCheck (rt := Samples.host) Samples.offline Samples.logged_in
                     (Samples.with_form Samples.pizza_form JNull))
             (Samples.at_grid Samples.pizza_form JNull)))
     = 1).
Proof.
  intros H. specialize (H eq_refl). vm_compute in H. discriminate H.
Qed.

(** C8 at work: the spec's example, target domain left blank. *)
Lemma pizza_place_is_posted_once :
  required_filled (formData (Samples.with_form Samples.pizza_form JNull)) = true
  /\ exists post,
       posts (issued (handleQuickCheck (rt := Samples.host) Samples.friendly Samples.logged_in
                        (Samples.with_form Samples.pizza_form JNull))
                (Samples.at_grid Samples.pizza_form JNull))
       = [post]
       /\ url post = quick_check_url
       /\ body post
          = Some (JObj [("business_name", JStr "Pizza Place");
                        ("business_lat", JNum 40.689199);
                        ("business_lng", JNum (-73.975035))]).
Proof.
  split; [ reflexivity | ].
  destruct (proj2 (quick_check_posts_once (rt := Samples.host)
              Samples.friendly Samples.logged_in
              (Samples.with_form Samples.pizza_form JNull)
              (Samples.at_grid Samples.pizza_form JNull) eq_refl) eq_refl)
    as (post & P & U & B & _).
  exists post. split; [ exact P | ]. split; [ exact U | ].
  rewrite B. vm_compute. reflexivity.
Defined.

(** ** The token on mount, and the form fields *)

(** The request the component makes when it mounts: a token in the
    answer ends up in the state and in the axios defaults; without one,
    state and defaults stay as they were. *)
Lemma mount_caches_token (env : Env) (w : World State) :
  let token := token_of (env (sent w) (token_request (browser w))) in
  let w' := after (getCsrfToken env) w in
  requests (issued (getCsrfToken env) w) = [token_request (browser w)]
  /\ (truthy token = true ->
      csrfToken (comp w') = token
      /\ lookup "X-CSRFToken" (axios_common (browser w')) = token)
  /\ (truthy token = false ->
      comp w' = comp w /\ browser w' = browser w).
Proof.
  intros token w'. subst token w'.
  assert (R : exists c st b evs,
             getCsrfToken env w
             = (c, {| comp := st; browser := b;
                      log := rev (EvRequest (token_request (browser w)) :: evs) ++ log w |})
             /\ requests evs = []
             /\ (truthy (token_of (env (sent w) (token_request (browser w)))) = true ->
                 csrfToken st = token_of (env (sent w) (token_request (browser w)))
                 /\ lookup "X-CSRFToken" (axios_common b)
                    = token_of (env (sent w) (token_request (browser w))))
             /\ (truthy (token_of (env (sent w) (token_request (browser w)))) = false ->
                 st = comp w /\ b = browser w)).
  { unfold getCsrfToken. step_run. unfold sent, token_request, token_of, get_opt.
    destruct (env _ _) as [data | e].
    - destruct (nullish data) eqn:N; cbn.
      + eexists _, _, _, []. repeat split; discriminate.
      + destruct (truthy (Js.get data "csrfToken")) eqn:F; cbn.
        * eexists _, _, _, [_; _]. repeat split; try discriminate.
          apply lookup_set_header.
        * eexists _, _, _, []. repeat split; discriminate.
    - eexists _, _, _, []. repeat split; discriminate. }
  destruct R as (c & st & b & evs & R & Q & Yes & No).
  destruct (observe _ _ _ _ _ _ R) as (I & C & B & _).
  rewrite I, C, B. cbn. rewrite Q. auto.
Qed.

(** What a number input stores: the empty string, or a number that is
    neither zero nor NaN. *)
Lemma number_field_is_empty_or_truthy {rt : JsRuntime} (value : string) :
  let stored := or_else (JNum (parseFloat (JStr value))) (JStr "") in
  stored = JStr "" \/ (stored = JNum (parseFloat (JStr value)) /\ truthy stored = true).
Proof.
  cbn zeta. unfold or_else.
  destruct (truthy (JNum (parseFloat (JStr value)))) eqn:T; auto.
Qed.

(** So a latitude of 0 is stored as the empty string, and the form does
    not pass validation. *)
Example latitude_zero_counts_as_missing :
  required_filled
    (formData
       (comp (after (handleInputChange (rt := Samples.host) "businessLat" "0" "number")
                (Samples.at_grid Samples.pizza_form JNull))))
  = false.
Proof. reflexivity. Qed.

(** A server that answers the token request without a token: the quick
    handler stops there. *)
Example tokenless_server_stops_quick_check :
  requests
    (issued (handleQuickCheck (rt := Samples.host) Samples.tokenless Samples.logged_in
               (Samples.with_form Samples.pizza_form JNull))
       (Samples.at_grid Samples.pizza_form JNull))
  = [token_request (Samples.fresh_browser "/local-ranking-grid")]
  /\ error (comp (after (handleQuickCheck (rt := Samples.host) Samples.tokenless
                           Samples.logged_in
                           (Samples.with_form Samples.pizza_form JNull))
                    (Samples.at_grid Samples.pizza_form JNull)))
     = refresh_message.
Proof. split; reflexivity. Qed.

(** ** The rank grid *)

Lemma render_cells_readable (cells : list JsVal) :
  readable cells = true -> render_cells cells = Ok (List.map cell_view cells).
Proof.
  induction cells as [ | cell cells IH]; [ reflexivity | ].
  change (readable (cell :: cells))
    with (negb (nullish cell) && converts (Js.get cell "task_id") && readable cells).
  intros R. apply andb_prop in R as (Rc & Rs). apply andb_prop in Rc as (Rn & Rk).
  cbn [render_cells List.map]. unfold render_cell.
  destruct (nullish cell); [ discriminate Rn | ]. rewrite Rk. cbn [negb].
  now rewrite (IH Rs).
Qed.

Lemma render_cells_renders (cells : list JsVal) :
  renders (render_cells cells) = readable cells.
Proof.
  induction cells as [ | cell cells IH]; [ reflexivity | ].
  change (readable (cell :: cells))
    with (negb (nullish cell) && converts (Js.get cell "task_id") && readable cells).
  cbn [render_cells]. unfold render_cell.
  destruct (nullish cell); cbn [negb andb]; [ reflexivity | ].
  destruct (converts (Js.get cell "task_id")); cbn [negb andb]; [ | reflexivity ].
  rewrite <- IH. destruct (render_cells cells); reflexivity.
Qed.

Lemma map_each_renders {A B : Type} (f : A -> Outcome B) (g : A -> bool) (items : list A) :
  (forall x, renders (f x) = g x) ->
  renders (map_each f items) = forallb g items.
Proof.
  intros F. induction items as [ | x items IH]; cbn; [ reflexivity | ].
  rewrite <- F. destruct (f x); cbn; [ | reflexivity ].
  rewrite <- IH. destruct (map_each f items); reflexivity.
Qed.

(** What the grid block comes to when it can be built. *)
Lemma rank_grid_slot_built {rt : JsRuntime} (grid_parameters rank_map : JsVal)
    (slot : Slot RankGrid) :
  rank_grid_slot grid_parameters rank_map = Ok slot ->
  if truthy rank_map && has_positive_length rank_map
  then exists cells,
         rank_map = JArr cells
         /\ cells <> []
         /\ readable cells = true
         /\ slot = Shown {| grid_columns := or_else (get_opt grid_parameters "size") (JNum 3);
                            grid_cells := List.map cell_view cells |}
  else slot = Bare (if truthy rank_map then JBool false else rank_map).
Proof.
  unfold rank_grid_slot.
  destruct (truthy rank_map) eqn:T; cbn [negb andb]; [ | intros [= <-]; reflexivity ].
  destruct (length_converts rank_map); cbn [negb]; [ | discriminate ].
  destruct (has_positive_length rank_map) eqn:P; cbn [negb]; [ | intros [= <-]; reflexivity ].
  destruct (converts _); cbn [negb]; [ | discriminate ].
  destruct rank_map as [ | | | | | cells | ]; try discriminate.
  pose proof (render_cells_renders cells) as R.
  destruct (render_cells cells) as [ rcs | ] eqn:E; cbn [and_then renders] in *;
    [ | discriminate ].
  symmetry in R. rewrite (render_cells_readable cells R) in E. injection E as <-.
  intros [= <-]. exists cells. repeat split; try assumption.
  intros ->. discriminate P.
Qed.

Lemma rank_grid_slot_renders {rt : JsRuntime} (results : JsVal) :
  renders (rank_grid_slot (Js.get results "grid_parameters") (Js.get results "rank_map"))
  = grid_readable results.
Proof.
  unfold rank_grid_slot, grid_readable, columns_of.
  destruct (truthy (Js.get results "rank_map")); cbn [negb orb]; [ | reflexivity ].
  destruct (length_converts _); cbn [negb andb]; [ | reflexivity ].
  destruct (has_positive_length _); cbn [negb orb]; [ | reflexivity ].
  destruct (converts _); cbn [negb andb]; [ | reflexivity ].
  destruct (Js.get results "rank_map") as [ | | | | | cells | ]; try reflexivity.
  rewrite <- render_cells_renders. destruct (render_cells cells); reflexivity.
Qed.

Lemma timing_slot_renders {rt : JsRuntime} {mt : JsMath} (results : JsVal) :
  renders (timing_slot (Js.get results "metadata")) = timing_readable results.
Proof.
  unfold timing_slot, timing_readable.
  destruct (truthy _); cbn [negb orb]; [ | reflexivity ].
  destruct (converts _); reflexivity.
Qed.

Lemma entries_slot_renders {rt : JsRuntime} {A : Type}
    (card : string * JsVal -> Outcome A) (tasks : JsVal) :
  (forall entry, renders (card entry) = not_nullish (snd entry)) ->
  renders (entries_slot card tasks) = values_readable tasks.
Proof.
  intros C. unfold entries_slot, values_readable.
  destruct (truthy tasks); cbn [negb orb]; [ | reflexivity ].
  destruct (entries tasks) as [ | entry listed ] eqn:E; [ reflexivity | ].
  rewrite <- (map_each_renders card _ (entry :: listed) C).
  destruct (map_each card (entry :: listed)); reflexivity.
Qed.

Lemma completed_task_renders (entry : string * JsVal) :
  renders (completed_task entry) = not_nullish (snd entry).
Proof.
  destruct entry as [taskId data]. unfold completed_task, not_nullish. cbn [snd].
  destruct (nullish data); reflexivity.
Qed.

Lemma failed_task_renders (entry : string * JsVal) :
  renders (failed_task entry) = not_nullish (snd entry).
Proof.
  destruct entry as [taskId data]. unfold failed_task, not_nullish. cbn [snd].
  destruct (nullish data); reflexivity.
Qed.

Lemma pending_slot_renders {rt : JsRuntime} (pending : JsVal) :
  renders (pending_slot pending) = ids_readable pending.
Proof.
  unfold pending_slot, ids_readable.
  destruct (truthy pending); cbn [negb orb]; [ | reflexivity ].
  destruct (length_converts pending); cbn [negb andb]; [ | reflexivity ].
  destruct (has_positive_length pending); cbn [negb orb]; [ | reflexivity ].
  destruct pending as [ | | | | | ids | ]; try reflexivity.
  assert (F : forall id, renders (pending_task id) = is_text id) by (intros []; reflexivity).
  rewrite <- (map_each_renders pending_task _ ids F).
  destruct (map_each pending_task ids); reflexivity.
Qed.

(** [renderResults] on results that are not falsy: the five blocks that
    can throw, in the order they are evaluated. *)
Lemma render_blocks {rt : JsRuntime} {mt : JsMath} (results : JsVal) :
  truthy results = true ->
  exists build,
    renderResults results
    = and_then (timing_slot (Js.get results "metadata"))
        (fun timing =>
         and_then (rank_grid_slot (Js.get results "grid_parameters")
                     (Js.get results "rank_map"))
           (fun cells =>
            and_then (entries_slot completed_task
                        (get_opt (Js.get results "results") "completed"))
              (fun completed =>
               and_then (entries_slot failed_task
                           (get_opt (Js.get results "results") "failed"))
                 (fun failed =>
                  and_then (pending_slot (get_opt (Js.get results "results") "pending"))
                    (fun pending =>
                     Ok (Some (build timing cells completed failed pending)))))))
    /\ forall timing cells completed failed pending,
         rank_grid (build timing cells completed failed pending) = cells.
Proof.
  intros T. unfold renderResults. rewrite T. cbn [negb].
  eexists (fun timing cells completed failed pending => _). split; [ reflexivity | ].
  reflexivity.
Qed.

(** When [renderResults] builds the section. *)
Lemma render_results_renders {rt : JsRuntime} {mt : JsMath} (results : JsVal) :
  truthy results = true ->
  renders (renderResults results) = results_readable results.
Proof.
  intros T. destruct (render_blocks results T) as (build & -> & _).
  unfold results_readable, tasks_readable.
  rewrite <- timing_slot_renders, <- rank_grid_slot_renders.
  rewrite <- (entries_slot_renders completed_task _ completed_task_renders).
  rewrite <- (entries_slot_renders failed_task _ failed_task_renders).
  rewrite <- pending_slot_renders.
  destruct (timing_slot _); cbn [and_then renders andb]; [ | reflexivity ].
  destruct (rank_grid_slot _ _); cbn [and_then renders andb]; [ | reflexivity ].
  destruct (entries_slot completed_task _); cbn [and_then renders andb]; [ | reflexivity ].
  destruct (entries_slot failed_task _); cbn [and_then renders andb]; [ | reflexivity ].
  destruct (pending_slot _); reflexivity.
Qed.

(** Results that can be read are rendered. *)
Lemma readable_results_render {rt : JsRuntime} {mt : JsMath} (results : JsVal) :
  truthy results = true ->
  results_readable results = true ->
  exists section, renderResults results = Ok (Some section).
Proof.
  intros T B. rewrite <- (render_results_renders results T) in B.
  destruct (render_blocks results T) as (build & E & _). rewrite E in *.
  repeat match type of B with
         | renders (and_then ?o _) = _ => destruct o; cbn [and_then] in *
         end; try discriminate B.
  eexists. reflexivity.
Qed.

(** The rank grid of a section that was built. *)
Lemma rendered_rank_grid {rt : JsRuntime} {mt : JsMath}
    (results : JsVal) (section : ResultsSection) :
  renderResults results = Ok (Some section) ->
  truthy results = true
  /\ rank_grid_slot (Js.get results "grid_parameters") (Js.get results "rank_map")
     = Ok (rank_grid section).
Proof.
  intros R. destruct (truthy results) eqn:T;
    [ | unfold renderResults in R; rewrite T in R; discriminate R ].
  split; [ reflexivity | ].
  destruct (render_blocks results T) as (build & E & G). rewrite E in R.
  destruct (timing_slot _) as [ timing | ]; cbn [and_then] in R; [ | discriminate R ].
  destruct (rank_grid_slot _ _) as [ cells | ]; cbn [and_then] in R; [ | discriminate R ].
  destruct (entries_slot completed_task _) as [ completed | ]; cbn [and_then] in R;
    [ | discriminate R ].
  destruct (entries_slot failed_task _) as [ failed | ]; cbn [and_then] in R;
    [ | discriminate R ].
  destruct (pending_slot _) as [ pending | ]; cbn [and_then] in R; [ | discriminate R ].
  injection R as <-. now rewrite G.
Qed.

(** Another [grid_parameters] leaves the other things read from the
    results as they were. *)
Lemma with_grid_parameters_reads (grid_parameters results : JsVal) :
  Js.get (with_grid_parameters grid_parameters results) "rank_map" = Js.get results "rank_map"
  /\ Js.get (with_grid_parameters grid_parameters results) "results" = Js.get results "results"
  /\ Js.get (with_grid_parameters grid_parameters results) "metadata"
     = Js.get results "metadata"
  /\ truthy (with_grid_parameters grid_parameters results) = truthy results.
Proof.
  destruct results; repeat split; reflexivity.
Qed.

(** C1, as the code has it. Whenever [renderResults] builds the results
    section, the rank grid in it has one cell per entry of [rank_map],
    whatever [grid_parameters.size] says; the size (3 when it is absent
    or falsy) only sets the number of columns. A [rank_map] that is falsy
    or has no positive length gives no grid. For results that are not
    falsy the section is built exactly when the timing, [rank_map] and
    the three task lists can be read. The size plays no part in that
    beyond being written into the style: with another [grid_parameters],
    its size like the old one a value that converts to a string, the
    function throws on the same results and shows the same cells. *)
Theorem rank_grid_has_one_cell_per_entry
    {rt : JsRuntime} {mt : JsMath} (results : JsVal) :
  (forall section,
     renderResults results = Ok (Some section) ->
     if truthy (Js.get results "rank_map") && has_positive_length (Js.get results "rank_map")
     then exists cells grid,
            Js.get results "rank_map" = JArr cells
            /\ rank_grid section = Shown grid
            /\ List.length (grid_cells grid) = List.length cells
            /\ grid_columns grid = columns_of results
     else shown_cells section = None)
  /\ (truthy results = true ->
      renders (renderResults results) = results_readable results)
  /\ (forall grid_parameters,
        converts (columns_of results) = true ->
        converts (columns_of (with_grid_parameters grid_parameters results)) = true ->
        renders (renderResults (with_grid_parameters grid_parameters results))
        = renders (renderResults results)
        /\ forall section section',
             renderResults results = Ok (Some section) ->
             renderResults (with_grid_parameters grid_parameters results) = Ok (Some section') ->
             shown_cells section' = shown_cells section).
Proof.
  split; [ | split ].
  - intros section R. apply rendered_rank_grid in R as (_ & G).
    apply rank_grid_slot_built in G.
    destruct (truthy (Js.get results "rank_map") && has_positive_length (Js.get results "rank_map")).
    + destruct G as (cells & E & _ & _ & S). eexists cells, _.
      split; [ exact E | ]. split; [ exact S | ].
      split; [ apply length_map | reflexivity ].
    + unfold shown_cells. now rewrite G.
  - apply render_results_renders.
  - intros grid_parameters K K'.
    destruct (with_grid_parameters_reads grid_parameters results) as (Erm & Ers & Em & Et).
    split.
    + destruct (truthy results) eqn:T.
      * rewrite !render_results_renders by congruence.
        unfold results_readable, timing_readable, grid_readable, tasks_readable.
        now rewrite Erm, Ers, Em, K, K'.
      * unfold renderResults. now rewrite Et, T.
    + intros section section' R R'.
      apply rendered_rank_grid in R as (_ & G). apply rendered_rank_grid in R' as (_ & G').
      rewrite Erm in G'.
      apply rank_grid_slot_built in G. apply rank_grid_slot_built in G'.
      unfold shown_cells.
      destruct (truthy (Js.get results "rank_map") && has_positive_length (Js.get results "rank_map")).
      * destruct G as (cells & E & _ & _ & ->). destruct G' as (cells' & E' & _ & _ & ->).
        rewrite E in E'. injection E' as <-. reflexivity.
      * now rewrite G, G'.
Qed.

(** C1 as stated fails: the result announces a 4x4 grid and delivers
    three entries; three cells are rendered, not sixteen. *)
Lemma sixteen_announced_three_rendered :
  Js.get (Js.get Samples.three_cells "grid_parameters") "size" = JNum 4
  /\ (exists section,
        renderResults (rt := Samples.host) (mt := ResultsSamples.rounding) Samples.three_cells
        = Ok (Some section)
        /\ option_map (@List.length RankCell) (shown_cells section) = Some 3)
  /\ ~ (exists section,
          renderResults (rt := Samples.host) (mt := ResultsSamples.rounding) Samples.three_cells
          = Ok (Some section)
          /\ option_map (@List.length RankCell) (shown_cells section) = Some (4 * 4)).
Proof.
  split; [ reflexivity | ]. split.
  - eexists. split; reflexivity.
  - intros (section & R & N). vm_compute in R. inversion R; subst section.
    discriminate N.
Qed.

(** C1 at work: the same result with its task lists, read through the
    theorem. *)
Lemma three_entries_three_cells :
  exists section cells grid,
    renderResults (rt := Samples.host) (mt := ResultsSamples.rounding)
      ResultsSamples.three_cells_listed = Ok (Some section)
    /\ Js.get ResultsSamples.three_cells_listed "rank_map" = JArr cells
    /\ rank_grid section = Shown grid
    /\ List.length (grid_cells grid) = List.length cells
    /\ List.length cells = 3
    /\ grid_columns grid = JNum 4.
Proof.
  destruct (renderResults (rt := Samples.host) (mt := ResultsSamples.rounding)
              ResultsSamples.three_cells_listed) as [ [ section | ] | ] eqn:R;
    try (vm_compute in R; discriminate R).
  destruct (proj1 (rank_grid_has_one_cell_per_entry (rt := Samples.host)
                     (mt := ResultsSamples.rounding) ResultsSamples.three_cells_listed)
              section R) as (cells & grid & E & S & L & C).
  exists section, cells, grid. repeat split; try assumption.
  injection E as <-. reflexivity.
Defined.

(** C9. In results whose [rank_map] is a non-empty array, the section
    is built when the results can be read (no cell is null or undefined,
    the task lists are well formed); and whenever the section is built,
    every cell of [rank_map] is rendered, in order: a rendered cell shows
    the cell's [rank] when that is neither null nor undefined and the
    dash otherwise, next to the cell's [status]. So a cell without rank
    whose status is "pending" shows the dash and the text "pending". *)
Theorem cells_show_rank_or_dash
    {rt : JsRuntime} {mt : JsMath} (results : JsVal) (cells : list JsVal) :
  Js.get results "rank_map" = JArr cells ->
  cells <> [] ->
  (results_readable results = true ->
   exists section, renderResults results = Ok (Some section))
  /\ forall section,
       renderResults results = Ok (Some section) ->
       exists grid,
         rank_grid section = Shown grid
         /\ Forall2
              (fun cell shown =>
                 cell_rank shown
                 = (if nullish (Js.get cell "rank") then JStr "—" else Js.get cell "rank")
                 /\ cell_status shown = Js.get cell "status")
              cells (grid_cells grid)
         /\ forall i cell,
              nth_error cells i = Some cell ->
              nullish (Js.get cell "rank") = true ->
              Js.get cell "status" = JStr "pending" ->
              exists shown,
                nth_error (grid_cells grid) i = Some shown
                /\ cell_rank shown = JStr "—"
                /\ cell_status shown = JStr "pending".
Proof.
  intros L N. split.
  - apply readable_results_render. destruct results; try discriminate L; reflexivity.
  - intros section R. apply rendered_rank_grid in R as (_ & G).
    apply rank_grid_slot_built in G. rewrite L in G.
    destruct cells as [ | c0 cells0 ] eqn:Ecells; [ now elim N | ]. rewrite <- Ecells in *.
    assert (P : truthy (JArr cells) && has_positive_length (JArr cells) = true)
      by (rewrite Ecells; reflexivity).
    rewrite P in G. destruct G as (cells' & E & _ & _ & S). injection E as <-.
    eexists. split; [ exact S | ]. cbn [grid_cells]. split.
    + clear. induction cells as [ | cell cells IH]; cbn; constructor; auto.
    + intros i cell Hi Hr Hs. exists (cell_view cell).
      split; [ now apply map_nth_error | ].
      unfold cell_view, coalesce; cbn. now rewrite Hr, Hs.
Qed.

(** C9 at work: the second and third entries are pending. *)
Lemma pending_cells_show_the_dash :
  Js.get ResultsSamples.three_cells_listed "rank_map" = JArr Samples.three_entries
  /\ Samples.three_entries <> []
  /\ results_readable (rt := Samples.host) ResultsSamples.three_cells_listed = true
  /\ exists section grid,
       renderResults (rt := Samples.host) (mt := ResultsSamples.rounding)
         ResultsSamples.three_cells_listed = Ok (Some section)
       /\ rank_grid section = Shown grid
       /\ List.map (fun shown => (cell_rank shown, cell_status shown)) (grid_cells grid)
          = [(JNum 2, JStr "completed"); (JStr "—", JStr "pending");
             (JStr "—", JStr "pending")].
Proof.
  split; [ reflexivity | ]. split; [ discriminate | ]. split; [ reflexivity | ].
  destruct (cells_show_rank_or_dash (rt := Samples.host) (mt := ResultsSamples.rounding)
              ResultsSamples.three_cells_listed Samples.three_entries
              eq_refl ltac:(discriminate))
    as (Built & Cells).
  destruct (Built eq_refl) as (section & R).
  destruct (Cells section R) as (grid & S & _ & _).
  exists section, grid. split; [ exact R | ]. split; [ exact S | ].
  vm_compute in R. injection R as <-. injection S as <-. reflexivity.
Defined.

(** ** The history effects *)

Lemma nothing_issued {S A : Type} (m : M S A) (w : World S) (c : Completion A) :
  m w = (c, w) -> issued m w = [].
Proof.
  intros R. apply issued_of_log. unfold after. rewrite R. reflexivity.
Qed.

Lemma fetch_by_name_requests
    (env : Env) (p : Props) (s : State) (w : World State) :
  requests (issued (fire_and_forget (fetchHistoryByName env p s)) w)
  = if isAuthenticated p && truthy (businessName (formData s))
    then [history_request (businessName (formData s)) (browser w)]
    else [].
Proof.
  unfold fetchHistoryByName.
  destruct (isAuthenticated p); cbn [negb orb andb];
    [ destruct (truthy (businessName (formData s))); cbn [negb] | ].
  - set (r := history_request _ _).
    assert (R : exists st evs,
               fire_and_forget
                 (try_catch
                    (data <- Axios.get env history_url
                               {| cfg_withCredentials := Some true; cfg_headers := [];
                                  cfg_params := [("business_name", businessName (formData s))] |} ;;
                     setHistory (or_else (get_opt data "results") (JArr [])))
                    (fun _ => ret tt)) w
               = (Normal tt, {| comp := st; browser := browser w;
                                log := rev (EvRequest r :: evs) ++ log w |})
               /\ requests evs = []).
    { unfold fire_and_forget. step_run. unfold setHistory. step_run.
      destruct (env _ _) eqn:E; cbn.
      - eexists _, [_]. split; reflexivity.
      - eexists _, []. split; reflexivity. }
    destruct R as (st & evs & R & Q).
    destruct (observe _ _ _ _ _ _ R) as (I & _). rewrite I. cbn. now rewrite Q.
  - now rewrite (nothing_issued _ w (Normal tt)).
  - now rewrite (nothing_issued _ w (Normal tt)).
Qed.

Lemma fetch_history_skipped
    (env : Env) (p : Props) (s : State) (w : World State) :
  isAuthenticated p = false ->
  fire_and_forget (fetchHistory env p s) w = (Normal tt, w)
  /\ fire_and_forget (fetchHistoryByName env p s) w = (Normal tt, w).
Proof.
  intros U. unfold fire_and_forget, fetchHistory, fetchHistoryByName.
  rewrite U. split; reflexivity.
Qed.

(** C6, as the code has it. While the user stays authenticated, a render
    in which the business name differs from the render before sends one
    history request, for the new name, when the new name is not empty
    (not falsy), and none when it is; a render that changes neither the
    name nor the authentication sends none. A render of an
    unauthenticated user, the first one included, sends no history
    request. *)
Theorem history_follows_business_name
    (env : Env) (prev cur : Render) (w : World State) :
  (isAuthenticated (props cur) = false ->
   forall before : option Render,
     requests (issued (history_effects env before cur) w) = [])
  /\ (isAuthenticated (props prev) = true ->
      isAuthenticated (props cur) = true ->
      same_value (name_in prev) (name_in cur) = false ->
      requests (issued (history_effects env (Some prev) cur) w)
      = if truthy (name_in cur) then [history_request (name_in cur) (browser w)] else [])
  /\ (isAuthenticated (props prev) = isAuthenticated (props cur) ->
      same_value (name_in prev) (name_in cur) = true ->
      requests (issued (history_effects env (Some prev) cur) w) = []).
Proof.
  split; [ | split ].
  - intros U before.
    destruct (fetch_history_skipped env (props cur) (state cur) w U) as (H1 & H2).
    rewrite (nothing_issued (history_effects env before cur) w (Normal tt)); [ reflexivity | ].
    unfold history_effects, bind, ret.
    destruct (effect_due _ before cur); [ rewrite H1 | ];
      (destruct (effect_due _ before cur); [ rewrite H2 | ]); reflexivity.
  - intros Up Uc D.
    pose proof (fetch_by_name_requests env (props cur) (state cur) w) as Q.
    rewrite Uc in Q. cbn [andb] in Q. unfold name_in in *.
    unfold history_effects, effect_due, same_deps, bind, ret.
    rewrite Up, Uc, D. cbn [same_value Bool.eqb andb negb].
    exact Q.
  - intros U Same.
    rewrite (nothing_issued (history_effects env (Some prev) cur) w (Normal tt));
      [ reflexivity | ].
    unfold history_effects, effect_due, same_deps, bind, ret. unfold name_in in Same.
    rewrite U, Same. cbn [same_value andb negb].
    rewrite Bool.eqb_reflx. reflexivity.
Qed.

(** C6 as stated fails: the user is logged in and empties the business
    name; the name has changed and no history request is sent. *)
Lemma cleared_name_fetches_no_history :
  isAuthenticated (props Samples.cleared_render) = true
  /\ same_value (name_in Samples.pizza_render) (name_in Samples.cleared_render) = false
  /\ requests
       (issued (history_effects Samples.friendly
                  (Some Samples.pizza_render) Samples.cleared_render)
          (Samples.at_grid Samples.pizza_form (JStr "tok-0")))
     = [].
Proof. repeat split. Qed.

(** C6 at work: the user is logged in and changes the business name. *)
Lemma renamed_business_fetches_history :
  isAuthenticated (props Samples.pizza_render) = true
  /\ isAuthenticated (props Samples.renamed_render) = true
  /\ same_value (name_in Samples.pizza_render) (name_in Samples.renamed_render) = false
  /\ requests
       (issued (history_effects Samples.friendly
                  (Some Samples.pizza_render) Samples.renamed_render)
          (Samples.at_grid Samples.pizza_form (JStr "tok-0")))
     = [history_request (JStr "Pizza Palace")
          (browser (Samples.at_grid Samples.pizza_form (JStr "tok-0")))].
Proof.
  split; [ reflexivity | ]. split; [ reflexivity | ]. split; [ reflexivity | ].
  exact (proj1 (proj2 (history_follows_business_name Samples.friendly
                         Samples.pizza_render Samples.renamed_render
                         (Samples.at_grid Samples.pizza_form (JStr "tok-0"))))
           eq_refl eq_refl eq_refl).
Defined.

(** ** Logging out *)

Ltac step_app :=
  unfold App.handleLogout, App.checkAuthStatus, App.auth_effect, App.await_while,
    App.run_callback, App.storage_clear, App.setTimeout, App.setIsAuthenticated,
    App.setUser, App.setLoading, App.setLogoutInProgress, fire_and_forget,
    try_finally, try_catch, bind, ret, returned, throw, read_browser, read_comp,
    Axios.post, Axios.get, Axios.send, member, emit, modify_comp, modify_browser;
  cbn.

(** With the flag up, [checkAuthStatus] sends nothing and forces the
    unauthenticated state. *)
Lemma suppressed_check_run (env : Env) (w : World App.State) :
  App.checkAuthStatus env true w
  = (Returned,
     {| comp := App.with_loading false
                  (App.with_user JNull (App.with_isAuthenticated false (comp w)));
        browser := browser w;
        log := rev [EvSetState "isAuthenticated" (JBool false);
                    EvSetState "user" JNull;
                    EvSetState "loading" (JBool false)] ++ log w |}).
Proof. reflexivity. Qed.

(** With the flag down, [checkAuthStatus] asks the server. *)
Lemma open_check_run (env : Env) (w : World App.State) :
  exists st evs,
    App.checkAuthStatus env false w
    = (Normal tt,
       {| comp := st; browser := browser w;
          log := rev (EvRequest (check_auth_request (browser w)) :: evs) ++ log w |})
    /\ requests evs = []
    /\ App.logoutInProgress st = App.logoutInProgress (comp w).
Proof.
  step_app. unfold check_auth_request.
  destruct (env _ _) as [data | e] eqn:E.
  - destruct (nullish data) eqn:N; cbn.
    + eexists _, [_; _; _]. repeat split.
    + destruct (truthy (Js.get data "authenticated")); cbn;
        eexists _, [_; _; _]; repeat split.
  - eexists _, [_; _; _]. repeat split.
Qed.

Lemma logout_run (env : Env) (w : World App.State) :
  exists st,
    App.handleLogout env (App.auth_effect env (Some (App.logoutInProgress (comp w)))) w
    = (Normal tt,
       {| comp := st;
          browser :=
            with_clock (now (browser w))
              (timers (browser w) ++ [(now (browser w) + 1000, AllowAuthCheck)])
              (with_sessionStorage [] (with_localStorage [] (browser w)));
          log := rev ([EvSetState "logoutInProgress" (JBool true);
                       EvSetState "isAuthenticated" (JBool false);
                       EvSetState "user" JNull;
                       EvRequest (logout_request (browser w))]
                      ++ meanwhile (App.logoutInProgress (comp w))
                      ++ [EvStorageClear LocalStorage; EvStorageClear SessionStorage;
                          EvSetTimeout 1000 AllowAuthCheck]) ++ log w |})
    /\ App.logoutInProgress st = true
    /\ App.isAuthenticated st = false.
Proof.
  step_app. unfold logout_request.
  destruct (env _ _) as [data | e]; destruct (App.logoutInProgress (comp w)); cbn;
    eexists; repeat split.
Qed.

(** Before the timer is due, a step of time changes the clock only. *)
Lemma quiet_elapse (env : Env) (t0 : nat) (w : World App.State) (dt : nat) :
  quiet t0 w ->
  now (browser w) + dt < t0 + 1000 ->
  App.elapse env dt w
  = (Normal tt,
     {| comp := comp w;
        browser := with_clock (now (browser w) + dt) (timers (browser w)) (browser w);
        log := log w |}).
Proof.
  intros (F & _ & T & _) Early.
  unfold App.elapse. step_app. rewrite T, F. cbn.
  assert (L : Nat.leb (t0 + 1000) (now (browser w) + dt) = false)
    by (apply Nat.leb_gt; exact Early).
  rewrite L. cbn. rewrite F. reflexivity.
Qed.

Lemma quiet_elapse_all (env : Env) (t0 : nat) (dts : list nat) :
  forall w : World App.State,
    quiet t0 w ->
    now (browser w) + list_sum dts < t0 + 1000 ->
    exists b,
      App.elapse_all env dts w = (Normal tt, {| comp := comp w; browser := b; log := log w |})
      /\ quiet t0 {| comp := comp w; browser := b; log := log w |}
      /\ now b = now (browser w) + list_sum dts
      /\ axios_common b = axios_common (browser w)
      /\ cookies b = cookies (browser w).
Proof.
  induction dts as [ | dt dts IH]; intros w Q Early;
    [ | change (list_sum (dt :: dts)) with (dt + list_sum dts) in * ].
  - exists (browser w). cbn. destruct w as [st b lg]. cbn.
    repeat split; try apply Q. now rewrite Nat.add_0_r.
  - cbn [App.elapse_all]. unfold bind.
    rewrite (quiet_elapse env t0 w dt Q) by lia.
    set (w1 := {| comp := comp w;
                  browser := with_clock (now (browser w) + dt) (timers (browser w)) (browser w);
                  log := log w |}).
    assert (Q1 : quiet t0 w1) by (destruct Q as (? & ? & ? & ? & ?); repeat split; assumption).
    destruct (IH w1 Q1) as (b & R & Qb & Nb & Cb & Kb); [ cbn; lia | ].
    exists b. cbn in *. repeat split; try apply Qb; try assumption.
    rewrite Nb. cbn [now with_clock]. lia.
Qed.

(** Once the timer is due, a step of time fires it: the flag goes down
    and the effect sends the check. *)
Lemma expiry_elapse (env : Env) (t0 : nat) (w : World App.State) (dt : nat) :
  quiet t0 w ->
  t0 + 1000 <= now (browser w) + dt ->
  exists st evs,
    App.elapse env dt w
    = (Normal tt,
       {| comp := st;
          browser := with_clock (now (browser w) + dt) [] (browser w);
          log := rev (EvSetState "logoutInProgress" (JBool false)
                      :: EvRequest (check_auth_request (browser w)) :: evs) ++ log w |})
    /\ requests evs = []
    /\ App.logoutInProgress st = false.
Proof.
  intros (F & _ & T & _) Late.
  unfold App.elapse, bind at 1 2 3, read_comp, read_browser, modify_browser.
  rewrite T. cbn [filter fst snd List.map negb].
  assert (L : Nat.leb (t0 + 1000) (now (browser w) + dt) = true)
    by (apply Nat.leb_le; exact Late).
  rewrite L. cbn [negb List.map snd App.run_callbacks].
  unfold bind, ret, App.run_callback, App.setLogoutInProgress, emit, modify_comp,
    App.auth_effect, read_comp, fire_and_forget. cbn. rewrite F. cbn.
  destruct (open_check_run env
              {| comp := App.with_logoutInProgress false (comp w);
                 browser := with_clock (now (browser w) + dt) [] (browser w);
                 log := EvSetState "logoutInProgress" (JBool false) :: log w |})
    as (st & evs & R & Q & Fl).
  unfold App.checkAuthStatus in R. rewrite R. cbn [snd].
  exists st, evs. split; [ | split; assumption ].
  f_equal. f_equal. cbn. rewrite <- !app_assoc. reflexivity.
Qed.

Lemma check_auth_request_reads (b b' : Browser) :
  axios_common b = axios_common b' ->
  cookies b = cookies b' ->
  check_auth_request b = check_auth_request b'.
Proof.
  intros C K. unfold check_auth_request, Axios.outgoing. now rewrite C, K.
Qed.

(** X27. The user logs out in a browser with no timer pending, and time
    passes in steps that add up to less than 1000 ms. Then both storages
    have been cleared, the flag [logoutInProgress] is up, the user is
    unauthenticated, and the only timer is the one that lowers the flag,
    due 1000 ms after the logout; the logout request is the only request
    that has gone out. An authentication check made while the flag is up
    returns at once, whatever the state it finds (also one in which a
    user has logged in meanwhile): it sends nothing and sets the
    unauthenticated state. When a further step takes the clock to 1000 ms
    or beyond, the timer fires, the flag goes down, and the effect sends
    the check. *)
Theorem logout_opens_quiet_window
    (env : Env) (w : World App.State) (dts : list nat) (dt : nat) :
  timers (browser w) = [] ->
  list_sum dts < 1000 ->
  let m := App.logout_then_wait env dts in
  let w' := after m w in
  let check := App.checkAuthStatus env (App.logoutInProgress (comp w')) in
  (localStorage (browser w') = [] /\ sessionStorage (browser w') = [])
  /\ (In (EvStorageClear LocalStorage) (issued m w)
      /\ In (EvStorageClear SessionStorage) (issued m w)
      /\ In (EvSetTimeout 1000 AllowAuthCheck) (issued m w))
  /\ quiet (now (browser w)) w'
  /\ requests (issued m w) = [logout_request (browser w)]
  /\ (forall found : App.State,
        let seen := {| comp := found; browser := browser w'; log := log w' |} in
        fst (check seen) = Returned
        /\ requests (issued check seen) = []
        /\ App.isAuthenticated (comp (after check seen)) = false
        /\ App.user (comp (after check seen)) = JNull
        /\ App.loading (comp (after check seen)) = false
        /\ browser (after check seen) = browser w')
  /\ (1000 <= list_sum dts + dt ->
      requests (issued (App.elapse env dt) w') = [check_auth_request (browser w)]
      /\ App.logoutInProgress (comp (after (App.elapse env dt) w')) = false).
Proof.
  intros T Window m w' check.
  destruct (logout_run env w) as (st & R1 & Fl & Au).
  set (w1 := {| comp := st;
                browser := with_clock (now (browser w))
                             (timers (browser w) ++ [(now (browser w) + 1000, AllowAuthCheck)])
                             (with_sessionStorage [] (with_localStorage [] (browser w)));
                log := _ |}) in R1.
  assert (Q1 : quiet (now (browser w)) w1).
  { repeat split; try assumption. cbn. now rewrite T. }
  destruct (quiet_elapse_all env (now (browser w)) dts w1 Q1) as (b & R2 & Q2 & Nb & Cb & Kb);
    [ cbn; lia | ].
  assert (R : m w = (Normal tt, {| comp := st; browser := b; log := log w1 |})).
  { subst m. unfold App.logout_then_wait, bind, read_comp. rewrite R1. exact R2. }
  destruct (observe _ _ _ _ _ _ R) as (I & C & B & _).
  assert (W : w' = {| comp := st; browser := b; log := log w1 |})
    by (subst w'; unfold after; now rewrite R).
  rewrite I. clearbody w'. subst w'. cbn [comp browser] in *.
  split; [ split; apply Q2 | ].
  split; [ destruct (App.logoutInProgress (comp w)); cbn; repeat split; auto 20 | ].
  split; [ exact Q2 | ].
  split; [ destruct (App.logoutInProgress (comp w)); reflexivity | ].
  split.
  - intros found. subst check. cbn zeta. rewrite Fl.
    match goal with
    | |- context [issued _ ?seen] => pose proof (suppressed_check_run env seen) as Rc
    end.
    destruct (observe _ _ _ _ _ _ Rc) as (Ic & Cc & Bc & Fc).
    rewrite Ic, Cc, Bc, Fc. repeat split.
  - intros Late.
    destruct (expiry_elapse env (now (browser w))
                {| comp := st; browser := b; log := log w1 |} dt Q2)
      as (st' & evs & Re & Qe & Fe);
      [ cbn [browser]; rewrite Nb; subst w1; cbn [browser now with_clock]; lia | ].
    destruct (observe _ _ _ _ _ _ Re) as (Ie & Ce & _ & _).
    rewrite Ie, Ce. cbn. rewrite Qe. split; [ | exact Fe ].
    f_equal. apply check_auth_request_reads; assumption.
Qed.

(** X27 at work: on the dashboard, the user logs out; 400 and then
    500 ms pass, and then 100 more. *)
Lemma logout_then_one_second :
  timers (browser (Samples.world_of App.initial_state (Samples.fresh_browser "/dashboard"))) = []
  /\ list_sum [400; 500] < 1000
  /\ requests
       (issued (App.logout_then_wait Samples.friendly [400; 500])
          (Samples.world_of App.initial_state (Samples.fresh_browser "/dashboard")))
     = [logout_request (Samples.fresh_browser "/dashboard")]
  /\ requests
       (issued (App.logout_then_wait Samples.friendly [400; 500; 100])
          (Samples.world_of App.initial_state (Samples.fresh_browser "/dashboard")))
     = [logout_request (Samples.fresh_browser "/dashboard");
        check_auth_request (Samples.fresh_browser "/dashboard")].
Proof.
  split; [ reflexivity | ]. split; [ cbn; lia | ].
  split; [ | vm_compute; reflexivity ].
  refine (proj1 (proj2 (proj2 (proj2 (logout_opens_quiet_window Samples.friendly
            (Samples.world_of App.initial_state (Samples.fresh_browser "/dashboard"))
            [400; 500] 100 eq_refl _))))).
  cbn; lia.
Defined.

(** C5, where the code falls short of it. The user logs out, logs in
    again 600 ms later and logs out a second time at once; the session is
    still alive on the server. The second logout clears the storages and
    raises the flag, but the timer of the first logout is still pending:
    it fires 400 ms into the second window, lowers the flag, and the
    authentication check goes out and logs the user in again, 600 ms
    before the window of the second logout is over. *)
Theorem second_logout_is_rechecked_early :
  let w0 := Samples.world_of Mounting.signed_in (Samples.fresh_browser "/dashboard") in
  let w2 := after (Scenes.logout_login_logout Mounting.lingering_session 600
                     (App.user Mounting.signed_in)) w0 in
  let recheck := App.elapse Mounting.lingering_session 400 in
  let w3 := after recheck w2 in
  (now (browser w2) = 600
   /\ App.logoutInProgress (comp w2) = true
   /\ App.isAuthenticated (comp w2) = false
   /\ localStorage (browser w2) = []
   /\ sessionStorage (browser w2) = []
   /\ timers (browser w2) = [(1000, AllowAuthCheck); (1600, AllowAuthCheck)])
  /\ now (browser w3) = 1000
  /\ requests (issued recheck w2) = [check_auth_request (browser w2)]
  /\ App.logoutInProgress (comp w3) = false
  /\ App.isAuthenticated (comp w3) = true
  /\ timers (browser w3) = [(1600, AllowAuthCheck)].
Proof.
  vm_compute. repeat split.
Qed.

(** * More of the code *)

(** ** What the two handlers never do *)

(** X1. Whatever the quick handler posts carries credentials and a token. *)
Theorem quick_check_never_posts_unsigned
    {rt : JsRuntime} (env : Env) (p : Props) (s : State) (w : World State) (r : Outgoing) :
  In r (posts (issued (handleQuickCheck env p s) w)) ->
  url r = quick_check_url
  /\ withCredentials r = true
  /\ truthy (header "X-CSRFToken" r) = true.
Proof.
  destruct (required_filled (formData s)) eqn:G.
  - destruct (quick_paths env p s w) as [U | U T | U T F | U T F].
    + destruct (observe _ _ _ _ _ _ (turned_away_log env QuickTab p s w G U)) as (I & _).
      cbn [onSubmit] in I. rewrite I. intros [].
    + destruct (observe _ _ _ _ _ _ (quick_run_cached env p s w G U T)) as (I & _).
      rewrite I. unfold posts. cbn. rewrite requests_settle. cbn.
      intros [<- | []]. split; [ reflexivity | ].
      apply quick_post_is_signed. unfold or_else. now rewrite T.
    + destruct (observe _ _ _ _ _ _ (quick_run_no_token env p s w G U T F)) as (I & _).
      rewrite I. intros [].
    + pose proof (quick_run_fetched env p s w G U T F) as R. cbn zeta in R.
      destruct (observe _ _ _ _ _ _ R) as (I & _).
      rewrite I. unfold posts. cbn. rewrite requests_settle. cbn.
      intros [<- | []]. split; [ reflexivity | ].
      apply quick_post_is_signed. unfold or_else. rewrite T.
      unfold keeping. cbn [axios_common with_common].
      rewrite lookup_set_header. exact F.
  - destruct (observe _ _ _ _ _ _ (rejected_run env QuickTab p s w G)) as (I & _).
    cbn [onSubmit] in I. rewrite I. intros [].
Qed.

Lemma pizza_post_is_signed :
  In (quick_post (rt := Samples.host) (Samples.with_form Samples.pizza_form (JStr "tok-0"))
        (Samples.fresh_browser "/local-ranking-grid"))
     (posts (issued (handleQuickCheck (rt := Samples.host) Samples.friendly Samples.logged_in
                       (Samples.with_form Samples.pizza_form (JStr "tok-0")))
               (Samples.at_grid Samples.pizza_form (JStr "tok-0"))))
  /\ truthy (header "X-CSRFToken"
               (quick_post (rt := Samples.host)
                  (Samples.with_form Samples.pizza_form (JStr "tok-0"))
                  (Samples.fresh_browser "/local-ranking-grid")))
     = true.
Proof.
  assert (H : In (quick_post (rt := Samples.host)
                    (Samples.with_form Samples.pizza_form (JStr "tok-0"))
                    (Samples.fresh_browser "/local-ranking-grid"))
                 (posts (issued (handleQuickCheck (rt := Samples.host) Samples.friendly
                                   Samples.logged_in
                                   (Samples.with_form Samples.pizza_form (JStr "tok-0")))
                           (Samples.at_grid Samples.pizza_form (JStr "tok-0")))))
    by (left; reflexivity).
  split; [ exact H | ].
  exact (proj2 (proj2 (quick_check_never_posts_unsigned (rt := Samples.host) _ _ _ _ _ H))).
Defined.

(** The requests a submission sends, path by path. *)
Lemma quick_requests
    {rt : JsRuntime} (env : Env) (p : Props) (s : State) (w : World State) :
  requests (issued (handleQuickCheck env p s) w)
  = if required_filled (formData s) && isAuthenticated p
    then if truthy (csrfToken s)
         then [quick_post s (browser w)]
         else if truthy (token_of (env (sent w) (token_request (browser w))))
              then [token_request (browser w);
                    quick_post s
                      (keeping (token_of (env (sent w) (token_request (browser w))))
                         (browser w))]
              else [token_request (browser w)]
    else [].
Proof.
  destruct (required_filled (formData s)) eqn:G; cbn [andb].
  - destruct (quick_paths env p s w) as [U | U T | U T F | U T F]; rewrite U;
      try rewrite T; try rewrite F.
    + destruct (observe _ _ _ _ _ _ (turned_away_log env QuickTab p s w G U)) as (I & _).
      cbn [onSubmit] in I. now rewrite I.
    + destruct (observe _ _ _ _ _ _ (quick_run_cached env p s w G U T)) as (I & _).
      rewrite I. cbn. now rewrite requests_settle.
    + destruct (observe _ _ _ _ _ _ (quick_run_no_token env p s w G U T F)) as (I & _).
      now rewrite I.
    + pose proof (quick_run_fetched env p s w G U T F) as R. cbn zeta in R.
      destruct (observe _ _ _ _ _ _ R) as (I & _).
      rewrite I. cbn. now rewrite requests_settle.
  - destruct (observe _ _ _ _ _ _ (rejected_run env QuickTab p s w G)) as (I & _).
    cbn [onSubmit] in I. now rewrite I.
Qed.

Lemma advanced_requests
    {rt : JsRuntime} (env : Env) (p : Props) (s : State) (w : World State) :
  requests (issued (handleAdvancedCheck env p s) w)
  = if required_filled (formData s) && isAuthenticated p
    then [grid_post s (browser w)]
    else [].
Proof.
  destruct (required_filled (formData s)) eqn:G; cbn [andb].
  - destruct (isAuthenticated p) eqn:U.
    + destruct (observe _ _ _ _ _ _ (advanced_run env p s w G U)) as (I & _).
      rewrite I. cbn. now rewrite requests_settle.
    + destruct (observe _ _ _ _ _ _ (turned_away_log env AdvancedTab p s w G U)) as (I & _).
      cbn [onSubmit] in I. now rewrite I.
  - destruct (observe _ _ _ _ _ _ (rejected_run env AdvancedTab p s w G)) as (I & _).
    cbn [onSubmit] in I. now rewrite I.
Qed.

(** X2. No retry: a submission sends at most one token request and at most
    one ranking request; the advanced handler sends nothing else. *)
Theorem submission_never_retries
    {rt : JsRuntime} (env : Env) (tab : Tab) (p : Props) (s : State) (w : World State) :
  List.length (posts (issued (onSubmit env tab p s) w)) <= 1
  /\ List.length (token_fetches (issued (onSubmit env tab p s) w)) <= 1
  /\ List.length (requests (issued (onSubmit env tab p s) w)) <= 2
  /\ List.length (requests (issued (onSubmit env AdvancedTab p s) w)) <= 1.
Proof.
  unfold posts, token_fetches. cbn [onSubmit]. rewrite advanced_requests.
  destruct tab; cbn [onSubmit]; [ rewrite quick_requests | rewrite advanced_requests ];
    destruct (required_filled (formData s) && isAuthenticated p);
    try destruct (truthy (csrfToken s));
    try destruct (truthy (token_of (env (sent w) (token_request (browser w)))));
    unfold quick_post, grid_post, token_request, Axios.outgoing; cbn; repeat split; lia.
Qed.


(** ** The advanced request *)

Lemma grid_post_body {rt : JsRuntime} (s : State) (b : Browser) :
  body (grid_post s b) = Some (grid_check_wire (formData s)).
Proof.
  unfold grid_post, Axios.outgoing, grid_check_data, grid_check_wire, kept.
  cbn [body option_map]. f_equal. unfold or_else.
  destruct (businessName (formData s)), (languageCode (formData s)), (device (formData s));
    destruct (truthy (targetDomain (formData s))) eqn:D;
    try reflexivity;
    destruct (targetDomain (formData s)); try discriminate D; reflexivity.
Qed.

(** X4. The advanced handler posts once when the fields are there and the
    user is logged in, and not at all otherwise. What it posts to the
    grid-check endpoint carries, for a form whose selects hold strings,
    the seven properties of the form, the numbers read by [parseFloat]
    and [parseInt], and [target_domain] only when that field is not
    empty. *)
Theorem advanced_check_posts_once
    {rt : JsRuntime} (env : Env) (p : Props) (s : State) (w : World State)
    (language dev : string) :
  languageCode (formData s) = JStr language ->
  device (formData s) = JStr dev ->
  posts (issued (handleAdvancedCheck env p s) w)
  = (if required_filled (formData s) && isAuthenticated p
     then [grid_post s (browser w)] else [])
  /\ url (grid_post s (browser w)) = grid_check_url
  /\ body (grid_post s (browser w)) = Some (grid_check_wire (formData s))
  /\ (required_filled (formData s) = true ->
      keys (grid_check_wire (formData s))
      = ["business_name"; "business_lat"; "business_lng"; "grid_size"; "radius_km";
         "language_code"; "device"]
        ++ (if truthy (targetDomain (formData s)) then ["target_domain"] else [])).
Proof.
  intros L D. split; [ | split; [ reflexivity | split; [ apply grid_post_body | ] ] ].
  - unfold posts. rewrite advanced_requests.
    destruct (required_filled (formData s) && isAuthenticated p); reflexivity.
  - intros G. unfold required_filled in G.
    apply andb_prop in G as (G & _). apply andb_prop in G as (N & _).
    unfold grid_check_wire, kept. rewrite L, D.
    destruct (businessName (formData s)); try discriminate N;
      destruct (truthy (targetDomain (formData s))); reflexivity.
Qed.

Lemma advanced_pizza_is_posted_once :
  languageCode (formData (Samples.with_form Samples.pizza_form JNull)) = JStr "en"
  /\ device (formData (Samples.with_form Samples.pizza_form JNull)) = JStr "desktop"
  /\ body (grid_post (rt := Samples.host) (Samples.with_form Samples.pizza_form JNull)
             (Samples.fresh_browser "/local-ranking-grid"))
     = Some (JObj [("business_name", JStr "Pizza Place");
                   ("business_lat", JNum 40.689199);
                   ("business_lng", JNum (-73.975035));
                   ("grid_size", JNum 4);
                   ("radius_km", JNum 5);
                   ("language_code", JStr "en");
                   ("device", JStr "desktop")]).
Proof.
  split; [ reflexivity | ]. split; [ reflexivity | ].
  destruct (advanced_check_posts_once (rt := Samples.host) Samples.friendly Samples.logged_in
              (Samples.with_form Samples.pizza_form JNull)
              (Samples.at_grid Samples.pizza_form JNull) "en" "desktop" eq_refl eq_refl)
    as (_ & _ & B & _).
  etransitivity; [ exact B | ]. vm_compute. reflexivity.
Defined.

(** ** The token fetched on mount is the one both handlers send *)

Lemma grid_post_signed_by_default {rt : JsRuntime} (s : State) (b : Browser) :
  truthy (lookup "X-CSRFToken" (axios_common b)) = true ->
  truthy (header "X-CSRFToken" (grid_post s b)) = true
  /\ (Axios.read_cookie Axios.xsrfCookieName (cookies b) = None ->
      header "X-CSRFToken" (grid_post s b) = lookup "X-CSRFToken" (axios_common b)).
Proof.
  intros T.
  unfold header, grid_post, Axios.outgoing, grid_check_config.
  cbn [headers cfg_headers Axios.merge_headers fold_left fst snd].
  set (merged := Axios.set_header "Content-Type" _ _).
  assert (M : lookup "X-CSRFToken" merged = lookup "X-CSRFToken" (axios_common b))
    by (subst merged; now rewrite lookup_set_other).
  destruct (Axios.read_cookie Axios.xsrfCookieName (cookies b)) as [c | ].
  - split; [ | discriminate ].
    destruct (is_empty c) eqn:Ec.
    + rewrite lookup_sendable; rewrite M; exact T.
    + assert (C : lookup "X-CSRFToken"
                    (Axios.set_header Axios.xsrfHeaderName (JStr c) merged) = JStr c)
        by apply lookup_set_header.
      rewrite lookup_sendable; rewrite C; cbn; now rewrite Ec.
  - split; [ | intros _ ]; rewrite lookup_sendable; rewrite M; auto.
Qed.

(** X5. When the token request made on mount is answered with a token, a
    quick submission from the render that follows asks for no token and
    sends that one request, and both the quick and the advanced request
    leave with a token in [X-CSRFToken]: the fetched one, unless the
    browser holds an XSRF cookie. *)
Theorem mounted_token_signs_both_requests
    {rt : JsRuntime} (env env' : Env) (p : Props) (w : World State) :
  truthy (token_of (env (sent w) (token_request (browser w)))) = true ->
  let token := token_of (env (sent w) (token_request (browser w))) in
  let w1 := after (getCsrfToken env) w in
  forall s : State,
    csrfToken s = csrfToken (comp w1) ->
    (required_filled (formData s) = true ->
     isAuthenticated p = true ->
     requests (issued (handleQuickCheck env' p s) w1) = [quick_post s (browser w1)])
    /\ truthy (header "X-CSRFToken" (quick_post s (browser w1))) = true
    /\ truthy (header "X-CSRFToken" (grid_post s (browser w1))) = true
    /\ (Axios.read_cookie Axios.xsrfCookieName (cookies (browser w)) = None ->
        header "X-CSRFToken" (grid_post s (browser w1)) = token).
Proof.
  intros T token w1 s Hs.
  destruct (mount_caches_token env w) as (_ & Yes & _).
  destruct (Yes T) as (C & D). fold w1 in C, D. fold token in C, D.
  assert (Ts : truthy (csrfToken s) = true) by (rewrite Hs, C; exact T).
  assert (Td : truthy (lookup "X-CSRFToken" (axios_common (browser w1))) = true)
    by (rewrite D; exact T).
  split; [ | split; [ | split ] ].
  - intros G U. rewrite quick_requests, G, U, Ts. reflexivity.
  - apply quick_post_is_signed. unfold or_else. now rewrite Ts.
  - apply grid_post_signed_by_default, Td.
  - intros K. rewrite <- D.
    apply grid_post_signed_by_default; [ exact Td | ].
    subst w1. unfold after, getCsrfToken. step_run.
    destruct (env _ _) as [data | e]; [ destruct (nullish data); cbn | ]; try exact K.
    destruct (truthy (Js.get data "csrfToken")); exact K.
Qed.

Lemma mounted_token_at_work :
  truthy (token_of (Samples.friendly
                      (sent (Samples.at_grid Samples.pizza_form JNull))
                      (token_request (browser (Samples.at_grid Samples.pizza_form JNull)))))
  = true
  /\ header "X-CSRFToken"
       (grid_post (rt := Samples.host) (Samples.with_form Samples.pizza_form (JStr "tok-1"))
          (browser (after (getCsrfToken Samples.friendly)
                      (Samples.at_grid Samples.pizza_form JNull))))
     = JStr "tok-1".
Proof.
  split; [ reflexivity | ].
  exact (proj2 (proj2 (proj2
           (mounted_token_signs_both_requests (rt := Samples.host)
              Samples.friendly Samples.friendly Samples.logged_in
              (Samples.at_grid Samples.pizza_form JNull) eq_refl
              (Samples.with_form Samples.pizza_form (JStr "tok-1")) eq_refl)))
           eq_refl).
Defined.

(** ** What the inputs store *)

Lemma input_run {rt : JsRuntime} (name value type : string) (w : World State) :
  comp (after (handleInputChange name value type) w)
  = with_formData
      (set_field name
         (if String.eqb type "number"
          then or_else (JNum (parseFloat (JStr value))) (JStr "")
          else JStr value)
         (formData (comp w)))
      (comp w).
Proof. reflexivity. Qed.

(** X6. A number input whose text reads as zero or as no number stores the
    empty string; so a latitude or a longitude of 0 counts as missing,
    and a submission from the render that follows is stopped by
    validation. Any other text stores the number read. *)
Theorem zero_coordinate_counts_as_missing
    {rt : JsRuntime} (env : Env) (tab : Tab) (p : Props) (w : World State)
    (field value : string) :
  field = "businessLat" \/ field = "businessLng" ->
  let typed := after (handleInputChange field value "number") w in
  (truthy (JNum (parseFloat (JStr value))) = false ->
   issued (onSubmit env tab p (comp typed)) typed
   = [EvPreventDefault; EvSetState "error" fill_in_message])
  /\ (truthy (JNum (parseFloat (JStr value))) = true ->
      (if String.eqb field "businessLat"
       then businessLat (formData (comp typed))
       else businessLng (formData (comp typed)))
      = JNum (parseFloat (JStr value))).
Proof.
  intros F typed. subst typed.
  split; intros T.
  - assert (G : required_filled
                  (formData (comp (after (handleInputChange field value "number") w)))
                = false).
    { rewrite input_run. unfold required_filled, or_else. rewrite T.
      destruct F as [-> | ->]; cbn;
        repeat rewrite ?andb_false_r, ?andb_false_l; reflexivity. }
    destruct (observe _ _ _ _ _ _
                (rejected_run env tab p _ (after (handleInputChange field value "number") w) G))
      as (I & _).
    exact I.
  - rewrite input_run. unfold or_else. rewrite T.
    destruct F as [-> | ->]; reflexivity.
Qed.

Lemma zero_latitude_at_work :
  ("businessLat" = "businessLat" \/ "businessLat" = "businessLng")
  /\ truthy (JNum (parseFloat (rt := Samples.host) (JStr "0"))) = false
  /\ issued (onSubmit (rt := Samples.host) Samples.friendly QuickTab Samples.logged_in
               (comp (after (handleInputChange (rt := Samples.host) "businessLat" "0" "number")
                        (Samples.at_grid Samples.pizza_form JNull))))
       (after (handleInputChange (rt := Samples.host) "businessLat" "0" "number")
          (Samples.at_grid Samples.pizza_form JNull))
     = [EvPreventDefault; EvSetState "error" fill_in_message].
Proof.
  split; [ now left | ]. split; [ reflexivity | ].
  exact (proj1 (zero_coordinate_counts_as_missing (rt := Samples.host) Samples.friendly
                  QuickTab Samples.logged_in (Samples.at_grid Samples.pizza_form JNull)
                  "businessLat" "0" (or_introl eq_refl))
           eq_refl).
Defined.

(** ** The history requests of a first render *)

Lemma fetch_history_run (env : Env) (p : Props) (s : State) (w : World State) :
  isAuthenticated p = true ->
  exists st evs,
    fire_and_forget (fetchHistory env p s) w
    = (Normal tt,
       {| comp := st; browser := browser w;
          log := rev (EvRequest
                        (if truthy (businessName (formData s))
                         then history_request (businessName (formData s)) (browser w)
                         else history_all_request (browser w)) :: evs) ++ log w |})
    /\ requests evs = [].
Proof.
  intros U. unfold fetchHistory, fire_and_forget. rewrite U. cbn [negb].
  step_run. unfold setHistory. step_run.
  unfold history_request, history_all_request.
  destruct (truthy (businessName (formData s)));
    (destruct (env _ _) eqn:E; cbn;
     [ eexists _, [_]; split; reflexivity | eexists _, []; split; reflexivity ]).
Qed.

(** X7. On the first render of a logged-in user, and on a render in which
    [isAuthenticated] has turned true, both history effects are due.
    With no business name in the form (as when the component mounts)
    one request leaves, for the whole history; with a name in the form
    each effect sends the request for that name, so it leaves twice. *)
Theorem first_render_fetches_history
    (env : Env) (before : option Render) (cur : Render) (w : World State) :
  isAuthenticated (props cur) = true ->
  (before = None
   \/ exists prev, before = Some prev /\ isAuthenticated (props prev) = false) ->
  requests (issued (history_effects env before cur) w)
  = if truthy (name_in cur)
    then [history_request (name_in cur) (browser w);
          history_request (name_in cur) (browser w)]
    else [history_all_request (browser w)].
Proof.
  intros U B.
  assert (Due1 : effect_due (fun r => [JBool (isAuthenticated (props r))]) before cur = true).
  { destruct B as [-> | (prev & -> & Up)]; [ reflexivity | ].
    cbn. now rewrite Up, U. }
  assert (Due2 : effect_due (fun r => [JBool (isAuthenticated (props r));
                                      businessName (formData (state r))]) before cur = true).
  { destruct B as [-> | (prev & -> & Up)]; [ reflexivity | ].
    cbn. now rewrite Up, U. }
  destruct (fetch_history_run env (props cur) (state cur) w U) as (st & evs & R & Q).
  set (w1 := {| comp := st; browser := browser w; log := _ |}) in R.
  assert (App : forall a b, requests (a ++ b) = requests a ++ requests b).
  { induction a as [ | [] a IH]; intros b; cbn; try rewrite IH; reflexivity. }
  unfold name_in.
  destruct (truthy (businessName (formData (state cur)))) eqn:T.
  - assert (R2 : exists st2 evs2,
               fire_and_forget (fetchHistoryByName env (props cur) (state cur)) w1
               = (Normal tt, {| comp := st2; browser := browser w;
                                log := rev evs2 ++ log w1 |})
               /\ requests evs2 = [history_request (businessName (formData (state cur)))
                                     (browser w)]).
    { unfold fetchHistoryByName, fire_and_forget. rewrite U, T. cbn [negb orb].
      step_run. unfold setHistory. step_run. unfold history_request.
      destruct (env _ _); cbn; [ eexists _, [_; _] | eexists _, [_] ]; split; reflexivity. }
    destruct R2 as (st2 & evs2 & R2 & Q3).
    assert (Run : history_effects env before cur w
                  = (Normal tt,
                     {| comp := st2; browser := browser w;
                        log := rev ((EvRequest
                                       (history_request
                                          (businessName (formData (state cur))) (browser w))
                                     :: evs) ++ evs2) ++ log w |})).
    { unfold history_effects, bind. rewrite Due1, Due2, R, R2.
      subst w1. cbn [log]. rewrite rev_app_distr, <- app_assoc. reflexivity. }
    destruct (observe _ _ _ _ _ _ Run) as (I & _). rewrite I.
    rewrite App. cbn. rewrite Q, Q3. reflexivity.
  - assert (Run : history_effects env before cur w = (Normal tt, w1)).
    { unfold history_effects, bind. rewrite Due1, Due2, R.
      unfold fetchHistoryByName, fire_and_forget. rewrite U, T. reflexivity. }
    destruct (observe _ _ _ _ _ _ Run) as (I & _). rewrite I. cbn. now rewrite Q.
Qed.

Lemma mount_fetches_whole_history :
  isAuthenticated Samples.logged_in = true
  /\ requests
       (issued (history_effects Samples.friendly None
                  {| props := Samples.logged_in; state := initial_state |})
          (Samples.world_of initial_state (Samples.fresh_browser "/local-ranking-grid")))
     = [history_all_request (Samples.fresh_browser "/local-ranking-grid")].
Proof.
  split; [ reflexivity | ].
  exact (first_render_fetches_history Samples.friendly None
           {| props := Samples.logged_in; state := initial_state |}
           (Samples.world_of initial_state (Samples.fresh_browser "/local-ranking-grid"))
           eq_refl (or_introl eq_refl)).
Defined.

(** ** The authentication check *)

(** X8. With the flag down, [checkAuthStatus] sends one request and believes
    the answer: the user is authenticated exactly when the answer holds a
    truthy [authenticated], and then [user] is the answer's [user]; a
    failed request, or an answer that cannot be read, leaves nobody
    logged in. In every case [loading] ends false. *)
Theorem auth_check_follows_server (env : Env) (w : World App.State) :
  let w' := after (App.checkAuthStatus env false) w in
  let answer := env (sent w) (check_auth_request (browser w)) in
  requests (issued (App.checkAuthStatus env false) w) = [check_auth_request (browser w)]
  /\ App.loading (comp w') = false
  /\ App.logoutInProgress (comp w') = App.logoutInProgress (comp w)
  /\ App.isAuthenticated (comp w')
     = match answer with
       | Resolved data => truthy (get_opt data "authenticated")
       | Rejected _ => false
       end
  /\ App.user (comp w')
     = match answer with
       | Resolved data =>
           if truthy (get_opt data "authenticated") then Js.get data "user" else JNull
       | Rejected _ => JNull
       end.
Proof.
  cbn zeta.
  assert (R : exists c st evs,
             App.checkAuthStatus env false w
             = (c, {| comp := st; browser := browser w;
                      log := rev (EvRequest (check_auth_request (browser w)) :: evs) ++ log w |})
             /\ requests evs = []
             /\ App.loading st = false
             /\ App.logoutInProgress st = App.logoutInProgress (comp w)
             /\ App.isAuthenticated st
                = match env (sent w) (check_auth_request (browser w)) with
                  | Resolved data => truthy (get_opt data "authenticated")
                  | Rejected _ => false
                  end
             /\ App.user st
                = match env (sent w) (check_auth_request (browser w)) with
                  | Resolved data =>
                      if truthy (get_opt data "authenticated")
                      then Js.get data "user" else JNull
                  | Rejected _ => JNull
                  end).
  { step_app. unfold sent, check_auth_request, get_opt.
    destruct (env _ _) as [data | e].
    - destruct (nullish data) eqn:N; cbn.
      + eexists _, _, [_; _; _]. repeat split.
      + destruct (truthy (Js.get data "authenticated")) eqn:T; cbn;
          eexists _, _, [_; _; _]; repeat split.
    - eexists _, _, [_; _; _]. repeat split. }
  destruct R as (c & st & evs & R & Q & L & F & A & Us).
  destruct (observe _ _ _ _ _ _ R) as (I & C & _).
  rewrite I, C. cbn. rewrite Q. auto.
Qed.

(** ** The router *)

Lemma render_cases (s : App.State) (path : string) :
  App.render s path = App.LoadingScreen /\ App.loading s = true
  \/ App.loading s = false
     /\ (Router.is_redirect (App.render s path) = true
         \/ App.render s path = App.NoMatch
         \/ Router.is_public_only (App.render s path) = true
            /\ App.isAuthenticated s = false
         \/ Router.is_protected (App.render s path) = true
            /\ App.isAuthenticated s = true /\ App.logoutInProgress s = false).
Proof.
  unfold App.render.
  destruct (App.loading s); [ now left | right; split; [ reflexivity | ] ].
  repeat match goal with
         | |- context [String.eqb path ?lit] => destruct (String.eqb path lit)
         end;
    destruct (App.isAuthenticated s), (App.logoutInProgress s); cbn; auto 10.
Qed.

(** X9. The router never shows a protected page (the dashboard, the ranking
    grid) unless the user is authenticated, no logout is in progress and
    the first check is over; and it shows the login and signup pages to
    unauthenticated users only. *)
Theorem protected_pages_need_authentication (s : App.State) (path : string) :
  (Router.is_protected (App.render s path) = true ->
   App.isAuthenticated s = true /\ App.logoutInProgress s = false /\ App.loading s = false)
  /\ (Router.is_public_only (App.render s path) = true ->
      App.isAuthenticated s = false /\ App.loading s = false).
Proof.
  destruct (render_cases s path)
    as [(E & L) | (L & [R | [E | [(P & A) | (P & A & F)]]])].
  - rewrite E. split; discriminate.
  - destruct (App.render s path); try discriminate R. split; discriminate.
  - rewrite E. split; discriminate.
  - split; [ | auto ]. destruct (App.render s path); try discriminate P; discriminate.
  - split; [ auto | ]. destruct (App.render s path); try discriminate P; discriminate.
Qed.

(** X10. When no login has happened during a logout, one redirect at most
    leads to a page. *)
Theorem redirects_settle_at_once (s : App.State) (path : string) :
  App.isAuthenticated s && App.logoutInProgress s = false ->
  Router.is_redirect (Router.follow 1 s path) = false.
Proof.
  intros H. unfold Router.follow, App.render.
  destruct (App.loading s); [ reflexivity | ].
  destruct (App.isAuthenticated s), (App.logoutInProgress s); try discriminate H;
    repeat match goal with
           | |- context [String.eqb path ?lit] => destruct (String.eqb path lit)
           end;
    reflexivity.
Qed.

Lemma landing_page_settles :
  App.isAuthenticated
    {| App.isAuthenticated := true; App.user := JNull; App.loading := false;
       App.logoutInProgress := false |}
  && App.logoutInProgress
       {| App.isAuthenticated := true; App.user := JNull; App.loading := false;
          App.logoutInProgress := false |} = false
  /\ Router.is_redirect
       (Router.follow 1
          {| App.isAuthenticated := true; App.user := JNull; App.loading := false;
             App.logoutInProgress := false |} "/") = false.
Proof.
  split; [ reflexivity | ].
  exact (redirects_settle_at_once
           {| App.isAuthenticated := true; App.user := JNull; App.loading := false;
              App.logoutInProgress := false |} "/" eq_refl).
Defined.

(** The world a logout leaves while its window is open. *)
Lemma window_world (env : Env) (w : World App.State) (dts : list nat) :
  timers (browser w) = [] ->
  list_sum dts < 1000 ->
  exists st b lg,
    App.logout_then_wait env dts w = (Normal tt, {| comp := st; browser := b; log := lg |})
    /\ quiet (now (browser w)) {| comp := st; browser := b; log := lg |}
    /\ now b = now (browser w) + list_sum dts
    /\ (App.loading (comp w) = false -> App.loading st = false).
Proof.
  intros T Window.
  assert (R1 : exists st,
            App.handleLogout env (App.auth_effect env (Some (App.logoutInProgress (comp w)))) w
            = (Normal tt,
               {| comp := st;
                  browser :=
                    with_clock (now (browser w))
                      (timers (browser w) ++ [(now (browser w) + 1000, AllowAuthCheck)])
                      (with_sessionStorage [] (with_localStorage [] (browser w)));
                  log := rev ([EvSetState "logoutInProgress" (JBool true);
                               EvSetState "isAuthenticated" (JBool false);
                               EvSetState "user" JNull;
                               EvRequest (logout_request (browser w))]
                              ++ meanwhile (App.logoutInProgress (comp w))
                              ++ [EvStorageClear LocalStorage; EvStorageClear SessionStorage;
                                  EvSetTimeout 1000 AllowAuthCheck]) ++ log w |})
            /\ App.logoutInProgress st = true
            /\ App.isAuthenticated st = false
            /\ (App.loading (comp w) = false -> App.loading st = false)).
  { step_app. unfold logout_request.
    destruct (env _ _) as [data | e]; destruct (App.logoutInProgress (comp w)); cbn;
      eexists; repeat split; auto. }
  destruct R1 as (st & R1 & Fl & Au & Lo).
  set (w1 := {| comp := st; browser := _; log := _ |}) in R1.
  assert (Q1 : quiet (now (browser w)) w1).
  { repeat split; try assumption. cbn. now rewrite T. }
  destruct (quiet_elapse_all env (now (browser w)) dts w1 Q1) as (b & R2 & Q2 & Nb & _);
    [ cbn; lia | ].
  exists st, b, (log w1). repeat split; try apply Q2; try assumption.
  unfold App.logout_then_wait, bind, read_comp. rewrite R1. exact R2.
Qed.

Lemma ping_pong (s : App.State) :
  App.loading s = false ->
  App.isAuthenticated s = true ->
  App.logoutInProgress s = true ->
  forall fuel,
    Router.is_redirect (Router.follow fuel s "/dashboard") = true
    /\ Router.is_redirect (Router.follow fuel s "/login") = true.
Proof.
  intros L A F.
  assert (D : App.render s "/dashboard" = App.Navigate "/login")
    by (unfold App.render; rewrite L, F; reflexivity).
  assert (G : App.render s "/login" = App.Navigate "/dashboard")
    by (unfold App.render; rewrite L, A; reflexivity).
  induction fuel as [ | fuel (Hd & Hl)]; cbn [Router.follow]; rewrite D, G.
  - split; reflexivity.
  - split; assumption.
Qed.

(** X11. A login that completes while a logout's window is still open leaves
    the user authenticated with the flag up. In that state the router
    never settles: the dashboard redirects to the login page and the
    login page back to the dashboard, however long the redirects are
    followed, until the timer lowers the flag. *)
Theorem login_inside_window_never_settles
    (env : Env) (w : World App.State) (dts : list nat) (userData : JsVal) :
  timers (browser w) = [] ->
  list_sum dts < 1000 ->
  App.loading (comp w) = false ->
  let w' := after (App.logout_then_wait env dts ;; App.handleLogin userData) w in
  App.isAuthenticated (comp w') = true
  /\ App.logoutInProgress (comp w') = true
  /\ App.render (comp w') "/dashboard" = App.Navigate "/login"
  /\ App.render (comp w') "/login" = App.Navigate "/dashboard"
  /\ forall fuel,
       Router.is_redirect (Router.follow fuel (comp w') "/dashboard") = true
       /\ Router.is_redirect (Router.follow fuel (comp w') "/login") = true.
Proof.
  intros T Window L w'.
  destruct (window_world env w dts T Window) as (st & b & lg & R & Q & _ & Lo).
  assert (C : comp w' = App.with_user userData (App.with_isAuthenticated true st)).
  { subst w'. unfold after, bind. rewrite R. reflexivity. }
  destruct Q as (F & _).
  assert (A' : App.isAuthenticated (comp w') = true) by (rewrite C; reflexivity).
  assert (F' : App.logoutInProgress (comp w') = true) by (rewrite C; exact F).
  assert (L' : App.loading (comp w') = false) by (rewrite C; exact (Lo L)).
  split; [ exact A' | ]. split; [ exact F' | ].
  split; [ unfold App.render; rewrite L', F'; reflexivity | ].
  split; [ unfold App.render; rewrite L', A'; reflexivity | ].
  apply ping_pong; assumption.
Qed.

Lemma hasty_login_ping_pongs :
  timers (browser (Samples.world_of
                     {| App.isAuthenticated := true; App.user := JNull;
                        App.loading := false; App.logoutInProgress := false |}
                     (Samples.fresh_browser "/dashboard"))) = []
  /\ list_sum [300] < 1000
  /\ Router.is_redirect
       (Router.follow 7
          (comp (after (App.logout_then_wait Samples.friendly [300]
                        ;; App.handleLogin (JObj [("email", JStr "owner@example.com")]))
                   (Samples.world_of
                      {| App.isAuthenticated := true; App.user := JNull;
                         App.loading := false; App.logoutInProgress := false |}
                      (Samples.fresh_browser "/dashboard"))))
          "/dashboard")
     = true.
Proof.
  split; [ reflexivity | ]. split; [ cbn; lia | ].
  exact (proj1 (proj2 (proj2 (proj2 (proj2
           (login_inside_window_never_settles Samples.friendly
              (Samples.world_of
                 {| App.isAuthenticated := true; App.user := JNull;
                    App.loading := false; App.logoutInProgress := false |}
                 (Samples.fresh_browser "/dashboard"))
              [300] (JObj [("email", JStr "owner@example.com")])
              eq_refl ltac:(cbn; lia) eq_refl)))) 7)).
Defined.

(** ** Two logouts within a second *)

Lemma first_timer_fires (env : Env) (w : World App.State) (a b dt : nat) :
  App.logoutInProgress (comp w) = true ->
  timers (browser w) = [(a, AllowAuthCheck); (b, AllowAuthCheck)] ->
  a <= now (browser w) + dt ->
  now (browser w) + dt < b ->
  exists st evs,
    App.elapse env dt w
    = (Normal tt,
       {| comp := st;
          browser := with_clock (now (browser w) + dt) [(b, AllowAuthCheck)] (browser w);
          log := rev (EvSetState "logoutInProgress" (JBool false)
                      :: EvRequest (check_auth_request (browser w)) :: evs) ++ log w |})
    /\ requests evs = []
    /\ App.logoutInProgress st = false.
Proof.
  intros F T Due Early.
  unfold App.elapse, bind at 1 2 3, read_comp, read_browser, modify_browser.
  rewrite T. cbn [filter fst snd List.map negb].
  assert (La : Nat.leb a (now (browser w) + dt) = true) by (apply Nat.leb_le; exact Due).
  assert (Lb : Nat.leb b (now (browser w) + dt) = false) by (apply Nat.leb_gt; exact Early).
  rewrite La, Lb. cbn [negb List.map snd App.run_callbacks].
  unfold bind, ret, App.run_callback, App.setLogoutInProgress, emit, modify_comp,
    App.auth_effect, read_comp, fire_and_forget. cbn. rewrite F. cbn.
  destruct (open_check_run env
              {| comp := App.with_logoutInProgress false (comp w);
                 browser := with_clock (now (browser w) + dt) [(b, AllowAuthCheck)] (browser w);
                 log := EvSetState "logoutInProgress" (JBool false) :: log w |})
    as (st & evs & R & Q & Fl).
  unfold App.checkAuthStatus in R. rewrite R. cbn [snd].
  exists st, evs. split; [ | split; assumption ].
  f_equal. f_equal. cbn. rewrite <- !app_assoc. reflexivity.
Qed.

(** X12. The timer of a logout lowers the flag whatever has happened since.
    If the user logs in again and logs out a second time [d1] ms after
    the first logout, the first timer fires [1000 - d1] ms into the
    second window: the flag goes down and the check is sent although the
    second logout is less than a second old, and the second timer is
    still pending. *)
Theorem second_logout_window_is_cut_short
    (env : Env) (w : World App.State) (d1 d2 : nat) (userData : JsVal) :
  timers (browser w) = [] ->
  d1 < 1000 ->
  d2 < 1000 ->
  1000 <= d1 + d2 ->
  let w2 := after (Scenes.logout_login_logout env d1 userData) w in
  let w3 := after (App.elapse env d2) w2 in
  App.logoutInProgress (comp w2) = true
  /\ timers (browser w2)
     = [(now (browser w) + 1000, AllowAuthCheck);
        (now (browser w) + d1 + 1000, AllowAuthCheck)]
  /\ requests (issued (App.elapse env d2) w2) = [check_auth_request (browser w)]
  /\ App.logoutInProgress (comp w3) = false
  /\ timers (browser w3) = [(now (browser w) + d1 + 1000, AllowAuthCheck)].
Proof.
  intros T D1 D2 Late w2 w3.
  destruct (window_world env w [d1] T) as (st & b & lg & R & Q & Nb & _);
    [ cbn; lia | ].
  destruct Q as (F & _ & Tb & _). cbn [comp browser] in F, Tb.
  cbn [list_sum fold_right] in Nb. rewrite Nat.add_0_r in Nb.
  set (w1 := {| comp := App.with_user userData (App.with_isAuthenticated true st);
                browser := b;
                log := EvSetState "user" userData
                       :: EvSetState "isAuthenticated" (JBool true) :: lg |}).
  destruct (logout_run env w1) as (st2 & R2 & F2 & _).
  assert (Cw : axios_common b = axios_common (browser w) /\ cookies b = cookies (browser w)).
  { revert R. unfold App.logout_then_wait, bind, read_comp.
    destruct (logout_run env w) as (st0 & R0 & _). rewrite R0.
    set (w0 := {| comp := st0; browser := _; log := _ |}).
    intros R.
    assert (Q0 : quiet (now (browser w)) w0).
    { destruct (window_world env w [] T) as (st' & b' & lg' & R' & Q' & _); [ cbn; lia | ].
      revert R'. unfold App.logout_then_wait, bind, read_comp. rewrite R0. cbn.
      intros R'. inversion R'. subst. exact Q'. }
    destruct (quiet_elapse_all env (now (browser w)) [d1] w0 Q0) as (b0 & R3 & _ & _ & Cb & Kb);
      [ cbn; lia | ].
    rewrite R3 in R. inversion R. subst. split; assumption. }
  assert (W2 : Scenes.logout_login_logout env d1 userData w
               = (Normal tt,
                  {| comp := st2;
                     browser := with_clock (now b) (timers b ++ [(now b + 1000, AllowAuthCheck)])
                                  (with_sessionStorage [] (with_localStorage [] b));
                     log := rev ([EvSetState "logoutInProgress" (JBool true);
                                  EvSetState "isAuthenticated" (JBool false);
                                  EvSetState "user" JNull;
                                  EvRequest (logout_request b)]
                                 ++ meanwhile true
                                 ++ [EvStorageClear LocalStorage; EvStorageClear SessionStorage;
                                     EvSetTimeout 1000 AllowAuthCheck]) ++ log w1 |})).
  { unfold Scenes.logout_login_logout, bind at 1. rewrite R.
    unfold bind at 1, App.handleLogin. step_app.
    unfold App.logout_then_wait, bind, read_comp. cbn [comp].
    change {| comp := App.with_user userData (App.with_isAuthenticated true st);
              browser := b;
              log := EvSetState "user" userData
                     :: EvSetState "isAuthenticated" (JBool true) :: lg |} with w1.
    assert (Fw1 : App.logoutInProgress (comp w1) = true) by exact F.
    rewrite Fw1 in R2. rewrite F, R2. reflexivity. }
  assert (E2 : w2 = snd (Scenes.logout_login_logout env d1 userData w)) by reflexivity.
  rewrite W2 in E2. cbn [snd] in E2.
  assert (Tw2 : timers (browser w2)
                = [(now (browser w) + 1000, AllowAuthCheck);
                   (now (browser w) + d1 + 1000, AllowAuthCheck)]).
  { rewrite E2. cbn. rewrite Tb, Nb. reflexivity. }
  assert (Nw2 : now (browser w2) = now (browser w) + d1) by (rewrite E2; cbn; exact Nb).
  assert (Fw2 : App.logoutInProgress (comp w2) = true) by (rewrite E2; exact F2).
  destruct (first_timer_fires env w2 _ _ d2 Fw2 Tw2) as (st3 & evs & R3 & Q3 & F3);
    [ rewrite Nw2; lia | rewrite Nw2; lia | ].
  destruct (observe _ _ _ _ _ _ R3) as (I3 & C3 & B3 & _).
  fold w3 in C3, B3.
  split; [ exact Fw2 | ]. split; [ exact Tw2 | ].
  rewrite I3, C3, B3. cbn. rewrite Q3.
  split; [ | split; [ exact F3 | reflexivity ] ].
  f_equal. apply check_auth_request_reads; rewrite E2; cbn; apply Cw.
Qed.

Lemma second_logout_at_work :
  timers (browser (Samples.world_of App.initial_state (Samples.fresh_browser "/dashboard"))) = []
  /\ 600 < 1000 /\ 500 < 1000 /\ 1000 <= 600 + 500
  /\ requests
       (issued (App.elapse Samples.friendly 500)
          (after (Scenes.logout_login_logout Samples.friendly 600 JNull)
             (Samples.world_of App.initial_state (Samples.fresh_browser "/dashboard"))))
     = [check_auth_request (Samples.fresh_browser "/dashboard")].
Proof.
  split; [ reflexivity | ]. split; [ lia | ]. split; [ lia | ]. split; [ lia | ].
  exact (proj1 (proj2 (proj2
           (second_logout_window_is_cut_short Samples.friendly
              (Samples.world_of App.initial_state (Samples.fresh_browser "/dashboard"))
              600 500 JNull eq_refl ltac:(lia) ltac:(lia) ltac:(lia))))).
Defined.

(** ** The latest saved grid *)

Import RankingHistory.

(** X13. Of the saved grids only the first is shown, whatever follows it in
    the list; an empty list shows no section. The first grid is shown
    cell by cell exactly as [renderResults] shows a live result, with
    the same number of columns, whenever [renderResults] builds its
    section for the same entry (which it does when the rest of the entry
    can be read); unlike a live result, a saved grid whose [rank_map] is
    null or undefined still gets its section, without cells. *)
Theorem latest_saved_grid_is_shown_like_results
    {rt : JsRuntime} {mt : JsMath}
    (o : list (string * JsVal)) (rest : list JsVal) (cells : list JsVal) :
  readable cells = true ->
  converts (columns_of (JObj o)) = true ->
  converts (lookup "created_at" o) = true ->
  render_history (JArr []) = Ok None
  /\ (lookup "rank_map" o = JArr cells ->
      render_history (JArr (JObj o :: rest))
      = Ok (Some {| saved_columns := columns_of (JObj o);
                    saved_cells := Some (List.map cell_view cells);
                    saved_created_at := lookup "created_at" o |})
      /\ (cells <> [] ->
          (results_readable (JObj o) = true ->
           exists section, renderResults (JObj o) = Ok (Some section))
          /\ forall section,
               renderResults (JObj o) = Ok (Some section) ->
               rank_grid section
               = Shown {| grid_columns := columns_of (JObj o);
                          grid_cells := List.map cell_view cells |}))
  /\ (nullish (lookup "rank_map" o) = true ->
      render_history (JArr (JObj o :: rest))
      = Ok (Some {| saved_columns := columns_of (JObj o);
                    saved_cells := None;
                    saved_created_at := lookup "created_at" o |})
      /\ forall section,
           renderResults (JObj o) = Ok (Some section) -> shown_cells section = None).
Proof.
  intros R K D. unfold columns_of in K. cbn [Js.get] in K.
  split; [ reflexivity | split ].
  - intros L. split.
    + unfold render_history.
      cbn [length_converts has_positive_length first_of get_opt nullish Js.get negb].
      rewrite K, L, D. cbn [nullish negb]. now rewrite (render_cells_readable _ R).
    + intros N. split.
      * apply readable_results_render. reflexivity.
      * intros section S. apply rendered_rank_grid in S as (_ & G).
        apply rank_grid_slot_built in G. cbn [Js.get] in G. rewrite L in G.
        destruct cells as [ | c0 cells0 ] eqn:Ecells; [ now elim N | ].
        cbn [truthy has_positive_length andb] in G.
        destruct G as (cells' & E & _ & _ & ->). now injection E as <-.
  - intros N. split.
    + unfold render_history.
      cbn [length_converts has_positive_length first_of get_opt nullish Js.get negb].
      now rewrite K, N, D.
    + intros section S. apply rendered_rank_grid in S as (_ & G).
      apply rank_grid_slot_built in G. cbn [Js.get] in G.
      destruct (lookup "rank_map" o); try discriminate N;
        cbn [truthy andb] in G; unfold shown_cells; now rewrite G.
Qed.

Lemma saved_three_cells_are_shown :
  readable Samples.three_entries = true
  /\ converts (columns_of Samples.three_cells) = true
  /\ converts (lookup "created_at" Samples.three_cells_props) = true
  /\ render_history (rt := Samples.host) (JArr [Samples.three_cells; Samples.three_cells])
     = Ok (Some {| saved_columns := JNum 4;
                   saved_cells := Some (List.map cell_view Samples.three_entries);
                   saved_created_at := JUndefined |}).
Proof.
  split; [ reflexivity | ]. split; [ reflexivity | ]. split; [ reflexivity | ].
  exact (proj1 (proj1 (proj2 (latest_saved_grid_is_shown_like_results (rt := Samples.host)
                                (mt := ResultsSamples.rounding)
                                Samples.three_cells_props [Samples.three_cells]
                                Samples.three_entries eq_refl eq_refl eq_refl))
                  eq_refl)).
Defined.

(** X14. What a history request leaves in the state: the [results] of the
    answer, or the empty list when the answer has none; a failed request
    leaves the state as it was. So a name for which the server knows no
    grid makes the saved-grid section disappear, and a failed request
    keeps the grid that was on screen. *)
Theorem history_state_after_fetch
    {rt : JsRuntime} (env : Env) (p : Props) (s : State) (w : World State) :
  isAuthenticated p = true ->
  truthy (businessName (formData s)) = true ->
  let w' := after (fire_and_forget (fetchHistoryByName env p s)) w in
  match env (sent w) (history_request (businessName (formData s)) (browser w)) with
  | Resolved data =>
      history (comp w') = or_else (get_opt data "results") (JArr [])
      /\ (get_opt data "results" = JArr [] \/ truthy (get_opt data "results") = false ->
          render_history (history (comp w')) = Ok None)
  | Rejected _ => history (comp w') = history (comp w)
  end.
Proof.
  intros U T w'. subst w'.
  unfold after, fire_and_forget, fetchHistoryByName. rewrite U, T. cbn [negb orb].
  step_run. unfold setHistory. step_run. unfold sent, history_request.
  destruct (env _ _) as [data | e]; cbn; [ | reflexivity ].
  split; [ reflexivity | ].
  intros [E | F]; unfold or_else; [ rewrite E | rewrite F ]; reflexivity.
Qed.

Lemma unknown_name_hides_saved_grid :
  isAuthenticated Samples.logged_in = true
  /\ truthy (businessName (formData (state Samples.renamed_render))) = true
  /\ render_history (rt := Samples.host)
       (history (comp (after (fire_and_forget
                                (fetchHistoryByName Scenes.no_saved_grid Samples.logged_in
                                   (state Samples.renamed_render)))
                         (Samples.at_grid Samples.pizza_form (JStr "tok-0")))))
     = Ok None.
Proof.
  split; [ reflexivity | ]. split; [ reflexivity | ].
  exact (proj2 (history_state_after_fetch (rt := Samples.host) Scenes.no_saved_grid
                  Samples.logged_in (state Samples.renamed_render)
                  (Samples.at_grid Samples.pizza_form (JStr "tok-0")) eq_refl eq_refl)
           (or_introl eq_refl)).
Defined.

(** * The signup and login pages *)

(** ** The pattern of an e-mail address *)

Section RegexFacts.
Import Regex.

Lemma nullable_matches (r : re) : nullable r = true <-> Matches r EmptyString.
Proof.
  induction r as [ | | f | r1 IH1 r2 IH2 | r1 IH1 r2 IH2 | r IH ]; cbn [nullable].
  - split; intro H; [ discriminate | inversion H ].
  - split; intro H; [ constructor | reflexivity ].
  - split; intro H; [ discriminate | inversion H ].
  - rewrite andb_true_iff, IH1, IH2. split.
    + intros [M1 M2]. exact (MCat M1 M2).
    + intro H. inversion H as [ | | a b s1 s2 M1 M2 E1 E2 | | | | ]; subst.
      destruct s1; [ | discriminate ]. cbn in E2. subst s2. split; assumption.
  - rewrite orb_true_iff, IH1, IH2. split.
    + intros [M | M]; [ apply MAltL | apply MAltR ]; exact M.
    + intro H. inversion H; subst; [ left | right ]; assumption.
  - split; intro H; [ constructor | reflexivity ].
Qed.

Lemma deriv_sound (c : ascii) (r : re) :
  forall s, Matches (deriv c r) s -> Matches r (String c s).
Proof.
  induction r; cbn [deriv]; intros s H.
  - inversion H.
  - inversion H.
  - destruct (f c) eqn:F; inversion H; subst. constructor. exact F.
  - assert (C : forall t, Matches (Cat (deriv c r1) r2) t -> Matches (Cat r1 r2) (String c t)).
    { intros t T. inversion T as [ | | a b s1 s2 M1 M2 E1 E2 | | | | ]; subst.
      change (String c (s1 ++ s2)) with (String c s1 ++ s2)%string.
      constructor; [ apply IHr1 | ]; assumption. }
    destruct (nullable r1) eqn:N.
    + inversion H; subst.
      * apply C. assumption.
      * change (String c s) with (EmptyString ++ String c s)%string.
        constructor; [ apply nullable_matches; exact N | apply IHr2; assumption ].
    + apply C. exact H.
  - inversion H; subst; [ apply MAltL, IHr1 | apply MAltR, IHr2 ]; assumption.
  - inversion H as [ | | a b s1 s2 M1 M2 E1 E2 | | | | ]; subst.
    change (String c (s1 ++ s2)) with (String c s1 ++ s2)%string.
    constructor; [ apply IHr; assumption | assumption ].
Qed.

Lemma deriv_complete (r : re) (t : string) :
  Matches r t -> forall c s, t = String c s -> Matches (deriv c r) s.
Proof.
  induction 1 as [ | f c0 F | r1 r2 s1 s2 M1 IH1 M2 IH2 | r1 r2 s0 M1 IH1
                 | r1 r2 s0 M2 IH2 | r0 | r0 s1 s2 M1 IH1 M2 IH2 ];
    intros c s E; cbn [deriv].
  - discriminate.
  - injection E as -> <-. rewrite F. constructor.
  - destruct s1 as [ | c1 s1' ].
    + cbn in E. apply nullable_matches in M1. rewrite M1.
      apply MAltR. apply IH2. exact E.
    + cbn in E. injection E as -> <-.
      assert (C : Matches (Cat (deriv c r1) r2) (s1' ++ s2)%string).
      { constructor; [ apply IH1; reflexivity | exact M2 ]. }
      destruct (nullable r1); [ apply MAltL | ]; exact C.
  - apply MAltL. apply IH1. exact E.
  - apply MAltR. apply IH2. exact E.
  - discriminate.
  - destruct s1 as [ | c1 s1' ].
    + cbn in E. exact (IH2 c s E).
    + cbn in E. injection E as -> <-.
      constructor; [ apply IH1; reflexivity | exact M2 ].
Qed.

Lemma test_matches (s : string) : forall r, test r s = true <-> Matches r s.
Proof.
  induction s as [ | c s IH ]; intro r; cbn [test].
  - apply nullable_matches.
  - rewrite IH. split; [ apply deriv_sound | ].
    intro H. exact (deriv_complete r (String c s) H c s eq_refl).
Qed.

Lemma star_class (f : ascii -> bool) (s : string) :
  Matches (Star (Class f)) s <-> all_chars f s = true.
Proof.
  split.
  - intro H. remember (Star (Class f)) as r eqn:R.
    induction H as [ | | | | | r0 | r0 s1 s2 M1 IH1 M2 IH2 ]; try discriminate.
    + reflexivity.
    + injection R as ->. inversion M1; subst. cbn. rewrite H0. cbn. apply IH2. reflexivity.
  - induction s as [ | c s IH ]; cbn [all_chars]; intro H.
    + constructor.
    + apply andb_true_iff in H as [H1 H2].
      change (String c s) with (String c EmptyString ++ s)%string.
      constructor; [ constructor; exact H1 | apply IH; exact H2 ].
Qed.

Lemma plus_class (f : ascii -> bool) (s : string) :
  Matches (Plus (Class f)) s <-> s <> EmptyString /\ all_chars f s = true.
Proof.
  unfold Plus. split.
  - intro H. inversion H as [ | | a b s1 s2 M1 M2 E1 E2 | | | | ]; subst.
    inversion M1; subst. cbn. split; [ discriminate | ].
    rewrite H1. cbn. apply star_class. exact M2.
  - intros [N A]. destruct s as [ | c s ]; [ contradiction | ].
    cbn in A. apply andb_true_iff in A as [A1 A2].
    change (String c s) with (String c EmptyString ++ s)%string.
    constructor; [ constructor; exact A1 | apply star_class; exact A2 ].
Qed.

Lemma char_class (c : ascii) (s : string) :
  Matches (Class (Ascii.eqb c)) s <-> s = String c EmptyString.
Proof.
  split.
  - intro H. inversion H; subst. apply Ascii.eqb_eq in H1. subst. reflexivity.
  - intros ->. constructor. apply Ascii.eqb_refl.
Qed.

End RegexFacts.

Lemma email_matches (s : string) :
  Regex.Matches SignupEmail.emailRegex s <->
  exists a b c : string,
    s = (a ++ "@" ++ b ++ "." ++ c)%string
    /\ (a <> "" /\ Regex.all_chars SignupEmail.plain a = true)
    /\ (b <> "" /\ Regex.all_chars SignupEmail.plain b = true)
    /\ (c <> "" /\ Regex.all_chars SignupEmail.plain c = true).
Proof.
  unfold SignupEmail.emailRegex. split.
  - intro H.
    inversion H as [ | | r1 r2 a t1 Ma M1 E1 E2 | | | | ]; subst.
    inversion M1 as [ | | r1 r2 at_ t2 Mat M2 E1 E2 | | | | ]; subst.
    inversion M2 as [ | | r1 r2 b t3 Mb M3 E1 E2 | | | | ]; subst.
    inversion M3 as [ | | r1 r2 dot c Mdot Mc E1 E2 | | | | ]; subst.
    apply char_class in Mat, Mdot. subst.
    apply plus_class in Ma, Mb, Mc.
    exists a, b, c. repeat split; tauto.
  - intros (a & b & c & -> & Ha & Hb & Hc).
    apply plus_class in Ha, Hb, Hc.
    constructor; [ exact Ha | ].
    change ("@" ++ b ++ "." ++ c)%string with ("@" ++ (b ++ "." ++ c))%string.
    constructor; [ apply char_class; reflexivity | ].
    constructor; [ exact Hb | ].
    change ("." ++ c)%string with ("." ++ c)%string.
    constructor; [ apply char_class; reflexivity | exact Hc ].
Qed.

(** X15. SignupEmail.js, [validateEmail]: the pattern accepts exactly the
    strings made of three non-empty parts without white space or "@",
    the first two joined by "@" and the last two by a dot. *)
Theorem validateEmail_accepts_exactly (s : string) :
  SignupEmail.validateEmail s = true <->
  exists a b c : string,
    s = (a ++ "@" ++ b ++ "." ++ c)%string
    /\ (a <> "" /\ Regex.all_chars SignupEmail.plain a = true)
    /\ (b <> "" /\ Regex.all_chars SignupEmail.plain b = true)
    /\ (c <> "" /\ Regex.all_chars SignupEmail.plain c = true).
Proof.
  unfold SignupEmail.validateEmail. rewrite test_matches. apply email_matches.
Qed.

Lemma count_char_app (c : ascii) (a b : string) :
  Regex.count_char c (a ++ b) = Regex.count_char c a + Regex.count_char c b.
Proof.
  induction a as [ | x a IH ]; cbn; [ reflexivity | ]. rewrite IH. lia.
Qed.

Lemma plain_has_no_at (a : string) :
  Regex.all_chars SignupEmail.plain a = true -> Regex.count_char "@" a = 0.
Proof.
  induction a as [ | x a IH ]; cbn [Regex.all_chars Regex.count_char]; [ reflexivity | ].
  intro H. apply andb_true_iff in H as [P A]. rewrite (IH A).
  unfold SignupEmail.plain in P. apply negb_true_iff, orb_false_iff in P as [_ P].
  rewrite Ascii.eqb_sym in P. rewrite P. reflexivity.
Qed.

Lemma plain_has_no_space (a : string) :
  Regex.all_chars SignupEmail.plain a = true ->
  Regex.all_chars (fun c => negb (SignupEmail.is_space c)) a = true.
Proof.
  induction a as [ | x a IH ]; cbn; [ reflexivity | ].
  intro H. apply andb_true_iff in H as [P A]. rewrite (IH A).
  unfold SignupEmail.plain in P. apply negb_true_iff, orb_false_iff in P as [P _].
  rewrite P. reflexivity.
Qed.

Lemma all_chars_app (f : ascii -> bool) (a b : string) :
  Regex.all_chars f (a ++ b) = Regex.all_chars f a && Regex.all_chars f b.
Proof.
  induction a as [ | x a IH ]; cbn; [ reflexivity | ]. rewrite IH. apply andb_assoc.
Qed.

Lemma length_app (a b : string) :
  String.length (a ++ b) = String.length a + String.length b.
Proof.
  induction a as [ | x a IH ]; cbn; [ reflexivity | ]. rewrite IH. reflexivity.
Qed.

(** X16. SignupEmail.js, [validateEmail]: an accepted address holds exactly
    one "@", no white space, and at least five characters. *)
Theorem accepted_address_has_one_at_sign (s : string) :
  SignupEmail.validateEmail s = true ->
  Regex.count_char "@" s = 1
  /\ Regex.all_chars (fun c => negb (SignupEmail.is_space c)) s = true
  /\ 5 <= String.length s.
Proof.
  unfold SignupEmail.validateEmail. rewrite test_matches, email_matches.
  intros (a & b & c & -> & [Na Ha] & [Nb Hb] & [Nc Hc]).
  repeat split.
  - rewrite !count_char_app, (plain_has_no_at a Ha), (plain_has_no_at b Hb),
      (plain_has_no_at c Hc). reflexivity.
  - rewrite !all_chars_app, (plain_has_no_space a Ha), (plain_has_no_space b Hb),
      (plain_has_no_space c Hc). reflexivity.
  - rewrite !length_app.
    destruct a; [ contradiction | ]. destruct b; [ contradiction | ].
    destruct c; [ contradiction | ]. cbn. lia.
Qed.

Lemma plain_address_is_accepted :
  SignupEmail.validateEmail "ann@example.com" = true
  /\ Regex.count_char "@" "ann@example.com" = 1
  /\ Regex.all_chars (fun c => negb (SignupEmail.is_space c)) "ann@example.com" = true
  /\ 5 <= String.length "ann@example.com".
Proof.
  split; [ reflexivity | ].
  exact (accepted_address_has_one_at_sign "ann@example.com" eq_refl).
Defined.

(** ** What the signup pages keep in localStorage *)

Lemma getItem_setItem (k v : string) (jar : list (string * string)) :
  WebStorage.getItem k (WebStorage.setItem k v jar) = JStr v.
Proof.
  induction jar as [ | [k' v'] jar IH ]; cbn.
  - rewrite String.eqb_refl. reflexivity.
  - destruct (String.eqb k k') eqn:E; cbn; [ rewrite String.eqb_refl | rewrite E ]; auto.
Qed.

Lemma getItem_setItem_other (k k' v : string) (jar : list (string * string)) :
  String.eqb k' k = false ->
  WebStorage.getItem k' (WebStorage.setItem k v jar) = WebStorage.getItem k' jar.
Proof.
  intro N. induction jar as [ | [k0 v0] jar IH ]; cbn.
  - rewrite N. reflexivity.
  - destruct (String.eqb k k0) eqn:E; cbn.
    + apply String.eqb_eq in E. subst k0. rewrite N. reflexivity.
    + destruct (String.eqb k' k0); auto.
Qed.

Lemma getItem_removeItem (k : string) (jar : list (string * string)) :
  WebStorage.getItem k (WebStorage.removeItem k jar) = JNull.
Proof.
  unfold WebStorage.removeItem.
  induction jar as [ | [k' v'] jar IH ]; cbn; [ reflexivity | ].
  destruct (String.eqb k k') eqn:E; cbn; [ | rewrite E ]; exact IH.
Qed.

Lemma getItem_removeItem_other (k k' : string) (jar : list (string * string)) :
  String.eqb k' k = false ->
  WebStorage.getItem k' (WebStorage.removeItem k jar) = WebStorage.getItem k' jar.
Proof.
  intro N. unfold WebStorage.removeItem.
  induction jar as [ | [k0 v0] jar IH ]; cbn; [ reflexivity | ].
  destruct (String.eqb k k0) eqn:E; cbn.
  - apply String.eqb_eq in E. subst k0. rewrite N. exact IH.
  - rewrite IH. reflexivity.
Qed.

Ltac step_page :=
  unfold try_finally, try_catch, bind, ret, returned, throw, read_browser, read_comp,
    Axios.post, Axios.get, Axios.send, member, navigate, fire_and_forget,
    WebStorage.store, WebStorage.remove, WebStorage.read,
    Shell.handleLogin, Shell.on_page, Shell.on_app, App.handleLogin,
    App.setIsAuthenticated, App.setUser,
    emit, modify_comp, modify_browser;
  cbn.

(** X17. SignupEmail.js, [handleSubmit]: the address is stored and the
    password page opened exactly when the address passes
    [validateEmail]; otherwise the browser is left as it was and a
    message is shown. *)
Theorem email_step_stores_valid_addresses_only
    (s : SignupEmail.State) (w : World SignupEmail.State) :
  let w' := after (SignupEmail.handleSubmit s) w in
  if SignupEmail.validateEmail (SignupEmail.email s)
  then WebStorage.getItem "signupEmail" (localStorage (browser w')) = JStr (SignupEmail.email s)
       /\ location (browser w') = "/signup/password"
       /\ SignupEmail.error (comp w') = ""
  else browser w' = browser w
       /\ is_empty (SignupEmail.error (comp w')) = false.
Proof.
  intro w'. subst w'. unfold after, SignupEmail.handleSubmit.
  destruct (SignupEmail.email s) as [ | c e ] eqn:E.
  - cbn. unfold SignupEmail.setError. step_page. split; reflexivity.
  - cbn [is_empty negb].
    destruct (SignupEmail.validateEmail (String c e)) eqn:V; cbn [negb];
      unfold SignupEmail.setError; step_page.
    + rewrite getItem_setItem. repeat split; reflexivity.
    + split; reflexivity.
Qed.

(** X18. SignupPassword.js, the effect on mount: the page sends the user
    back to the first step exactly when no address is stored, and
    otherwise shows the stored one. *)
Theorem password_page_needs_a_stored_address (w : World SignupPassword.State) :
  let w' := after SignupPassword.on_mount w in
  let stored := WebStorage.getItem "signupEmail" (localStorage (browser w)) in
  if truthy stored
  then JStr (SignupPassword.email (comp w')) = stored
       /\ browser w' = browser w
  else location (browser w') = "/signup/email"
       /\ comp w' = comp w.
Proof.
  intros w' stored. subst w' stored. unfold after, SignupPassword.on_mount.
  assert (S : forall jar k, match WebStorage.getItem k jar with
                            | JStr _ | JNull => True | _ => False end).
  { induction jar as [ | [k0 v0] jar IH ]; intro k; cbn; [ exact I | ].
    destruct (String.eqb k k0); [ exact I | apply IH ]. }
  step_page. specialize (S (localStorage (browser w)) "signupEmail").
  destruct (WebStorage.getItem "signupEmail" (localStorage (browser w))) as [ | | | | v | | ];
    try contradiction; cbn.
  - split; reflexivity.
  - destruct v; cbn; unfold SignupPassword.setEmail; step_page; split; reflexivity.
Qed.

(** X19. SignupPassword.js, [handleSubmit]: the password is stored and the
    pricing page opened exactly when it has six characters or more and
    is typed the same twice; otherwise the browser is left as it was and
    a message is shown. *)
Theorem password_step_stores_confirmed_passwords_only
    (s : SignupPassword.State) (w : World SignupPassword.State) :
  let w' := after (SignupPassword.handleSubmit s) w in
  if Nat.leb 6 (String.length (SignupPassword.password s))
     && String.eqb (SignupPassword.password s) (SignupPassword.confirmPassword s)
  then WebStorage.getItem "signupPassword" (localStorage (browser w'))
       = JStr (SignupPassword.password s)
       /\ WebStorage.getItem "signupEmail" (localStorage (browser w'))
          = WebStorage.getItem "signupEmail" (localStorage (browser w))
       /\ location (browser w') = "/signup/pricing"
       /\ SignupPassword.error (comp w') = ""
  else browser w' = browser w
       /\ is_empty (SignupPassword.error (comp w')) = false.
Proof.
  intro w'. subst w'. unfold after, SignupPassword.handleSubmit, SignupPassword.validatePassword.
  destruct (SignupPassword.password s) as [ | c p ] eqn:E.
  - cbn. unfold SignupPassword.setError. step_page. split; reflexivity.
  - cbn [is_empty negb].
    destruct (Nat.leb 6 (String.length (String c p))) eqn:L; cbn [negb andb];
      [ | unfold SignupPassword.setError; step_page; split; reflexivity ].
    destruct (String.eqb (String c p) (SignupPassword.confirmPassword s)) eqn:Q; cbn [negb];
      unfold SignupPassword.setError; step_page.
    + rewrite getItem_setItem, getItem_setItem_other by reflexivity.
      repeat split; reflexivity.
    + split; reflexivity.
Qed.

(** ** The pricing page *)

Import ObsSignup.

Arguments WebStorage.getItem : simpl never.
Arguments WebStorage.removeItem : simpl never.
Arguments WebStorage.setItem : simpl never.

Lemma or_else_truthy (a b : JsVal) : truthy b = true -> truthy (or_else a b) = true.
Proof.
  intro B. unfold or_else. destruct (truthy a) eqn:A; assumption.
Qed.

Ltac step_pricing :=
  unfold PricingPage.setPlans, PricingPage.setSelectedPlan, PricingPage.setLoading,
    PricingPage.setError, PricingPage.setEmail, PricingPage.setPassword;
  step_page.

(** X20. PricingPage.js, [handleSignup] with [handleLogin] of App.js as
    [onSignupComplete]: without a selected plan nothing is sent; with one,
    exactly one signup request is sent and [loading] ends false. The user
    is logged in and taken to the dashboard exactly when the server
    answers with data; otherwise the application state and the location
    stay as they were and a message is shown. The stored address and
    password are removed as soon as the server answers, and kept when the
    request fails. *)
Theorem signup_logs_in_only_when_accepted
    (env : Env) (s : PricingPage.State) (w : World PricingPage.W) :
  let w' := after (PricingPage.handleSignup env Shell.handleLogin s) w in
  let req := signup_request s (PricingPage.selectedPlan s) (browser w) in
  let answer := env (sent w) req in
  if truthy (PricingPage.selectedPlan s)
  then requests (log w') = req :: requests (log w)
       /\ PricingPage.loading (Shell.page (comp w')) = false
       /\ (if accepted answer
           then App.isAuthenticated (Shell.app (comp w')) = true
                /\ App.user (Shell.app (comp w')) = user_of answer
                /\ location (browser w') = "/dashboard"
                /\ PricingPage.error (Shell.page (comp w')) = JStr ""
           else Shell.app (comp w') = Shell.app (comp w)
                /\ location (browser w') = location (browser w)
                /\ truthy (PricingPage.error (Shell.page (comp w'))) = true)
       /\ match answer with
          | Resolved _ =>
              stored "signupEmail" (browser w') = JNull
              /\ stored "signupPassword" (browser w') = JNull
          | Rejected _ => browser w' = browser w
          end
  else requests (log w') = requests (log w)
       /\ browser w' = browser w
       /\ Shell.app (comp w') = Shell.app (comp w)
       /\ PricingPage.error (Shell.page (comp w')) = JStr "Please select a pricing plan".
Proof.
  intros w' req answer. subst w' answer req.
  unfold after, PricingPage.handleSignup, signup_request, sent, stored.
  destruct (truthy (PricingPage.selectedPlan s)) eqn:P; cbn [negb].
  - step_pricing.
    destruct (env _ _) as [data | e]; cbn.
    + destruct (nullish data) eqn:N; cbn.
      * rewrite getItem_removeItem_other, !getItem_removeItem by reflexivity.
        repeat split; reflexivity.
      * rewrite getItem_removeItem_other, !getItem_removeItem by reflexivity.
        repeat split; reflexivity.
    + repeat split; try reflexivity.
      apply or_else_truthy. reflexivity.
  - step_pricing. repeat split; reflexivity.
Qed.

(** X21. PricingPage.js, [handleQuickSignup] next to [handleSignup] on the
    same plan: the same request, the same browser, application state and
    message afterwards; but the quick handler leaves [loading] true when
    the signup is accepted. *)
Theorem quick_signup_keeps_loading_when_accepted
    (env : Env) (s : PricingPage.State) (planId : JsVal) (w : World PricingPage.W) :
  truthy planId = true ->
  let quick := after (PricingPage.handleQuickSignup env Shell.handleLogin s planId) w in
  let plain := after (PricingPage.handleSignup env Shell.handleLogin
                        (PricingPage.with_selectedPlan planId s)) w in
  requests (log quick) = requests (log plain)
  /\ browser quick = browser plain
  /\ Shell.app (comp quick) = Shell.app (comp plain)
  /\ PricingPage.error (Shell.page (comp quick)) = PricingPage.error (Shell.page (comp plain))
  /\ PricingPage.selectedPlan (Shell.page (comp quick)) = planId
  /\ PricingPage.loading (Shell.page (comp quick))
     = accepted (env (sent w) (signup_request s planId (browser w)))
  /\ PricingPage.loading (Shell.page (comp plain)) = false.
Proof.
  intros P quick plain. subst quick plain. unfold after.
  remember (PricingPage.handleQuickSignup env Shell.handleLogin s planId w) as rq eqn:Q.
  remember (PricingPage.handleSignup env Shell.handleLogin
              (PricingPage.with_selectedPlan planId s) w) as rp eqn:R.
  unfold PricingPage.handleQuickSignup in Q. unfold PricingPage.handleSignup in R.
  cbn [PricingPage.selectedPlan PricingPage.with_selectedPlan] in R.
  rewrite P in R. cbn [negb] in R.
  unfold PricingPage.setSelectedPlan, PricingPage.setLoading, PricingPage.setError in Q, R.
  unfold try_finally, try_catch, bind, ret, throw, read_browser,
    Axios.post, Axios.send, member, navigate,
    WebStorage.remove, Shell.handleLogin, Shell.on_page, Shell.on_app, App.handleLogin,
    App.setIsAuthenticated, App.setUser, emit, modify_comp, modify_browser in Q, R.
  cbn in Q, R. unfold sent, signup_request, PricingPage.signup_data. cbn.
  revert Q R.
  destruct (env _ _) as [data | e]; cbn.
  - destruct (nullish data) eqn:N; cbn; intros -> ->; cbn; repeat split; reflexivity.
  - intros -> ->; cbn; repeat split; reflexivity.
Qed.

Lemma quick_signup_of_the_pro_plan :
  truthy (JStr "pro") = true
  /\ PricingPage.loading
       (Shell.page (comp (after (PricingPage.handleQuickSignup SignupScenes.welcoming
                                   Shell.handleLogin SignupScenes.ann_at_pricing (JStr "pro"))
                            SignupScenes.pricing_world)))
     = true
  /\ PricingPage.loading
       (Shell.page (comp (after (PricingPage.handleSignup SignupScenes.welcoming
                                   Shell.handleLogin
                                   (PricingPage.with_selectedPlan (JStr "pro")
                                      SignupScenes.ann_at_pricing))
                            SignupScenes.pricing_world)))
     = false.
Proof.
  split; [ reflexivity | ].
  pose proof (quick_signup_keeps_loading_when_accepted SignupScenes.welcoming
                SignupScenes.ann_at_pricing (JStr "pro") SignupScenes.pricing_world eq_refl)
    as (_ & _ & _ & _ & _ & Q & P).
  split; [ exact Q | exact P ].
Defined.


Arguments PricingPage.fetchPricingPlans : simpl never.

Lemma fetch_plans_frame {rt : JsRuntime} (env : Env) (w : World PricingPage.W) :
  let w' := after (PricingPage.fetchPricingPlans env) w in
  browser w' = browser w
  /\ requests (log w') = pricing_request (browser w) :: requests (log w)
  /\ Shell.app (comp w') = Shell.app (comp w)
  /\ PricingPage.email (Shell.page (comp w')) = PricingPage.email (Shell.page (comp w))
  /\ PricingPage.password (Shell.page (comp w')) = PricingPage.password (Shell.page (comp w))
  /\ PricingPage.loading (Shell.page (comp w')) = PricingPage.loading (Shell.page (comp w)).
Proof.
  intro w'. subst w'. unfold after, PricingPage.fetchPricingPlans, pricing_request.
  step_pricing.
  destruct (env _ _) as [data | e]; cbn; [ | repeat split; reflexivity ].
  destruct (nullish data); cbn; [ repeat split; reflexivity | ].
  destruct (nullish (Js.get data "plans")); cbn; [ repeat split; reflexivity | ].
  destruct (has_positive_length (Js.get data "plans")); cbn; [ | repeat split; reflexivity ].
  destruct (nullish (RankingHistory.first_of (Js.get data "plans"))); cbn;
    repeat split; reflexivity.
Qed.

(** X22. PricingPage.js, [fetchPricingPlans]: the plans the server offers are
    shown and the first one is selected; an empty offer selects nothing;
    when the request fails, or the answer holds no data, the page keeps
    what it had and shows a message; when the answer holds data without
    plans, the list of plans is overwritten with that missing value
    before the message is shown. *)
Theorem first_offered_plan_is_preselected
    {rt : JsRuntime} (env : Env) (w : World PricingPage.W) :
  let w' := after (PricingPage.fetchPricingPlans env) w in
  let old := Shell.page (comp w) in
  let new := Shell.page (comp w') in
  let failed := JStr "Failed to load pricing plans" in
  match env (sent w) (pricing_request (browser w)) with
  | Resolved data =>
      if nullish data
      then PricingPage.plans new = PricingPage.plans old
           /\ PricingPage.selectedPlan new = PricingPage.selectedPlan old
           /\ PricingPage.error new = failed
      else PricingPage.plans new = Js.get data "plans"
           /\ match Js.get data "plans" with
              | JArr (first :: _) =>
                  if nullish first
                  then PricingPage.selectedPlan new = PricingPage.selectedPlan old
                       /\ PricingPage.error new = failed
                  else PricingPage.selectedPlan new = Js.get first "id"
                       /\ PricingPage.error new = PricingPage.error old
              | JArr [] =>
                  PricingPage.selectedPlan new = PricingPage.selectedPlan old
                  /\ PricingPage.error new = PricingPage.error old
              | JUndefined | JNull =>
                  PricingPage.selectedPlan new = PricingPage.selectedPlan old
                  /\ PricingPage.error new = failed
              | _ => True
              end
  | Rejected _ =>
      PricingPage.plans new = PricingPage.plans old
      /\ PricingPage.selectedPlan new = PricingPage.selectedPlan old
      /\ PricingPage.error new = failed
  end.
Proof.
  intros w' old new failed. subst w' old new failed.
  unfold after, PricingPage.fetchPricingPlans, pricing_request, sent.
  step_pricing.
  destruct (env _ _) as [data | e]; cbn; [ | repeat split; reflexivity ].
  destruct (nullish data); cbn; [ repeat split; reflexivity | ].
  destruct (Js.get data "plans") as [ | | | | | [ | first rest ] | ]; cbn;
    repeat match goal with
           | |- context [if ?c then _ else _] => destruct c; cbn
           end;
    repeat split; reflexivity.
Qed.

(** X23. PricingPage.js, the effect on mount: with an address and a password
    in localStorage the page loads both and asks for the plans, once;
    otherwise it sends nothing and sends the user back to the first
    step. *)
Theorem pricing_page_needs_stored_credentials
    {rt : JsRuntime} (env : Env) (w : World PricingPage.W) :
  let w' := after (PricingPage.on_mount env) w in
  if truthy (stored "signupEmail" (browser w)) && truthy (stored "signupPassword" (browser w))
  then PricingPage.email (Shell.page (comp w')) = stored "signupEmail" (browser w)
       /\ PricingPage.password (Shell.page (comp w')) = stored "signupPassword" (browser w)
       /\ requests (log w') = [pricing_request (browser w)] ++ requests (log w)
       /\ browser w' = browser w
  else requests (log w') = requests (log w)
       /\ location (browser w') = "/signup/email"
       /\ comp w' = comp w.
Proof.
  intro w'. subst w'. unfold after, PricingPage.on_mount, stored.
  unfold PricingPage.setEmail, PricingPage.setPassword.
  unfold bind, ret, returned, read_browser, navigate, fire_and_forget, WebStorage.read,
    Shell.on_page, emit, modify_comp, modify_browser.
  cbn.
  destruct (truthy (WebStorage.getItem "signupEmail" (localStorage (browser w)))) eqn:E;
    [ destruct (truthy (WebStorage.getItem "signupPassword" (localStorage (browser w)))) eqn:P | ];
    cbn; [ | repeat split; reflexivity .. ].
  match goal with
  | |- context [PricingPage.fetchPricingPlans env ?w0] =>
      pose proof (fetch_plans_frame env w0) as F; unfold after in F; cbn in F;
      destruct F as (Fb & Fr & _ & Fe & Fp & _)
  end.
  rewrite Fb, Fr, Fe, Fp. repeat split; reflexivity.
Qed.

(** ** From the first signup page to the signup request *)

Arguments SignupPassword.validatePassword : simpl never.
Arguments SignupEmail.validateEmail : simpl never.

Lemma getItem_is_string_or_null (k : string) (jar : list (string * string)) :
  match WebStorage.getItem k jar with
  | JStr _ | JNull => True
  | _ => False
  end.
Proof.
  unfold WebStorage.getItem.
  induction jar as [ | [k0 v0] jar IH ]; [ exact I | ].
  destruct (String.eqb k k0); [ exact I | apply IH ].
Qed.

(** X24. SignupEmail.js, SignupPassword.js and PricingPage.js in sequence,
    starting without stored signup data: the pricing page loads the
    address and the password the user typed, and puts them into the
    signup request, exactly when the address passes [validateEmail] and
    the password has six characters or more; otherwise it loads nothing,
    sends nothing and sends the user back to the first step. *)
Theorem typed_credentials_reach_the_signup_request
    {rt : JsRuntime} (env : Env) (a : App.State) (e p : string) (b : Browser) :
  truthy (stored "signupEmail" b) = false ->
  truthy (stored "signupPassword" b) = false ->
  let w := SignupFlow.reach_pricing env a e p b in
  let s := Shell.page (comp w) in
  if SignupEmail.validateEmail e && SignupPassword.validatePassword p
  then PricingPage.email s = JStr e
       /\ PricingPage.password s = JStr p
       /\ location (browser w) = "/signup/pricing"
       /\ requests (log w) = [pricing_request (browser w)]
       /\ (forall planId : JsVal,
             wire_field "email" (signup_request s planId (browser w)) = JStr e
             /\ wire_field "password" (signup_request s planId (browser w)) = JStr p)
  else PricingPage.email s = JStr ""
       /\ PricingPage.password s = JStr ""
       /\ location (browser w) = "/signup/email"
       /\ requests (log w) = [].
Proof.
  intros NE NP w s. subst s w. unfold stored in NE, NP.
  unfold SignupFlow.reach_pricing, SignupFlow.enter.
  (* the first page *)
  remember (snd (SignupEmail.handleSubmit _ _)) as w1 eqn:R1.
  assert (F1 : log w1 <> [] /\ requests (log w1) = []
               /\ if SignupEmail.validateEmail e
                  then browser w1 = with_location "/signup/password"
                         (with_localStorage
                            (WebStorage.setItem "signupEmail" e (localStorage b)) b)
                  else browser w1 = b).
  { subst w1. unfold SignupEmail.handleSubmit. cbn [SignupEmail.email].
    destruct e as [ | c e ].
    - cbn. unfold SignupEmail.setError. step_page. repeat split; discriminate.
    - cbn [is_empty negb].
      destruct (SignupEmail.validateEmail (String c e)); cbn [negb];
        unfold SignupEmail.setError; step_page; repeat split; discriminate. }
  clear R1. destruct F1 as (_ & Q1 & B1).
  (* the second page, mounted and submitted *)
  remember (snd (SignupPassword.on_mount _)) as w2 eqn:R2.
  assert (F2 : requests (log w2) = []
               /\ if SignupEmail.validateEmail e
                  then browser w2 = browser w1
                  else browser w2 = with_location "/signup/email" b).
  { subst w2. unfold SignupPassword.on_mount. step_page.
    destruct (SignupEmail.validateEmail e) eqn:V; rewrite B1; cbn.
    - rewrite getItem_setItem.
      destruct e as [ | c e ]; [ discriminate V | ]. cbn.
      unfold SignupPassword.setEmail. step_page. split; [ exact Q1 | reflexivity ].
    - pose proof (getItem_is_string_or_null "signupEmail" (localStorage b)) as T.
      revert NE T.
      destruct (WebStorage.getItem "signupEmail" (localStorage b)) as [ | | | | v | | ];
        intros NE T; try contradiction; cbn.
      + split; [ exact Q1 | reflexivity ].
      + destruct v; [ | discriminate NE ].
        step_page. split; [ exact Q1 | reflexivity ]. }
  clear R2. destruct F2 as (Q2 & B2).
  remember (snd (SignupPassword.handleSubmit _ w2)) as w3 eqn:R3.
  assert (F3 : requests (log w3) = []
               /\ if SignupPassword.validatePassword p
                  then browser w3 = with_location "/signup/pricing"
                         (with_localStorage
                            (WebStorage.setItem "signupPassword" p (localStorage (browser w2)))
                            (browser w2))
                  else browser w3 = browser w2).
  { subst w3. unfold SignupPassword.handleSubmit.
    cbn [SignupPassword.password SignupPassword.confirmPassword].
    rewrite String.eqb_refl. cbn [negb].
    destruct p as [ | c p ].
    - cbn. unfold SignupPassword.setError. step_page. split; [ exact Q2 | reflexivity ].
    - cbn [is_empty negb].
      destruct (SignupPassword.validatePassword (String c p)); cbn [negb];
        unfold SignupPassword.setError; step_page; (split; [ exact Q2 | reflexivity ]). }
  clear R3. destruct F3 as (Q3 & B3).
  (* the third page, mounted *)
  unfold PricingPage.on_mount.
  unfold PricingPage.setEmail, PricingPage.setPassword.
  unfold bind, ret, returned, read_browser, navigate, fire_and_forget, WebStorage.read,
    Shell.on_page, emit, modify_comp, modify_browser.
  cbn.
  destruct (SignupEmail.validateEmail e) eqn:V; cbn [andb].
  - destruct (SignupPassword.validatePassword p) eqn:L.
    + rewrite B3, B2, B1. cbn.
      rewrite getItem_setItem, getItem_setItem_other, getItem_setItem by reflexivity.
      destruct e as [ | c e ]; [ discriminate V | ].
      destruct p as [ | d p ]; [ discriminate L | ]. cbn.
      match goal with
      | |- context [PricingPage.fetchPricingPlans env ?w0] =>
          pose proof (fetch_plans_frame env w0) as F; unfold after in F; cbn in F;
          destruct F as (Fb & Fr & _ & Fe & Fp & _)
      end.
      unfold wire_field, signup_request, PricingPage.signup_data, Axios.outgoing.
      cbn [body option_map json_wire Js.get lookup String.eqb Ascii.eqb Bool.eqb].
      rewrite Fb, Fr, Fe, Fp, Q3.
      repeat split; reflexivity.
    + rewrite B3, B2, B1. cbn. rewrite getItem_setItem.
      destruct e as [ | c e ]; [ discriminate V | ]. cbn.
      pose proof (getItem_is_string_or_null "signupPassword"
                    (WebStorage.setItem "signupEmail" (String c e) (localStorage b))) as T.
      rewrite getItem_setItem_other in T |- * by reflexivity.
      rewrite NP. cbn. rewrite Q3. repeat split; reflexivity.
  - destruct (SignupPassword.validatePassword p) eqn:L; rewrite B3, B2; cbn.
    + rewrite getItem_setItem_other by reflexivity. rewrite NE. cbn.
      rewrite Q3. repeat split; reflexivity.
    + rewrite NE. cbn. rewrite Q3. repeat split; reflexivity.
Qed.

Lemma ann_reaches_the_signup_request :
  truthy (stored "signupEmail" (Samples.fresh_browser "/signup/email")) = false
  /\ truthy (stored "signupPassword" (Samples.fresh_browser "/signup/email")) = false
  /\ (let w := SignupFlow.reach_pricing (rt := Samples.host) SignupScenes.welcoming
                 SignupScenes.visitor "ann@example.com" "secret1"
                 (Samples.fresh_browser "/signup/email") in
      location (browser w) = "/signup/pricing"
      /\ wire_field "email" (signup_request (Shell.page (comp w)) (JStr "basic") (browser w))
         = JStr "ann@example.com"
      /\ wire_field "password" (signup_request (Shell.page (comp w)) (JStr "basic") (browser w))
         = JStr "secret1").
Proof.
  split; [ reflexivity | ]. split; [ reflexivity | ].
  pose proof (typed_credentials_reach_the_signup_request (rt := Samples.host)
                SignupScenes.welcoming SignupScenes.visitor "ann@example.com" "secret1"
                (Samples.fresh_browser "/signup/email") eq_refl eq_refl)
    as (_ & _ & L & _ & B).
  split; [ exact L | exact (B (JStr "basic")) ].
Defined.

(** ** Logging in *)

Lemma login_failure_is_shown (e : JsError) : truthy (Login.login_failure e) = true.
Proof.
  unfold Login.login_failure.
  destruct (truthy (response_data e "email") || truthy (response_data e "password"));
    [ reflexivity | apply or_else_truthy; reflexivity ].
Qed.

(** X25. Login.js, [handleSubmit] with [handleLogin] of App.js as [onLogin]:
    exactly one login request is sent, carrying the address and the
    password of the form, and [loading] ends false. The user is logged in
    and taken to the dashboard exactly when the server answers with data;
    otherwise the application state, the location and the stored data
    stay as they were and a message is shown. *)
Theorem login_succeeds_only_when_accepted
    (env : Env) (s : Login.State) (w : World Login.W) :
  let w' := after (Login.handleSubmit env Shell.handleLogin s) w in
  let req := login_request s (browser w) in
  let answer := env (sent w) req in
  requests (log w') = req :: requests (log w)
  /\ wire_field "email" req = JStr (Login.email s)
  /\ wire_field "password" req = JStr (Login.password s)
  /\ Login.loading (Shell.page (comp w')) = false
  /\ (if accepted answer
      then App.isAuthenticated (Shell.app (comp w')) = true
           /\ App.user (Shell.app (comp w')) = user_of answer
           /\ location (browser w') = "/dashboard"
           /\ Login.error (Shell.page (comp w')) = JStr ""
      else Shell.app (comp w') = Shell.app (comp w)
           /\ browser w' = browser w
           /\ truthy (Login.error (Shell.page (comp w'))) = true).
Proof.
  intros w' req answer. subst w' answer req. unfold after.
  remember (Login.handleSubmit env Shell.handleLogin s w) as r eqn:R.
  unfold Login.handleSubmit, Login.setLoading, Login.setError in R.
  unfold try_finally, try_catch, bind, ret, throw, read_browser,
    Axios.post, Axios.send, member, navigate,
    Shell.handleLogin, Shell.on_page, Shell.on_app, App.handleLogin,
    App.setIsAuthenticated, App.setUser, emit, modify_comp, modify_browser in R.
  cbn in R. unfold sent, login_request. revert R.
  destruct (env _ _) as [data | e]; cbn.
  - destruct (nullish data) eqn:N; cbn; intros ->; cbn; repeat split; reflexivity.
  - intros ->; cbn. repeat split; try reflexivity. apply login_failure_is_shown.
Qed.

(** X26. Login.js and App.js: once the authentication check is over and no
    logout is under way, an accepted login ends on the dashboard, and a
    refused one leaves a logged-out user on the login page. *)
Theorem accepted_login_shows_the_dashboard
    (env : Env) (s : Login.State) (w : World Login.W) :
  App.loading (Shell.app (comp w)) = false ->
  App.logoutInProgress (Shell.app (comp w)) = false ->
  App.isAuthenticated (Shell.app (comp w)) = false ->
  location (browser w) = "/login" ->
  let w' := after (Login.handleSubmit env Shell.handleLogin s) w in
  Router.follow 0 (Shell.app (comp w')) (location (browser w'))
  = if accepted (env (sent w) (login_request s (browser w)))
    then App.Dashboard
    else App.Login.
Proof.
  intros L P U A w'. subst w'. unfold after.
  remember (Login.handleSubmit env Shell.handleLogin s w) as r eqn:R.
  unfold Login.handleSubmit, Login.setLoading, Login.setError in R.
  unfold try_finally, try_catch, bind, ret, throw, read_browser,
    Axios.post, Axios.send, member, navigate,
    Shell.handleLogin, Shell.on_page, Shell.on_app, App.handleLogin,
    App.setIsAuthenticated, App.setUser, emit, modify_comp, modify_browser in R.
  cbn in R. unfold sent, login_request. revert R.
  destruct (env _ _) as [data | e]; cbn.
  - destruct (nullish data) eqn:N; cbn; intros ->; cbn.
    + rewrite A. unfold App.render. rewrite L, U. reflexivity.
    + unfold App.render. cbn. rewrite L, P. reflexivity.
  - intros ->; cbn. rewrite A. unfold App.render. rewrite L, U. reflexivity.
Qed.

Lemma ann_logs_in :
  App.loading (Shell.app (comp SignupScenes.login_world)) = false
  /\ App.logoutInProgress (Shell.app (comp SignupScenes.login_world)) = false
  /\ App.isAuthenticated (Shell.app (comp SignupScenes.login_world)) = false
  /\ location (browser SignupScenes.login_world) = "/login"
  /\ (let w' := after (Login.handleSubmit SignupScenes.welcoming Shell.handleLogin
                         SignupScenes.ann_at_login) SignupScenes.login_world in
      Router.follow 0 (Shell.app (comp w')) (location (browser w')) = App.Dashboard).
Proof.
  repeat (split; [ reflexivity | ]).
  exact (accepted_login_shows_the_dashboard SignupScenes.welcoming SignupScenes.ann_at_login
           SignupScenes.login_world eq_refl eq_refl eq_refl eq_refl).
Defined.
